(** * sage_app_ia: the upload / analysis cycle and the period-changed channel

    A shallow embedding of the parts of the React front end that decide how
    an accounting period travels from the upload form to the panels:

    - [src/components/UploadSection.jsx]   ([handleUploadClick],
      [performUploadAndAnalyze], the confirmation dialog);
    - [src/components/AlertsPanel.jsx], [src/pages/Dashboard.jsx],
      [src/components/AnalyticsSummary.jsx]  (how each reads the stored
      period and what its ["analysis-period-changed"] listener does);
    - [src/services/aiService.js], [src/services/uploadService.js].

    Browser state is passed explicitly: [localStorage] is a finite map from
    keys to strings, the listeners of [window] are a list in registration
    order, and every observable action (HTTP request, storage write, event
    dispatch, listener call) is appended to a trace. The backend is an
    arbitrary function from requests to responses. *)

From Stdlib Require Import ZArith String Ascii List Bool Lia.
From Stdlib Require Import DecimalString DecimalZ DecimalPos.
From stdpp Require Import base option list gmap strings.

Import ListNotations.
Local Open Scope string_scope.
Local Open Scope Z_scope.

(** ** JavaScript values used by the components *)

Module JS.

(** A JavaScript Number. The components only ever compute with years and
    counters, so the embedding keeps the integers and [NaN]; fractional
    and infinite doubles are not represented. *)
Inductive Num : Type :=
| Int (z : Z)
| NaN.

#[global] Instance Num_eq_dec : EqDecision Num.
Proof. solve_decision. Defined.

(** Truthiness, as used by [!x], [x || y], [x && y] and [x ? a : b]. *)
Definition truthyNum (n : Num) : bool :=
  match n with
  | Int z => negb (z =? 0)
  | NaN => false
  end.

Definition truthyStr (s : string) : bool :=
  match s with
  | EmptyString => false
  | String _ _ => true
  end.

(** A value that may be [null] or [undefined]. *)
Definition truthyOpt {A} (truthy : A -> bool) (o : option A) : bool :=
  match o with
  | Some a => truthy a
  | None => false
  end.

(** [a || b] on strings. *)
Definition orStr (a : option string) (b : string) : string :=
  match a with
  | Some s => if truthyStr s then s else b
  | None => b
  end.

(** [a || b] on numbers. *)
Definition orNum (a : Num) (b : Num) : Num :=
  if truthyNum a then a else b.

(** [a ?? b]. *)
Definition nullish {A} (a : option A) (b : A) : A :=
  match a with
  | Some x => x
  | None => b
  end.

(** [String(n)] for a Number (in plain digits, as JavaScript prints an
    integer below 1e21). *)
Definition String_of_Num (n : Num) : string :=
  match n with
  | Int z => NilEmpty.string_of_int (Z.to_int z)
  | NaN => "NaN"
  end.

Definition digits (s : string) : option Z :=
  match NilZero.uint_of_string s with
  | Some d => Some (Z.of_uint d)
  | None => None
  end.

(** [Number(s)] for a string, on the decimal-integer literals: the empty
    string is [0], an optional sign followed by decimal digits is that
    integer, and anything else is [NaN]. (JavaScript also reads literals
    with a fraction, an exponent, a radix prefix or white space around
    them, and rounds beyond 2^53; these are outside the embedding, which
    answers [NaN] or the exact integer. No component writes such a string:
    the year entry is written as [String(annee)] of a year of the menu.) *)
Definition Number_of_string (s : string) : Num :=
  match s with
  | EmptyString => Int 0
  | String c t =>
      if Ascii.eqb c "-" then
        match digits t with Some z => Int (- z) | None => NaN end
      else if Ascii.eqb c "+" then
        match digits t with Some z => Int z | None => NaN end
      else
        match digits s with Some z => Int z | None => NaN end
  end.

(** [Number(x)] where [x] is a string or [null]: [Number(null)] is [0]. *)
Definition Number_of_item (o : option string) : Num :=
  match o with
  | Some s => Number_of_string s
  | None => Int 0
  end.

(** A value of any type, as the listeners of the period event look at
    it: they test it ([if (m && y)]) and convert it ([Number(y)]), and do
    nothing else with it. *)
Record Any : Type := { isTruthy : bool; toNumber : Num }.

(** A number, and a string, as such values. *)
Definition ofNum (n : Num) : Any :=
  {| isTruthy := truthyNum n; toNumber := n |}.

Definition ofStr (s : string) : Any :=
  {| isTruthy := truthyStr s; toNumber := Number_of_string s |}.

(** [c.toLowerCase()] on one code unit. Outside ASCII the real mapping
    never produces one of the characters of [".xlsx"], so for the suffix
    test below the ASCII mapping decides the same. *)
Definition lowerAscii (c : ascii) : ascii :=
  let n := nat_of_ascii c in
  if ((65 <=? n) && (n <=? 90))%nat then ascii_of_nat (n + 32) else c.

Fixpoint toLowerCase (s : string) : string :=
  match s with
  | EmptyString => EmptyString
  | String c t => String (lowerAscii c) (toLowerCase t)
  end.

(** [s.endsWith(suffix)]. *)
Definition endsWith (s suffix : string) : bool :=
  let n := String.length s in
  let k := String.length suffix in
  if (k <=? n)%nat then String.eqb (substring (n - k) k s) suffix else false.

(** [new Date()]: the two readings the components take from it. *)
Record Date : Type := {
  getMonth : nat;
  getFullYear : Z;
  getMonth_range : (getMonth < 12)%nat
}.

End JS.

Import JS.


(** ** The browser: storage, HTTP and the trace of observable actions *)

Definition API_BASE : string := "http://127.0.0.1:8000".

Definition MOIS : list string :=
  [ "janvier"; "fevrier"; "mars"; "avril"; "mai"; "juin";
    "juillet"; "aout"; "septembre"; "octobre"; "novembre"; "decembre" ].

(** [MOIS[d.getMonth()]] (written three times in the source, twice as
    [monthNameFR]). *)
Definition monthNameFR (d : Date) : string := nth (getMonth d) MOIS "".
(* [getMonth] is below 12 ([getMonth_range]): the default is never taken. *)

Module Net.

Record File : Type := { name : string }.

Inductive Method : Type := GET | POST.

Inductive Value : Type :=
| VStr (s : string)
| VNum (n : Num)
| VFile (f : File).

(** What a request carries besides its headers: a multipart form, a JSON
    body or query parameters, each as the list of its entries in the
    order the source writes them. *)
Inductive Body : Type :=
| Form (entries : list (string * Value))
| Json (entries : list (string * Value))
| Params (entries : list (string * Value)).

Record Request : Type := {
  method : Method;
  url : string;
  body : Body;
  headers : list (string * string)
}.

Record RowsLoaded : Type := {
  ventes : option Num; achats : option Num; stock : option Num;
  depenses : option Num; marge : option Num; banque : option Num;
  caisse : option Num; clients : option Num
}.

Record Analysis : Type := {
  inserted_anomalies : option Num;
  count : option Num;
  critical : option Num
}.

(** The JSON the backend answers with; only the fields a component
    reads are broken out, the rest stays in [raw]. *)
Record Data : Type := {
  rows_loaded : option RowsLoaded;   (* data.etl_summary.rows_loaded *)
  analysis : option Analysis;        (* data.analysis *)
  raw : string
}.

(** A thrown value: an axios error ([response] set when the backend
    answered with a non-2xx status) or a plain [new Error(message)]. *)
Record ErrResponse : Type := { status : Z; detail : option string }.

Record Error : Type := {
  response : option ErrResponse;
  message : string
}.

Definition newError (msg : string) : Error :=
  {| response := None; message := msg |}.

Inductive Response : Type :=
| Resolved (data : Data)
| Rejected (err : Error).

Definition Backend : Type := Request -> Response.

(** [err?.response?.data?.detail || err?.message || fallback] *)
Definition errorText (err : Error) (fallback : string) : string :=
  orStr (response err ≫= detail) (orStr (Some (message err)) fallback).

(** [token ? `Bearer ${token}` : ""] *)
Definition bearer (token : option string) : string :=
  if truthyOpt truthyStr token then "Bearer " +:+ default "" token else "".

(** The value of a header, if the request has it. *)
Definition header (k : string) (r : Request) : option string :=
  snd <$> List.find (fun kv => String.eqb (fst kv) k) (headers r).

End Net.

Import Net.

(** The payload of the ["analysis-period-changed"] event. A listener may
    be handed an event without [detail], or a [detail] lacking a field
    ([None]: absent, [undefined] or [null]); nothing checks the type of
    the year, which the listeners pass through [Number()]. The month is
    stored as it comes; it is a string in every payload that is built. *)
Record Detail : Type := { d_mois : option string; d_annee : option Any }.
Record CustomEvent : Type := { detail : option Detail }.

Record Period : Type := { mois : string; annee : Num }.

Inductive Effect : Type :=
| Http (r : Request)
| SetItem (k v : string)
| Dispatch (ev : CustomEvent)
| Invoke (listener : nat) (ev : CustomEvent).

Definition analysisMonth : string := "analysisMonth".
Definition analysisYear : string := "analysisYear".

(** ** src/services/aiService.js *)

Module aiService.

Definition summaryRequest (token : option string) (m : string) (y : Num) : Request :=
  {| method := GET;
     url := API_BASE +:+ "/ai/summary";
     body := Params [("mois", VStr m); ("annee", VNum y)];
     headers := [("Authorization", bearer token)] |}.

(** [getMonthSummary({ mois, annee })]: the request it issues and what the
    promise settles to (a rejection is the backend's error, untouched). *)
Definition getMonthSummary (net : Backend) (localStorage : gmap string string)
    (m : string) (y : Num) : list Effect * Response :=
  let token := localStorage !! "token" in
  let req := summaryRequest token m y in
  ([Http req], net req).

End aiService.

(** ** The observer components *)

Module AlertsPanel.

Definition readStoredPeriod (localStorage : gmap string string) (now : Date) : Period :=
  let m := localStorage !! analysisMonth in
  let a := localStorage !! analysisYear in
  {| mois := orStr m (monthNameFR now);
     annee := match a with
              | Some s => if truthyStr s then Number_of_string s
                          else Int (getFullYear now)
              | None => Int (getFullYear now)
              end |}.

(** The listener: [if (mois && annee) setPeriode({ mois, annee: Number(annee) })]. *)
Definition handler (e : CustomEvent) (periode : Period) : Period :=
  let d := default {| d_mois := None; d_annee := None |} (detail e) in
  match d_mois d, d_annee d with
  | Some m, Some y =>
      if truthyStr m && isTruthy y
      then {| mois := m; annee := toNumber y |} else periode
  | _, _ => periode
  end.

End AlertsPanel.

Module Dashboard.

Definition initialPeriod (localStorage : gmap string string) (now : Date) : Period :=
  let currentMonth := monthNameFR now in
  let currentYear := Int (getFullYear now) in
  {| mois := orStr (localStorage !! analysisMonth) currentMonth;
     annee := orNum (Number_of_item (localStorage !! analysisYear)) currentYear |}.

(** [onPeriod]: [if (m && y) setPeriod({ mois: m, annee: Number(y) })]. *)
Definition onPeriod (e : CustomEvent) (period : Period) : Period :=
  let m := detail e ≫= d_mois in
  let y := detail e ≫= d_annee in
  match m, y with
  | Some m, Some y =>
      if truthyStr m && isTruthy y
      then {| mois := m; annee := toNumber y |} else period
  | _, _ => period
  end.

End Dashboard.

Module AnalyticsSummary.

Record State : Type := {
  mois : string;
  annee : Num;
  loading : bool;
  error : string;
  summary : option Data
}.

Definition initial (localStorage : gmap string string) (now : Date) : State :=
  {| mois := orStr (localStorage !! analysisMonth) (monthNameFR now);
     annee := match localStorage !! analysisYear with
              | Some s => if truthyStr s then Number_of_string s
                          else Int (getFullYear now)
              | None => Int (getFullYear now)
              end;
     loading := false;
     error := "";
     summary := None |}.

Definition period (st : State) : Period :=
  Build_Period (mois st) (annee st).

Definition fetchSummary (net : Backend) (localStorage : gmap string string)
    (m : string) (y : Num) (st : State) : State * list Effect :=
  let '(fx, res) := aiService.getMonthSummary net localStorage m y in
  match res with
  | Resolved data =>
      ({| mois := mois st; annee := annee st; loading := false;
          error := ""; summary := Some data |}, fx)
  | Rejected e =>
      let msg := errorText e "Erreur lors du chargement du résumé." in
      ({| mois := mois st; annee := annee st; loading := false;
          error := msg; summary := None |}, fx)
  end.

(** [onChange]: [if (m && y) { setMois(m); setAnnee(Number(y)); fetchSummary(m, Number(y)) }]. *)
Definition onChange (net : Backend) (localStorage : gmap string string)
    (ev : CustomEvent) (st : State) : State * list Effect :=
  let m := detail ev ≫= d_mois in
  let y := detail ev ≫= d_annee in
  match m, y with
  | Some m, Some y =>
      if truthyStr m && isTruthy y then
        fetchSummary net localStorage m (toNumber y)
          {| mois := m; annee := toNumber y; loading := loading st;
             error := error st; summary := summary st |}
      else (st, [])
  | _, _ => (st, [])
  end.

End AnalyticsSummary.

(** ** [window]: storage, listeners, mounted components, trace *)

Inductive Panel : Type :=
| PAlerts (periode : Period)
| PDashboard (period : Period)
| PSummary (st : AnalyticsSummary.State).

(** [listeners] holds the callbacks registered for
    ["analysis-period-changed"], oldest first; a callback is named by the
    component instance whose mount effect created it. [panels] holds the
    state of the instances that are mounted. *)
Record World : Type := {
  localStorage : gmap string string;
  listeners : list nat;
  panels : gmap nat Panel;
  nextId : nat;
  trace : list Effect
}.

Module Window.

Definition empty : World :=
  {| localStorage := ∅; listeners := []; panels := ∅; nextId := 0%nat; trace := [] |}.

Definition log (fx : list Effect) (w : World) : World :=
  {| localStorage := localStorage w; listeners := listeners w;
     panels := panels w; nextId := nextId w; trace := trace w ++ fx |}.

Definition getItem (k : string) (w : World) : option string :=
  localStorage w !! k.

Definition setItem (k v : string) (w : World) : World :=
  {| localStorage := <[k := v]> (localStorage w); listeners := listeners w;
     panels := panels w; nextId := nextId w; trace := trace w ++ [SetItem k v] |}.

(** Registering a callback that is already registered does nothing. *)
Definition addEventListener (id : nat) (w : World) : World :=
  {| localStorage := localStorage w;
     listeners := if bool_decide (id ∈ listeners w) then listeners w
                  else listeners w ++ [id];
     panels := panels w; nextId := nextId w; trace := trace w |}.

Definition removeEventListener (id : nat) (w : World) : World :=
  {| localStorage := localStorage w;
     listeners := List.filter (fun j => negb (Nat.eqb j id)) (listeners w);
     panels := panels w; nextId := nextId w; trace := trace w |}.

Definition setPanel (id : nat) (p : Panel) (fx : list Effect) (w : World) : World :=
  {| localStorage := localStorage w; listeners := listeners w;
     panels := <[id := p]> (panels w); nextId := nextId w;
     trace := trace w ++ fx |}.

(** One callback run on the event. A state setter of an instance that
    is no longer mounted changes nothing. The trace holds what the
    callback itself does; the requests a panel issues when it is rendered
    again on a new period are those of [AlertsList.receive] and
    [AnomaliesPanel.update] below. *)
Definition callListener (net : Backend) (ev : CustomEvent) (w : World) (id : nat) : World :=
  match panels w !! id with
  | Some (PAlerts p) =>
      setPanel id (PAlerts (AlertsPanel.handler ev p)) [Invoke id ev] w
  | Some (PDashboard p) =>
      setPanel id (PDashboard (Dashboard.onPeriod ev p)) [Invoke id ev] w
  | Some (PSummary st) =>
      let '(st', fx) := AnalyticsSummary.onChange net (localStorage w) ev st in
      setPanel id (PSummary st') (Invoke id ev :: fx) w
  | None => log [Invoke id ev] w
  end.

(** [window.dispatchEvent(ev)]: every callback registered when the
    dispatch starts is run once, synchronously, in registration order. *)
Definition callAll (net : Backend) (ev : CustomEvent) (l : list nat) (w : World) : World :=
  fold_left (callListener net ev) l w.

Definition dispatchEvent (net : Backend) (ev : CustomEvent) (w : World) : World :=
  callAll net ev (listeners w) (log [Dispatch ev] w).

(** Mounting a component: initial state from storage, then its effect
    registers the listener. *)
Definition mountWith (p : Panel) (fx : list Effect) (w : World) : nat * World :=
  let id := nextId w in
  (id,
   addEventListener id
     {| localStorage := localStorage w; listeners := listeners w;
        panels := <[id := p]> (panels w); nextId := S id;
        trace := trace w ++ fx |}).

Definition mountAlertsPanel (now : Date) (w : World) : nat * World :=
  mountWith (PAlerts (AlertsPanel.readStoredPeriod (localStorage w) now)) [] w.

Definition mountDashboard (now : Date) (w : World) : nat * World :=
  mountWith (PDashboard (Dashboard.initialPeriod (localStorage w) now)) [] w.

Definition mountAnalyticsSummary (net : Backend) (now : Date) (w : World) : nat * World :=
  let st := AnalyticsSummary.initial (localStorage w) now in
  let '(st', fx) :=
    AnalyticsSummary.fetchSummary net (localStorage w)
      (AnalyticsSummary.mois st) (AnalyticsSummary.annee st) st in
  mountWith (PSummary st') fx w.

(** Unmounting: the effect's cleanup removes the listener and the
    instance's state is dropped. *)
Definition unmount (id : nat) (w : World) : World :=
  let w' := removeEventListener id w in
  {| localStorage := localStorage w'; listeners := listeners w';
     panels := delete id (panels w'); nextId := nextId w'; trace := trace w' |}.

(** The events a given callback was run on, oldest first. *)
Definition deliveries (id : nat) (t : list Effect) : list CustomEvent :=
  omap (fun e => match e with
                 | Invoke j ev => if Nat.eqb j id then Some ev else None
                 | _ => None
                 end) t.

(** The period a mounted panel currently shows. *)
Definition panelPeriod (p : Panel) : Period :=
  match p with
  | PAlerts p => p
  | PDashboard p => p
  | PSummary st => AnalyticsSummary.period st
  end.

End Window.

(** ** Async functions: state passing with exceptions

    An [async] body is run to completion: each [await] takes the backend's
    answer and either continues or throws. *)

Module Async.

Definition M (S A : Type) : Type := S -> (Error + A) * S.

Definition ret {S A} (a : A) : M S A := fun s => (inr a, s).

Definition throw {S A} (e : Error) : M S A := fun s => (inl e, s).

Definition bind {S A B} (c : M S A) (k : A -> M S B) : M S B :=
  fun s =>
    match c s with
    | (inr a, s') => k a s'
    | (inl e, s') => (inl e, s')
    end.

Definition gets {S A} (f : S -> A) : M S A := fun s => (inr (f s), s).

Definition modify {S} (f : S -> S) : M S unit := fun s => (inr tt, f s).

(** [try { body } catch (err) { handler } finally { cleanup }] where
    neither [handler] nor [cleanup] throws. *)
Definition tryCatchFinally {S} (body : M S unit) (handler : Error -> S -> S)
    (cleanup : S -> S) : S -> S :=
  fun s =>
    match body s with
    | (inr _, s') => cleanup s'
    | (inl e, s') => cleanup (handler e s')
    end.

End Async.

Declare Scope async_scope.
Delimit Scope async_scope with async.
Notation "x <- c ;; k" := (Async.bind c (fun x => k))
  (at level 100, c at next level, right associativity) : async_scope.
Notation "c ;; k" := (Async.bind c (fun _ => k))
  (at level 100, right associativity) : async_scope.

(** ** src/components/UploadSection.jsx *)

Module UploadSection.

Record State : Type := {
  files : list File;
  typeFichier : string;
  mois : string;
  annee : Num;
  successMessage : string;
  error : string;
  confirmOpen : bool;
  loading : bool
}.

Definition initial (now : Date) : State :=
  {| files := []; typeFichier := ""; mois := ""; annee := Int (getFullYear now);
     successMessage := ""; error := ""; confirmOpen := false; loading := false |}.

Definition setFiles (v : list File) (st : State) : State :=
  {| files := v; typeFichier := typeFichier st; mois := mois st; annee := annee st;
     successMessage := successMessage st; error := error st;
     confirmOpen := confirmOpen st; loading := loading st |}.

Definition setSuccessMessage (v : string) (st : State) : State :=
  {| files := files st; typeFichier := typeFichier st; mois := mois st; annee := annee st;
     successMessage := v; error := error st;
     confirmOpen := confirmOpen st; loading := loading st |}.

Definition setError (v : string) (st : State) : State :=
  {| files := files st; typeFichier := typeFichier st; mois := mois st; annee := annee st;
     successMessage := successMessage st; error := v;
     confirmOpen := confirmOpen st; loading := loading st |}.

Definition setConfirmOpen (v : bool) (st : State) : State :=
  {| files := files st; typeFichier := typeFichier st; mois := mois st; annee := annee st;
     successMessage := successMessage st; error := error st;
     confirmOpen := v; loading := loading st |}.

Definition setLoading (v : bool) (st : State) : State :=
  {| files := files st; typeFichier := typeFichier st; mois := mois st; annee := annee st;
     successMessage := successMessage st; error := error st;
     confirmOpen := confirmOpen st; loading := v |}.

(** [(f) => !f.name.toLowerCase().endsWith(".xlsx")] *)
Definition notXlsx (f : File) : bool :=
  negb (endsWith (toLowerCase (name f)) ".xlsx").

(** 1) Click on "Uploader": validation, then open the confirmation. *)
Definition handleUploadClick (st0 : State) : State :=
  let st := setError "" (setSuccessMessage "" st0) in
  if negb (truthyStr (typeFichier st0)) || negb (truthyStr (mois st0))
     || negb (truthyNum (annee st0)) then
    setError "Veuillez sélectionner le type de fichier, le mois et l’année." st
  else if (length (files st0) =? 0)%nat then
    setError "Veuillez sélectionner au moins un fichier .xlsx." st
  else
    match List.find notXlsx (files st0) with
    | Some invalid =>
        setError ("Seuls les fichiers .xlsx sont autorisés (fichier invalide : "
                  +:+ name invalid +:+ ")") st
    | None => setConfirmOpen true st
    end.

(** The two requests of the cycle. *)
Definition uploadRequest (token : option string) (st : State) : Request :=
  {| method := POST;
     url := API_BASE +:+ "/upload-excel";
     body := Form ([("type_fichier", VStr (typeFichier st));
                    ("mois", VStr (mois st));
                    ("annee", VStr (String_of_Num (annee st)))]
                   ++ List.map (fun f => ("files", VFile f)) (files st));
     headers := [("Authorization", bearer token);
                 ("Content-Type", "multipart/form-data")] |}.

Definition analysisRequest (token : option string) (st : State) : Request :=
  {| method := POST;
     url := API_BASE +:+ "/etl/load-month";
     body := Json [("mois", VStr (mois st)); ("annee", VNum (annee st));
                   ("type_fichier", VStr (typeFichier st))];
     headers := [("Authorization", bearer token)] |}.

(** [rows.k || 0] *)
Definition orZero (o : option Num) : Num :=
  match o with
  | Some n => orNum n (Int 0)
  | None => Int 0
  end.

Definition summaryText (data : Data) : string :=
  let rows := rows_loaded data in
  let ana := analysis data in
  let anomalies :=
    match ana ≫= inserted_anomalies with
    | Some n => n
    | None => nullish (ana ≫= count) (Int 0)
    end in
  let crit := nullish (ana ≫= critical) (Int 0) in
  let row (f : RowsLoaded -> option Num) := String_of_Num (orZero (rows ≫= f)) in
  "✅ Chargement terminé. "
  +:+ "Ventes:" +:+ row ventes +:+ " Achats:" +:+ row achats
  +:+ " Stock:" +:+ row stock +:+ " "
  +:+ "Dépenses:" +:+ row depenses +:+ " Marge:" +:+ row marge
  +:+ " Banque:" +:+ row banque +:+ " "
  +:+ "Caisse:" +:+ row caisse +:+ " Clients:" +:+ row clients +:+ ". "
  +:+ "Analyse IA: " +:+ String_of_Num anomalies +:+ " anomalie(s), dont "
  +:+ String_of_Num crit +:+ " critique(s).".

(** The component together with the window it runs in. *)
Definition Sys : Type := State * World.

Definition ui (f : State -> State) : Async.M Sys unit :=
  Async.modify (fun s => (f (fst s), snd s)).

Definition win (f : World -> World) : Async.M Sys unit :=
  Async.modify (fun s => (fst s, f (snd s))).

(** [await axios.post(...)]: the request goes out, the answer comes
    back or the promise rejects. *)
Definition axios (net : Backend) (req : Request) : Async.M Sys Data :=
  fun s =>
    let s' := (fst s, Window.log [Http req] (snd s)) in
    match net req with
    | Resolved data => (inr data, s')
    | Rejected err => (inl err, s')
    end.

(** The event the cycle publishes; [annee] is the number of the form. *)
Definition periodChanged (st : State) : CustomEvent :=
  {| detail := Some {| d_mois := Some (mois st); d_annee := Some (ofNum (annee st)) |} |}.

(** 2) The whole chain: upload, then ETL (which starts the analysis in
    the backend). The closure reads [files], [typeFichier], [mois] and
    [annee] of the render in which the dialog was confirmed, [st0]. *)
Definition performUploadAndAnalyze (net : Backend) (st0 : State) (w0 : World) : Sys :=
  let body : Async.M Sys unit :=
    (token <- Async.gets (fun s => Window.getItem "token" (snd s)) ;;
     (* 2.1 upload *)
     axios net (uploadRequest token st0) ;;
     (* 2.2 ETL + analysis *)
     data <- axios net (analysisRequest token st0) ;;
     ui (setSuccessMessage (summaryText data)) ;;
     (* remember the period and notify the dashboard *)
     win (Window.setItem analysisMonth (mois st0)) ;;
     win (Window.setItem analysisYear (String_of_Num (annee st0))) ;;
     win (Window.dispatchEvent net (periodChanged st0)) ;;
     ui (setFiles []))%async in
  Async.tryCatchFinally body
    (fun err s =>
       (setError (errorText err "Erreur durant l’opération (upload/ETL/IA).") (fst s),
        snd s))
    (fun s => (setConfirmOpen false (setLoading false (fst s)), snd s))
    (setLoading true st0, w0).

(** The dialog's "Annuler" button. *)
Definition cancel (st : State) : State := setConfirmOpen false st.

(** The dialog's [onClose]: [!loading && setConfirmOpen(false)]. *)
Definition onClose (st : State) : State :=
  if negb (loading st) then setConfirmOpen false st else st.

End UploadSection.

(** ** src/services/uploadService.js *)

Module uploadService.

Record Args : Type := {
  type_fichier : string;
  mois : string;
  annee : Num;
  files : option (list File)
}.

Definition uploadRequest (token : string) (a : Args) : Request :=
  {| method := POST;
     url := API_BASE +:+ "/upload-excel";
     body := Form ([("type_fichier", VStr (type_fichier a));
                    ("mois", VStr (mois a));
                    ("annee", VStr (String_of_Num (annee a)))]
                   ++ List.map (fun f => ("files", VFile f)) (default [] (files a)));
     headers := [("Authorization", "Bearer " +:+ token);
                 ("Content-Type", "multipart/form-data")] |}.

Definition uploadExcels (net : Backend) (a : Args) : Async.M World Data :=
  if negb (truthyStr (type_fichier a)) || negb (truthyStr (mois a))
     || negb (truthyNum (annee a)) then
    Async.throw (newError "Type, mois et année sont obligatoires.")
  else if match files a with
          | Some l => (length l =? 0)%nat
          | None => true
          end then
    Async.throw (newError "Veuillez sélectionner au moins un fichier .xlsx.")
  else
    (token <- Async.gets (Window.getItem "token") ;;
     match token with
     | Some t =>
         if truthyStr t then
           fun w =>
             let req := uploadRequest t a in
             let w' := Window.log [Http req] w in
             match net req with
             | Resolved data => (inr data, w')
             | Rejected err => (inl err, w')
             end
         else Async.throw (newError "Token invalide ou expiré")
     | None => Async.throw (newError "Token invalide ou expiré")
     end)%async.

End uploadService.


(** * The vocabulary of the specification *)

Module Spec.

(** The operations the specification names, as they show in a trace:
    [upload] is [POST /upload-excel], [triggerAnalysis] is
    [POST /etl/load-month], a Period Store write is a [setItem] on one of
    the two period keys and a publish is a dispatch of the event. *)
Inductive Call : Type :=
| Upload (r : Request)
| TriggerAnalysis (r : Request)
| StoreWrite (k v : string)
| Publish (ev : CustomEvent).

Definition isPost (path : string) (r : Request) : bool :=
  match method r with
  | POST => String.eqb (url r) (API_BASE +:+ path)
  | GET => false
  end.

Definition classify (e : Effect) : option Call :=
  match e with
  | Http r =>
      if isPost "/upload-excel" r then Some (Upload r)
      else if isPost "/etl/load-month" r then Some (TriggerAnalysis r)
      else None
  | SetItem k v =>
      if String.eqb k analysisMonth || String.eqb k analysisYear
      then Some (StoreWrite k v) else None
  | Dispatch ev => Some (Publish ev)
  | Invoke _ _ => None
  end.

Definition calls (t : list Effect) : list Call := omap classify t.

(** Every HTTP request of a trace, whatever its endpoint. *)
Definition requests (t : list Effect) : list Request :=
  omap (fun e => match e with Http r => Some r | _ => None end) t.

Definition isUpload (c : Call) : bool :=
  match c with Upload _ => true | _ => false end.
Definition isTriggerAnalysis (c : Call) : bool :=
  match c with TriggerAnalysis _ => true | _ => false end.
Definition isStoreWrite (c : Call) : bool :=
  match c with StoreWrite _ _ => true | _ => false end.
Definition isPublish (c : Call) : bool :=
  match c with Publish _ => true | _ => false end.

Definition tally (f : Call -> bool) (cs : list Call) : nat :=
  length (List.filter f cs).

(** A file name matches the extension filter [.xlsx]. As with the
    [accept] filter of the file input, letter case does not count:
    [RAPPORT.XLSX] is a file of that extension. *)
Definition hasExtension (ext : string) (f : File) : bool :=
  endsWith (toLowerCase (name f)) ext.

(** The invariant of an UploadSelection, in the specification's words:
    some files, every one matching the extension filter [.xlsx], and
    type, month and year all populated. *)
Definition validSelection (st : UploadSection.State) : Prop :=
  UploadSection.files st <> []
  /\ Forall (fun f => hasExtension ".xlsx" f = true) (UploadSection.files st)
  /\ UploadSection.typeFichier st <> ""
  /\ UploadSection.mois st <> ""
  /\ UploadSection.annee st <> NaN /\ UploadSection.annee st <> Int 0.

(** A selection violates the invariant: no file, some file of another
    extension, or no type, month or year. *)
Definition violatesInvariant (st : UploadSection.State) : Prop :=
  UploadSection.files st = []
  \/ Exists (fun f => hasExtension ".xlsx" f = false) (UploadSection.files st)
  \/ UploadSection.typeFichier st = ""
  \/ UploadSection.mois st = ""
  \/ UploadSection.annee st = NaN \/ UploadSection.annee st = Int 0.

(** The same invariant on the arguments of [uploadExcels]. *)
Definition validArgs (a : uploadService.Args) : Prop :=
  uploadService.type_fichier a <> ""
  /\ uploadService.mois a <> ""
  /\ uploadService.annee a <> NaN /\ uploadService.annee a <> Int 0
  /\ exists f fs, uploadService.files a = Some (f :: fs).

(** A token is present when the [token] entry holds a non-empty string. *)
Definition tokenPresent (w : World) (t : string) : Prop :=
  Window.getItem "token" w = Some t /\ t <> "".

Definition tokenMissing (w : World) : Prop :=
  Window.getItem "token" w = None \/ Window.getItem "token" w = Some "".

(** States of the orchestrator as they appear in the component: the
    dialog is the confirmation step, [loading] covers Uploading,
    Analyzing and Publishing, and a finished cycle is idle again, with
    the failure reason on display when it failed. *)
Definition idle (st : UploadSection.State) : Prop :=
  UploadSection.confirmOpen st = false /\ UploadSection.loading st = false.

Definition awaitingConfirmation (st : UploadSection.State) : Prop :=
  UploadSection.confirmOpen st = true /\ UploadSection.loading st = false.

Definition failed (st : UploadSection.State) : Prop :=
  idle st /\ UploadSection.error st <> "".

(** The selection the user composed. *)
Definition selection (st : UploadSection.State) : list File * string * string * Num :=
  (UploadSection.files st, UploadSection.typeFichier st, UploadSection.mois st, UploadSection.annee st).

Definition submitted (st : UploadSection.State) : Period :=
  Build_Period (UploadSection.mois st) (UploadSection.annee st).

(** The name of a calendar month, the twelve named values a period's
    month ranges over. Months are numbered as [Date.getMonth] numbers
    them: [0] is January and [11] is December. *)
Definition calendarMonth (m : nat) : string :=
  match m with
  | 0 => "janvier"
  | 1 => "fevrier"
  | 2 => "mars"
  | 3 => "avril"
  | 4 => "mai"
  | 5 => "juin"
  | 6 => "juillet"
  | 7 => "aout"
  | 8 => "septembre"
  | 9 => "octobre"
  | 10 => "novembre"
  | 11 => "decembre"
  | _ => ""
  end%nat.

(** Both fields of a period are set. *)
Definition periodSet (p : Period) : Prop :=
  mois p <> "" /\ annee p <> NaN /\ annee p <> Int 0.

(** The payload lacks the month or the year: there is no payload, or one
    of the two fields is absent or holds an empty value (the empty string,
    [0], [NaN], [null], [false]). *)
Definition missingField (ev : CustomEvent) : Prop :=
  match detail ev with
  | None => True
  | Some d => truthyOpt truthyStr (d_mois d) = false
              \/ truthyOpt isTruthy (d_annee d) = false
  end.

(** The year of the payload, when it has one, is a number or converts to
    one: [Number()] makes a number other than [0] and [NaN] of it. *)
Definition yearConverts (ev : CustomEvent) : Prop :=
  forall d y, detail ev = Some d -> d_annee d = Some y ->
              isTruthy y = true -> truthyNum (toNumber y) = true.

(** The month of a period is set. *)
Definition monthSet (p : Period) : Prop := mois p <> "".

(** Every mounted panel shows a period with both fields set. *)
Definition panelsSet (w : World) : Prop :=
  forall id p, panels w !! id = Some p -> periodSet (Window.panelPeriod p).

(** Every mounted panel shows a period whose month is set. *)
Definition panelsMonthSet (w : World) : Prop :=
  forall id p, panels w !! id = Some p -> monthSet (Window.panelPeriod p).

(** The period entries of the store. *)
Definition storedPeriod (w : World) : option string * option string :=
  (localStorage w !! analysisMonth, localStorage w !! analysisYear).

(** The store is as the application leaves it: empty, or holding a
    period, both fields set, written by a cycle. *)
Definition storeWritten (w : World) : Prop :=
  storedPeriod w = (None, None)
  \/ exists p, periodSet p
       /\ storedPeriod w = (Some (mois p), Some (String_of_Num (annee p))).

End Spec.

Import Spec.

(** * Derived notions used in the statements *)

(** How many times a callback is registered. *)
Definition occurrences (id : nat) (l : list nat) : nat :=
  length (List.filter (fun j => Nat.eqb j id) l).

(** The effects that happened between two worlds of one run. *)
Definition since (w w' : World) : list Effect :=
  drop (length (trace w)) (trace w').

Definition succeeded (net : Backend) (r : Request) : bool :=
  match net r with
  | Resolved _ => true
  | Rejected _ => false
  end.

(** The controls of the component and the handler each one is bound to
    (the rendering disables some of them while a cycle is running). *)
Module Orchestrator.

Inductive Action : Type :=
| Submit      (* "UPLOADER LES FICHIERS" *)
| Cancel      (* "Annuler" *)
| Close       (* closing the dialog *)
| Confirm.    (* "Oui, lancer" *)

Definition step (net : Backend) (a : Action) (s : UploadSection.Sys) : UploadSection.Sys :=
  match a with
  | Submit => (UploadSection.handleUploadClick s.1, s.2)
  | Cancel => (UploadSection.cancel s.1, s.2)
  | Close => (UploadSection.onClose s.1, s.2)
  | Confirm => UploadSection.performUploadAndAnalyze net s.1 s.2
  end.

Definition run (net : Backend) (l : list Action) (s : UploadSection.Sys) : UploadSection.Sys :=
  fold_left (fun s a => step net a s) l s.

End Orchestrator.

Section Outcomes.

Import UploadSection.

Variable net : Backend.

Definition fallback : string := "Erreur durant l’opération (upload/ETL/IA).".

(** The component after a cycle that threw [err], and after one that
    went through with the answer [data]. *)
Definition afterFailure (err : Error) (st : State) : State :=
  setConfirmOpen false (setLoading false
    (setError (errorText err fallback) (setLoading true st))).

Definition afterSuccess (data : Data) (st : State) : State :=
  setConfirmOpen false (setLoading false
    (setFiles [] (setSuccessMessage (summaryText data) (setLoading true st)))).

(** The calls of a cycle, in order. *)
Definition cycleCalls (st : State) (w : World) : list Call :=
  let token := Window.getItem "token" w in
  let up := uploadRequest token st in
  let an := analysisRequest token st in
  Upload up ::
    (if succeeded net up then
       TriggerAnalysis an ::
         (if succeeded net an then
            [ StoreWrite analysisMonth (mois st);
              StoreWrite analysisYear (String_of_Num (annee st));
              Publish (periodChanged st) ]
          else [])
     else []).

(** The state a submission is accepted in: the messages are cleared and
    the dialog opens. *)
Definition opened (st : State) : State :=
  setConfirmOpen true (setError "" (setSuccessMessage "" st)).

(** What the three tests of [handleUploadClick] let through. *)
Definition accepts (st : State) : bool :=
  truthyStr (typeFichier st) && truthyStr (mois st) && truthyNum (annee st)
  && negb (length (files st) =? 0)%nat
  && forallb (fun f => negb (notXlsx f)) (files st).

End Outcomes.

(** * Concrete runs

    The selection of the specification's scenario, a window holding a
    token with one panel of each kind mounted, and four backends. *)

Module Scenario.

Definition now : Date :=
  {| getMonth := 10; getFullYear := 2026; getMonth_range := ltac:(lia) |}.

(** A day of January 2025 and a day of August 2025. *)
Definition january : Date :=
  {| getMonth := 0; getFullYear := 2025; getMonth_range := ltac:(lia) |}.

Definition august : Date :=
  {| getMonth := 7; getFullYear := 2025; getMonth_range := ltac:(lia) |}.

Definition selection : UploadSection.State :=
  {| UploadSection.files := [ {| name := "ventes.xlsx" |} ];
     UploadSection.typeFichier := "ventes_journalieres";
     UploadSection.mois := "mars";
     UploadSection.annee := Int 2024;
     UploadSection.successMessage := "";
     UploadSection.error := "";
     UploadSection.confirmOpen := false;
     UploadSection.loading := false |}.

(** The same selection with the file named in capitals. *)
Definition capitals : UploadSection.State :=
  UploadSection.setFiles [ {| name := "RAPPORT.XLSX" |} ] selection.

(** The same selection with a text file after the workbook. *)
Definition withNotes : UploadSection.State :=
  UploadSection.setFiles [ {| name := "ventes.xlsx" |}; {| name := "notes.txt" |} ]
    selection.

Definition answer : Data :=
  {| rows_loaded :=
       Some {| ventes := Some (Int 10); achats := None; stock := None;
               depenses := None; marge := None; banque := None;
               caisse := None; clients := None |};
     analysis :=
       Some {| inserted_anomalies := Some (Int 2); count := None;
               critical := Some (Int 0) |};
     raw := "" |}.

Definition httpError (code : Z) (text : string) : Error :=
  {| response := Some {| status := code; Net.detail := Some text |};
     message := "Request failed with status code " +:+ String_of_Num (Int code) |}.

(** Every request succeeds. *)
Definition up : Backend := fun _ => Resolved answer.

(** The upload is refused. *)
Definition uploadDown : Backend :=
  fun r => if isPost "/upload-excel" r
           then Rejected (httpError 500 "Echec de l'upload")
           else Resolved answer.

(** The upload succeeds, the analysis answers 500. *)
Definition analysisDown : Backend :=
  fun r => if isPost "/etl/load-month" r
           then Rejected (httpError 500 "ETL en erreur")
           else Resolved answer.

(** The backend refuses a request that carries no bearer credential. *)
Definition guarded : Backend :=
  fun r => match header "Authorization" r with
           | Some (String _ _) => Resolved answer
           | _ => Rejected (httpError 401 "Not authenticated")
           end.

Definition signedIn : World :=
  {| localStorage := {[ "token" := "jeton" ]}; listeners := [];
     panels := ∅; nextId := 0%nat; trace := [] |}.

(** [signedIn] with an alerts panel (0), the dashboard (1) and the
    summary (2) mounted. *)
Definition dashboard : World :=
  (Window.mountAnalyticsSummary up now
     (Window.mountDashboard now
        (Window.mountAlertsPanel now signedIn).2).2).2.

(** Nobody is signed in: no token in storage. *)
Definition anonymous : World := Window.empty.

Definition args : uploadService.Args :=
  {| uploadService.type_fichier := "ventes_journalieres";
     uploadService.mois := "mars";
     uploadService.annee := Int 2024;
     uploadService.files := Some [ {| name := "ventes.xlsx" |} ] |}.

End Scenario.

(** * The rest of the application

    Session handling, routing, the role checks of the dashboard, the
    password pages, the year menus and the anomaly and alert lists. The
    functions of this part only read and write [localStorage], or belong
    to pages that are not mounted with the panels; they are modelled on the
    storage map, each returning what it shows and sends. *)

(** What a page does besides calling the backend. *)
Inductive Ui : Type :=
| ToastError (text : string)
| ToastSuccess (text : string)
| Navigate (path : string).

(** [String(err.message || err)] for a thrown [Error]: its message, or its
    name when the message is empty. *)
Definition thrownText (name : string) (err : Error) : string :=
  orStr (Some (message err)) name.

(** [a || b] where both may be [null]. *)
Definition orOpt (a b : option string) : option string :=
  match a with
  | Some s => if truthyStr s then Some s else b
  | None => b
  end.

(** ** src/services/authService.js *)

Module authService.

Record User : Type := {
  id : Z;
  username : string;
  email : string;
  role : option string
}.

(** The body of a 2xx answer of [/auth/login]; a field the backend left
    out is [undefined]. *)
Record LoginData : Type := {
  access_token : option string;
  user : option User
}.

Inductive LoginResponse : Type :=
| LoggedIn (data : LoginData)
| LoginRejected (err : Error).

Definition AuthBackend : Type := Request -> LoginResponse.

(** [new URLSearchParams()] with [username] and [password] appended. *)
Definition loginRequest (identifier password : string) : Request :=
  {| method := POST;
     url := API_BASE +:+ "/auth/login";
     body := Form [("username", VStr identifier); ("password", VStr password)];
     headers := [("Content-Type", "application/x-www-form-urlencoded")] |}.

(** [setItem] stores the string form of its argument: ["undefined"] for
    [undefined]. *)
Definition stored (v : option string) : string := default "undefined" v.

Section Json.

(** [JSON.stringify] on a user object, and [JSON.parse] on a stored
    string ([None] when it throws). *)
Variable JSON_stringify : User -> string.
Variable JSON_parse : string -> option User.

Definition loginUser (net : AuthBackend) (identifier password : string)
    (localStorage : gmap string string) : (Error + option User) * gmap string string :=
  match net (loginRequest identifier password) with
  | LoggedIn data =>
      let s1 := <["token" := stored (access_token data)]> localStorage in
      let s2 := <["user" := stored (JSON_stringify <$> user data)]> s1 in
      let s3 := delete "role" s2 in
      (inr (user data), s3)
  | LoginRejected err =>
      (inl (newError (errorText err "Erreur de connexion")), localStorage)
  end.

Definition getCurrentUser (localStorage : gmap string string) : option User :=
  match localStorage !! "user" with
  | Some raw => if truthyStr raw then JSON_parse raw else None
  | None => None
  end.

End Json.

Definition getToken (localStorage : gmap string string) : option string :=
  localStorage !! "token".

Definition logout (localStorage : gmap string string) : gmap string string :=
  delete "role" (delete "user" (delete "token" localStorage)).

End authService.

(** ** src/routes/ProtectedRoute.jsx *)

Module ProtectedRoute.

Inductive Rendered : Type :=
| Children
| NavigateTo (path : string).

Definition isAuthenticated (localStorage : gmap string string) : bool :=
  truthyOpt truthyStr (localStorage !! "token").

Definition ProtectedRoute (localStorage : gmap string string) : Rendered :=
  if isAuthenticated localStorage then Children else NavigateTo "/".

End ProtectedRoute.

(** ** src/components/Navbar.jsx *)

Module Navbar.

(** [localStorage.clear(); navigate("/")] *)
Definition handleLogout (localStorage : gmap string string) : gmap string string * Ui :=
  (∅, Navigate "/").

End Navbar.

(** ** src/pages/Login.jsx *)

Module Login.

Section Json.

Variable JSON_stringify : authService.User -> string.

Definition handleLogin (net : authService.AuthBackend) (identifier password : string)
    (localStorage : gmap string string) : list Ui * gmap string string :=
  match authService.loginUser JSON_stringify net identifier password localStorage with
  | (inr user, s) =>
      if truthyOpt truthyStr (user ≫= authService.role) then
        ([ToastSuccess "Connexion réussie !"; Navigate "/dashboard"], s)
      else ([ToastError "Rôle manquant dans la réponse serveur."], s)
  | (inl err, s) => ([ToastError (thrownText "Error" err)], s)
  end.

End Json.

End Login.

(** ** src/pages/Dashboard.jsx: who is signed in *)

Module Access.

(** [s.split(".")] *)
Fixpoint splitDots (s : string) : list string :=
  match s with
  | EmptyString => [EmptyString]
  | String c t =>
      if Ascii.eqb c "." then EmptyString :: splitDots t
      else match splitDots t with
           | h :: r => String c h :: r
           | [] => [String c EmptyString]
           end
  end.

(** The fields the dashboard reads in the payload of a token. *)
Record Payload : Type := {
  p_role : option string;
  p_sub : option string;
  p_email : option string
}.

Section Jwt.

(** [JSON.parse(atob(segment))]; [None] when either throws. *)
Variable decode : string -> option Payload.

(** The payload of [token], when the token has three segments. *)
Definition payloadOf (token : option string) : option (option Payload) :=
  match token with
  | Some t =>
      if truthyStr t && (length (splitDots t) =? 3)%nat
      then Some (decode (nth 1 (splitDots t) EmptyString))
      else None
  | None => None
  end.

(** The role is only ever compared with the ASCII names below, none of
    which has a [k]; outside ASCII the real lower-casing of a character
    is wholly ASCII only for the Kelvin sign, so [toLowerCase] decides
    these comparisons the same. *)
Definition getRole (localStorage : gmap string string) : string :=
  let stored := orOpt (localStorage !! "role") (localStorage !! "userRole") in
  if truthyOpt truthyStr stored then toLowerCase (default "" stored)
  else
    match payloadOf (localStorage !! "token") with
    | Some (Some payload) =>
        if truthyOpt truthyStr (p_role payload)
        then toLowerCase (default "" (p_role payload))
        else ""
    | Some None => ""     (* thrown, caught *)
    | None => ""
    end.

Definition getEmail (localStorage : gmap string string) : string :=
  let stored := localStorage !! "email" in
  if truthyOpt truthyStr stored then default "" stored
  else
    match payloadOf (localStorage !! "token") with
    | Some (Some payload) => default "" (orOpt (p_sub payload) (p_email payload))
    | Some None => ""     (* thrown, caught *)
    | None => ""
    end.

End Jwt.

Definition isComptable (role : string) : bool := String.eqb role "comptable".

Definition canSeeAnalysis (role : string) : bool :=
  existsb (String.eqb role)
    ["comptable"; "dg"; "membre"; "utilisateur"; "user"; "admin"].

(** [handleLogout]: the four entries are removed, then
    [window.location.replace("/")]. *)
Definition handleLogout (localStorage : gmap string string) : gmap string string * Ui :=
  (delete "email" (delete "userRole" (delete "role" (delete "token" localStorage))),
   Navigate "/").

(** What the page shows below its title. *)
Record Sections : Type := { uploadSection : bool; analysisSection : bool }.

Definition sections (role : string) : Sections :=
  {| uploadSection := isComptable role; analysisSection := canSeeAnalysis role |}.

End Access.

(** ** src/pages/ResetPassword.jsx *)

Module ResetPassword.

(** What [fetch] gives: a rejection (a thrown error with its name), or a
    response with its [ok] flag and the [detail] of its JSON body ([None]
    when the body is not JSON or has no such field). *)
Inductive FetchResult : Type :=
| Unreachable (name : string) (err : Error)
| Answered (ok : bool) (detail : option string).

Definition FetchBackend : Type := Request -> FetchResult.

(** Which of the two forms the page shows: [withToken = !!token]. *)
Definition withToken (token : option string) : bool := truthyOpt truthyStr token.

Definition requestLinkRequest (email : string) : Request :=
  {| method := POST;
     url := API_BASE +:+ "/auth/request-reset";
     body := Json [("email", VStr email)];
     headers := [("Content-Type", "application/json")] |}.

Definition confirmRequest (token pwd : string) : Request :=
  {| method := POST;
     url := API_BASE +:+ "/auth/confirm-reset";
     body := Json [("token", VStr token); ("new_password", VStr pwd)];
     headers := [("Content-Type", "application/json")] |}.

(** The shared shape of the two submissions: send, throw on a response
    that is not [ok], toast and leave the page on success. *)
Definition submit (net : FetchBackend) (req : Request) (fallback done : string)
    : list Request * list Ui :=
  match net req with
  | Unreachable name err => ([req], [ToastError (thrownText name err)])
  | Answered false detail =>
      ([req], [ToastError (thrownText "Error" (newError (orStr detail fallback)))])
  | Answered true _ => ([req], [ToastSuccess done; Navigate "/"])
  end.

Definition requestLink (net : FetchBackend) (email : string) : list Request * list Ui :=
  submit net (requestLinkRequest email) "Échec de l’envoi"
    "Email de réinitialisation envoyé. Vérifiez votre boîte !".

Definition setNewPassword (net : FetchBackend) (token pwd1 pwd2 : string)
    : list Request * list Ui :=
  if negb (String.eqb pwd1 pwd2) then
    ([], [ToastError "Les mots de passe ne correspondent pas."])
  else
    submit net (confirmRequest token pwd1) "Échec de la réinitialisation"
      "Mot de passe modifié. Vous pouvez vous connecter.".

End ResetPassword.

(** ** The year menus of UploadSection.jsx and AnalyticsSummary.jsx *)

Module Menus.

(** [for (let k = lo; k <= hi; k++) out.push(k)] *)
Fixpoint pushUpTo (fuel : nat) (k hi : Z) (out : list Z) : list Z :=
  match fuel with
  | O => out
  | S fuel' => if k <=? hi then pushUpTo fuel' (k + 1) hi (out ++ [k]) else out
  end.

Definition range (lo hi : Z) : list Z :=
  pushUpTo (Z.to_nat (hi + 1 - lo)) lo hi [].

Definition anneesAutour (now : Date) : list Z :=
  let y := getFullYear now in range (y - 5) (y + 2).

Definition yearsAround (now : Date) : list Z :=
  let y := getFullYear now in range (y - 1) (y + 1).

End Menus.

(** A list endpoint answers with JSON that is an array ([Some]) or is
    not ([None]), or the request fails. *)
Inductive Listing (A : Type) : Type :=
| Answer (data : option (list A))
| Failure (err : Error).

Arguments Answer {A} data.
Arguments Failure {A} err.

(** ** src/components/AnomaliesPanel.jsx *)

Module AnomaliesPanel.

Record Anomaly : Type := {
  id : Z;
  severity : option string;
  message : string
}.

Record State : Type := {
  loading : bool;
  items : list Anomaly;
  error : string
}.

Definition initial : State := {| loading := true; items := []; error := "" |}.

Definition anomaliesRequest (token : option string) (m : string) (y : Num) : Request :=
  {| method := GET;
     url := API_BASE +:+ "/ai/anomalies";
     body := Params [("mois", VStr m); ("annee", VNum y)];
     headers := [("Authorization", bearer token)] |}.

(** The effect, run to its end while the panel stays mounted. *)
Definition load (net : Request -> Listing Anomaly) (localStorage : gmap string string)
    (m : string) (y : Num) (st : State) : State * list Effect :=
  let req := anomaliesRequest (localStorage !! "token") m y in
  match net req with
  | Answer data =>
      ({| loading := false; items := default [] data; error := "" |}, [Http req])
  | Failure e =>
      ({| loading := false; items := items st;
          error := errorText e "Erreur chargement anomalies." |}, [Http req])
  end.

(** The effect depends on [[mois, annee]]: a render with the same two
    values does not run it again. *)
Definition update (net : Request -> Listing Anomaly) (localStorage : gmap string string)
    (old new : Period) (st : State) : State * list Effect :=
  if bool_decide (mois new = mois old /\ annee new = annee old) then (st, [])
  else load net localStorage (mois new) (annee new) st.

Record Groups : Type := {
  critical : list Anomaly;
  warning : list Anomaly;
  info : list Anomaly
}.

(** What [g[key]] is for the object [{ critical, warning, info }]: one of
    its three arrays, something inherited from [Object.prototype] (the
    only such names in lower case are [constructor] and [__proto__]), or
    [undefined]. *)
Inductive Slot : Type := Critical | Warning | Info | Inherited | Absent.

Definition slot (key : string) : Slot :=
  if String.eqb key "critical" then Critical
  else if String.eqb key "warning" then Warning
  else if String.eqb key "info" then Info
  else if String.eqb key "constructor" || String.eqb key "__proto__" then Inherited
  else Absent.

(** [String(it.severity || "").toLowerCase()]. None of the five keys of
    [slot] has a [k], and outside ASCII the real lower-casing of a
    character is wholly ASCII only for the Kelvin sign, so [toLowerCase]
    finds the same slot. *)
Definition keyOf (it : Anomaly) : string := toLowerCase (orStr (severity it) "").

(** [if (g[key]) g[key].push(it)]; [None] is the TypeError of calling a
    [push] that is not there. *)
Definition place (g : Groups) (it : Anomaly) : option Groups :=
  match slot (keyOf it) with
  | Critical =>
      Some {| critical := critical g ++ [it]; warning := warning g; info := info g |}
  | Warning =>
      Some {| critical := critical g; warning := warning g ++ [it]; info := info g |}
  | Info =>
      Some {| critical := critical g; warning := warning g; info := info g ++ [it] |}
  | Inherited => None
  | Absent => Some g
  end.

Fixpoint placeAll (g : Groups) (l : list Anomaly) : option Groups :=
  match l with
  | [] => Some g
  | it :: l' =>
      match place g it with
      | Some g' => placeAll g' l'
      | None => None
      end
  end.

Definition groups (l : list Anomaly) : option Groups :=
  placeAll {| critical := []; warning := []; info := [] |} l.

Inductive View : Type :=
| Crash
| Spinner
| ErrorAlert (text : string)
| NoAnomaly (m : string) (y : Num)
| Blocks (shown : list (string * list Anomaly)).

(** [!!list.length && <Box>...</Box>] *)
Definition Block (title : string) (l : list Anomaly) : list (string * list Anomaly) :=
  match l with
  | [] => []
  | _ :: _ => [(title, l)]
  end.

Definition render (m : string) (y : Num) (st : State) : View :=
  match groups (items st) with
  | None => Crash
  | Some g =>
      if loading st then Spinner
      else if truthyStr (error st) then ErrorAlert (error st)
      else if (length (items st) =? 0)%nat then NoAnomaly m y
      else Blocks (Block "Anomalies critiques" (critical g)
                   ++ Block "Anomalies importantes" (warning g)
                   ++ Block "Informations" (info g))
  end.

End AnomaliesPanel.

(** ** src/components/AlertsPanel.jsx: the list *)

Module AlertsList.

Record Alert : Type := {
  id : Z;
  severity : string;
  title : string;
  body : string
}.

Record State : Type := {
  periode : Period;
  loading : bool;
  items : list Alert;
  error : string
}.

Definition initial (localStorage : gmap string string) (now : Date) : State :=
  {| periode := AlertsPanel.readStoredPeriod localStorage now;
     loading := true; items := []; error := "" |}.

(** [token ? { Authorization: `Bearer ${token}` } : {}] with
    [token = localStorage.getItem("token") || ""]. *)
Definition headers (localStorage : gmap string string) : list (string * string) :=
  let token := orStr (localStorage !! "token") "" in
  if truthyStr token then [("Authorization", "Bearer " +:+ token)] else [].

Definition alertsRequest (localStorage : gmap string string) (p : Period) : Request :=
  {| method := GET;
     url := API_BASE +:+ "/ai/alerts";
     Net.body := Params [("mois", VStr (mois p)); ("annee", VNum (annee p));
                         ("status", VStr "open")];
     Net.headers := headers localStorage |}.

Definition actionRequest (localStorage : gmap string string) (id : Z) (kind : string)
    : Request :=
  {| method := POST;
     url := API_BASE +:+ "/ai/alerts/" +:+ String_of_Num (Int id) +:+ "/" +:+ kind;
     Net.body := Json [];
     Net.headers := headers localStorage |}.

Definition refresh (net : Request -> Listing Alert) (localStorage : gmap string string)
    (st : State) : State * list Effect :=
  let req := alertsRequest localStorage (periode st) in
  match net req with
  | Answer data =>
      ({| periode := periode st; loading := false;
          items := default [] data; error := "" |}, [Http req])
  | Failure e =>
      ({| periode := periode st; loading := false; items := items st;
          error := errorText e "Erreur chargement alertes." |}, [Http req])
  end.

(** [action(id, kind)]: the post, then [refresh], which catches its own
    errors. *)
Definition action (post : Backend) (net : Request -> Listing Alert)
    (localStorage : gmap string string) (id : Z) (kind : string) (st : State)
    : State * list Effect :=
  let req := actionRequest localStorage id kind in
  match post req with
  | Resolved _ =>
      let '(st', fx) := refresh net localStorage st in (st', Http req :: fx)
  | Rejected e =>
      ({| periode := periode st; loading := loading st; items := items st;
          error := errorText e "Action impossible." |}, [Http req])
  end.

(** The listener followed by the render it causes: [refresh] is rebuilt,
    and the effect that calls it runs again, only when [mois], [annee] or
    the token changed. *)
Definition receive (net : Request -> Listing Alert) (localStorage : gmap string string)
    (ev : CustomEvent) (st : State) : State * list Effect :=
  let p := AlertsPanel.handler ev (periode st) in
  let st' := {| periode := p; loading := loading st; items := items st;
                error := error st |} in
  if bool_decide (mois p = mois (periode st) /\ annee p = annee (periode st))
  then (st', [])
  else refresh net localStorage st'.

End AlertsList.

(** ** src/services/filesService.js *)

Module filesService.

(** [`Bearer ${token}`]: a missing token is spelled [null]. *)
Definition listRequest (token : option string) (params : list (string * Value)) : Request :=
  {| method := GET;
     url := API_BASE +:+ "/excel-files";
     body := Params params;
     headers := [("Authorization", "Bearer " +:+ default "null" token)] |}.

Definition listFiles (net : Backend) (localStorage : gmap string string)
    (params : list (string * Value)) : list Effect * Response :=
  let req := listRequest (localStorage !! "token") params in
  ([Http req], net req).

End filesService.

(** ** Notions used in the statements about this part *)

(** Identifiers are handed out in order: no callback and no mounted
    instance carries one that is still to come. *)
Definition wellNumbered (w : World) : Prop :=
  Forall (fun j => (j < nextId w)%nat) (listeners w)
  /\ forall j, (nextId w <= j)%nat -> panels w !! j = None.

(** The severity of an anomaly spells [name] once letter case is
    ignored; an anomaly without severity spells nothing. *)
Definition severityIs (name : string) (it : AnomaliesPanel.Anomaly) : bool :=
  match AnomaliesPanel.severity it with
  | Some s => String.eqb (toLowerCase s) name
  | None => false
  end.

(** The severity spells a name that every object inherits. *)
Definition inheritedName (it : AnomaliesPanel.Anomaly) : bool :=
  severityIs "constructor" it || severityIs "__proto__" it.

(** The severity is one of the three the panel knows. *)
Definition knownSeverity (it : AnomaliesPanel.Anomaly) : bool :=
  severityIs "critical" it || severityIs "warning" it || severityIs "info" it.

(** The three titled lists of the panel, in the order of display: the
    anomalies of each severity, in the order received. *)
Definition titled (l : list AnomaliesPanel.Anomaly)
    : list (string * list AnomaliesPanel.Anomaly) :=
  [ ("Anomalies critiques", List.filter (severityIs "critical") l);
    ("Anomalies importantes", List.filter (severityIs "warning") l);
    ("Informations", List.filter (severityIs "info") l) ].

(** A titled list that has an item. *)
Definition nonEmpty (b : string * list AnomaliesPanel.Anomaly) : bool :=
  (0 <? length (snd b))%nat.

Module Scenario2.

Definition comptable : authService.User :=
  {| authService.id := 7; authService.username := "awa";
     authService.email := "awa@yende.example"; authService.role := Some "comptable" |}.

Definition stringify (u : authService.User) : string :=
  "{" +:+ authService.username u +:+ "}".

Definition parse (s : string) : option authService.User :=
  if String.eqb s "{awa}" then Some comptable else None.

(** A login that succeeds with a token of three segments. *)
Definition loginOk : authService.AuthBackend :=
  fun _ => authService.LoggedIn
    {| authService.access_token := Some "aaa.bbb.ccc";
       authService.user := Some comptable |}.

(** A 2xx answer that carries neither token nor user. *)
Definition loginEmpty : authService.AuthBackend :=
  fun _ => authService.LoggedIn
    {| authService.access_token := None; authService.user := None |}.

Definition loginRefused : authService.AuthBackend :=
  fun _ => authService.LoginRejected (Scenario.httpError 401 "Identifiants invalides").

(** The payload of the token above names no role. *)
Definition decode (segment : string) : option Access.Payload :=
  if String.eqb segment "bbb"
  then Some {| Access.p_role := None; Access.p_sub := Some "awa@yende.example";
               Access.p_email := None |}
  else None.

(** A store left by an earlier session and an earlier cycle. *)
Definition used : gmap string string :=
  {[ "token" := "jeton"; "user" := "{awa}"; "role" := "DG";
     "analysisMonth" := "mars"; "analysisYear" := "2024" ]}.

Definition resetOk : ResetPassword.FetchBackend :=
  fun _ => ResetPassword.Answered true None.

Definition resetRefused : ResetPassword.FetchBackend :=
  fun _ => ResetPassword.Answered false (Some "Lien expiré").

Definition anomaly (n : Z) (s : option string) : AnomaliesPanel.Anomaly :=
  {| AnomaliesPanel.id := n; AnomaliesPanel.severity := s;
     AnomaliesPanel.message := "" |}.

Definition mixed : list AnomaliesPanel.Anomaly :=
  [ anomaly 1 (Some "warning"); anomaly 2 (Some "CRITICAL"); anomaly 3 None;
    anomaly 4 (Some "Info"); anomaly 5 (Some "urgent"); anomaly 6 (Some "critical") ].

(** A list with an anomaly whose severity is [Constructor]. *)
Definition poisoned : list AnomaliesPanel.Anomaly :=
  [ anomaly 1 (Some "warning"); anomaly 2 (Some "Constructor") ].

(** Anomalies of no known severity, and warnings among such. *)
Definition unknown : list AnomaliesPanel.Anomaly :=
  [ anomaly 3 None; anomaly 5 (Some "urgent") ].

Definition warnings : list AnomaliesPanel.Anomaly :=
  [ anomaly 3 None; anomaly 7 (Some "Warning"); anomaly 8 (Some "warning") ].

Definition loaded (l : list AnomaliesPanel.Anomaly) : AnomaliesPanel.State :=
  {| AnomaliesPanel.loading := false; AnomaliesPanel.items := l;
     AnomaliesPanel.error := "" |}.

Definition alert (n : Z) : AlertsList.Alert :=
  {| AlertsList.id := n; AlertsList.severity := "warning";
     AlertsList.title := "Stock"; AlertsList.body := "" |}.

Definition alertsOk : Request -> Listing AlertsList.Alert :=
  fun _ => Answer (Some [alert 1]).

Definition anomaliesOk : Request -> Listing AnomaliesPanel.Anomaly :=
  fun _ => Answer (Some mixed).

Definition showing (p : Period) : AlertsList.State :=
  {| AlertsList.periode := p; AlertsList.loading := false;
     AlertsList.items := [alert 1; alert 2]; AlertsList.error := "" |}.

Definition mars2024 : Period := {| mois := "mars"; annee := Int 2024 |}.

End Scenario2.

(** * Checks on concrete values *)

Example String_of_Num_2024 : String_of_Num (Int 2024) = "2024".
Proof. reflexivity. Qed.

Example String_of_Num_neg : String_of_Num (Int (-5)) = "-5".
Proof. reflexivity. Qed.

Example Number_of_string_2024 : Number_of_string "2024" = Int 2024.
Proof. reflexivity. Qed.

Example Number_of_string_junk : Number_of_string "20x4" = NaN.
Proof. reflexivity. Qed.

Example Number_of_string_minus : Number_of_string "-" = NaN.
Proof. reflexivity. Qed.

Example endsWith_upper : endsWith (toLowerCase "RAPPORT.XLSX") ".xlsx" = true.
Proof. reflexivity. Qed.

Example endsWith_short : endsWith "a" ".xlsx" = false.
Proof. reflexivity. Qed.

(** * Facts about the JavaScript primitives *)

Section Primitives.

Lemma string_of_uint_nonnil_shape (d : Decimal.uint) :
  d <> Decimal.Nil ->
  exists c t, NilEmpty.string_of_uint d = String c t
              /\ Ascii.eqb c "-" = false /\ Ascii.eqb c "+" = false.
Proof.
  destruct d; [congruence | ..]; intros _; simpl; eauto.
Qed.

Lemma digits_to_uint (p : positive) :
  digits (NilEmpty.string_of_uint (Pos.to_uint p)) = Some (Z.pos p).
Proof.
  unfold digits, NilZero.uint_of_string.
  destruct (string_of_uint_nonnil_shape (Pos.to_uint p))
    as (c & t & E & _); [apply DecimalPos.Unsigned.to_uint_nonnil |].
  rewrite E, <- E, NilEmpty.usu.
  unfold Z.of_uint. now rewrite DecimalPos.Unsigned.of_to.
Qed.

(** [Number(String(z)) === z] for every integer [z]. *)
Lemma Number_String_Int (z : Z) : Number_of_string (String_of_Num (Int z)) = Int z.
Proof.
  destruct z as [| p | p]; [reflexivity | |].
  - unfold String_of_Num. cbn [Z.to_int NilEmpty.string_of_int].
    destruct (string_of_uint_nonnil_shape (Pos.to_uint p))
      as (c & t & E & Hm & Hp); [apply DecimalPos.Unsigned.to_uint_nonnil |].
    pose proof (digits_to_uint p) as D. rewrite E in D |- *.
    unfold Number_of_string. now rewrite Hm, Hp, D.
  - unfold String_of_Num. cbn [Z.to_int NilEmpty.string_of_int Number_of_string].
    change (Ascii.eqb "-" "-") with true. cbn iota.
    now rewrite digits_to_uint.
Qed.

Lemma String_of_Num_truthy (n : Num) : truthyStr (String_of_Num n) = true.
Proof.
  destruct n as [[| p | p] |]; try reflexivity.
  unfold String_of_Num. cbn [Z.to_int NilEmpty.string_of_int].
  destruct (string_of_uint_nonnil_shape (Pos.to_uint p))
    as (c & t & E & _); [apply DecimalPos.Unsigned.to_uint_nonnil |].
  now rewrite E.
Qed.

Lemma truthyStr_spec (s : string) : truthyStr s = true <-> s <> "".
Proof. destruct s; simpl; split; congruence. Qed.

Lemma toLowerCase_length (s : string) :
  String.length (toLowerCase s) = String.length s.
Proof. induction s; simpl; congruence. Qed.

Lemma toLowerCase_substring (s : string) :
  forall n k, substring n k (toLowerCase s) = toLowerCase (substring n k s).
Proof.
  induction s as [| c s IH]; intros [| n] [| k]; simpl; try reflexivity.
  - now rewrite IH.
  - apply IH.
  - apply IH.
Qed.

(** A name that ends in [".xlsx"] still does once lower-cased. *)
Lemma endsWith_toLowerCase_xlsx (s : string) :
  endsWith s ".xlsx" = true -> endsWith (toLowerCase s) ".xlsx" = true.
Proof.
  unfold endsWith. rewrite toLowerCase_length.
  destruct (String.length ".xlsx" <=? String.length s)%nat; [| congruence].
  rewrite toLowerCase_substring.
  intros H. apply String.eqb_eq in H. now rewrite H.
Qed.

Lemma monthNameFR_truthy (d : Date) : truthyStr (monthNameFR d) = true.
Proof.
  unfold monthNameFR. destruct d as [m y Hm]. simpl.
  do 12 (destruct m as [| m]; [reflexivity |]). lia.
Qed.

End Primitives.

(** * Traces *)

Lemma since_app (w w' : World) (fx : list Effect) :
  trace w' = (trace w ++ fx)%list -> since w w' = fx.
Proof. intros E. unfold since. rewrite E. apply drop_app_length. Qed.

Lemma since_refl (w : World) : since w w = [].
Proof. apply since_app. now rewrite app_nil_r. Qed.

Lemma truthyNum_set (n : Num) : truthyNum n = true <-> n <> NaN /\ n <> Int 0.
Proof.
  destruct n as [z |]; simpl.
  - rewrite negb_true_iff, Z.eqb_neq. split.
    + intros H. split; congruence.
    + intros [_ H] ->. now apply H.
  - split; [congruence | now intros [H _]].
Qed.

Lemma calls_app (a b : list Effect) : calls (a ++ b) = (calls a ++ calls b)%list.
Proof. apply omap_app. Qed.

Lemma requests_app (a b : list Effect) : requests (a ++ b) = (requests a ++ requests b)%list.
Proof. apply omap_app. Qed.

Lemma deliveries_app (id : nat) (a b : list Effect) :
  Window.deliveries id (a ++ b)
  = (Window.deliveries id a ++ Window.deliveries id b)%list.
Proof. apply omap_app. Qed.

(** * The period-changed channel *)

Section Channel.

Variable net : Backend.
Variable ev : CustomEvent.

(** The three listeners compute the same new period. *)
Lemma onPeriod_handler (p : Period) : Dashboard.onPeriod ev p = AlertsPanel.handler ev p.
Proof.
  unfold Dashboard.onPeriod, AlertsPanel.handler.
  destruct (detail ev) as [[[m |] [y |]] |]; reflexivity.
Qed.

Lemma fetchSummary_period ls m y st :
  AnalyticsSummary.period (AnalyticsSummary.fetchSummary net ls m y st).1
  = AnalyticsSummary.period st.
Proof.
  unfold AnalyticsSummary.fetchSummary, aiService.getMonthSummary.
  now destruct (net _).
Qed.

Lemma fetchSummary_effects ls m y st :
  (AnalyticsSummary.fetchSummary net ls m y st).2
  = [Http (aiService.summaryRequest (ls !! "token") m y)].
Proof.
  unfold AnalyticsSummary.fetchSummary, aiService.getMonthSummary.
  now destruct (net _).
Qed.

Lemma onChange_period ls st :
  AnalyticsSummary.period (AnalyticsSummary.onChange net ls ev st).1
  = AlertsPanel.handler ev (AnalyticsSummary.period st).
Proof.
  unfold AnalyticsSummary.onChange, AlertsPanel.handler.
  destruct (detail ev) as [[[m |] [y |]] |]; simpl; try reflexivity.
  destruct (truthyStr m && isTruthy y); [| reflexivity].
  now rewrite fetchSummary_period.
Qed.

Lemma onChange_effects ls st :
  calls (AnalyticsSummary.onChange net ls ev st).2 = []
  /\ forall j, Window.deliveries j (AnalyticsSummary.onChange net ls ev st).2 = [].
Proof.
  unfold AnalyticsSummary.onChange.
  destruct (detail ev) as [[[m |] [y |]] |]; simpl; try (split; reflexivity).
  destruct (truthyStr m && isTruthy y); [| split; reflexivity].
  rewrite fetchSummary_effects. split; reflexivity.
Qed.

(** One listener call: what it appends to the trace and what it leaves
    alone. *)
Lemma callListener_trace w id :
  exists fx,
    trace (Window.callListener net ev w id) = (trace w ++ Invoke id ev :: fx)%list
    /\ calls fx = []
    /\ forall j, Window.deliveries j fx = [].
Proof.
  unfold Window.callListener.
  destruct (panels w !! id) as [[p | p | st] |].
  - exists []. simpl. auto.
  - exists []. simpl. auto.
  - pose proof (onChange_effects (localStorage w) st) as [Hc Hd].
    destruct (AnalyticsSummary.onChange net (localStorage w) ev st) as [st' fx].
    exists fx. simpl in *. auto.
  - exists []. simpl. auto.
Qed.

Lemma callListener_frame w id :
  localStorage (Window.callListener net ev w id) = localStorage w
  /\ listeners (Window.callListener net ev w id) = listeners w
  /\ nextId (Window.callListener net ev w id) = nextId w.
Proof.
  unfold Window.callListener.
  destruct (panels w !! id) as [[p | p | st] |]; simpl; auto.
  destruct (AnalyticsSummary.onChange net (localStorage w) ev st); simpl; auto.
Qed.

Lemma callListener_other w id j :
  j <> id -> panels (Window.callListener net ev w id) !! j = panels w !! j.
Proof.
  intros Hj. unfold Window.callListener.
  destruct (panels w !! id) as [[p | p | st] |]; simpl;
    try (now rewrite lookup_insert_ne); [| reflexivity].
  destruct (AnalyticsSummary.onChange net (localStorage w) ev st); simpl.
  now rewrite lookup_insert_ne.
Qed.

(** The instance the callback belongs to moves to the period its
    listener computes; an instance that is gone stays gone. *)
Lemma callListener_own w id :
  panels (Window.callListener net ev w id) !! id
  = match panels w !! id with
    | Some p =>
        Some (match p with
              | PAlerts q => PAlerts (AlertsPanel.handler ev q)
              | PDashboard q => PDashboard (Dashboard.onPeriod ev q)
              | PSummary st =>
                  PSummary (AnalyticsSummary.onChange net (localStorage w) ev st).1
              end)
    | None => None
    end.
Proof.
  unfold Window.callListener.
  destruct (panels w !! id) as [[p | p | st] |] eqn:E; simpl;
    try (now rewrite lookup_insert_eq); [| exact E].
  destruct (AnalyticsSummary.onChange net (localStorage w) ev st); simpl.
  now rewrite lookup_insert_eq.
Qed.

Lemma callListener_period w id p :
  panels w !! id = Some p ->
  exists p', panels (Window.callListener net ev w id) !! id = Some p'
             /\ Window.panelPeriod p' = AlertsPanel.handler ev (Window.panelPeriod p).
Proof.
  intros E. rewrite callListener_own, E.
  destruct p as [q | q | st]; eexists; split; try reflexivity; simpl.
  - apply onPeriod_handler.
  - apply onChange_period.
Qed.

End Channel.


Lemma occurrences_notin (id : nat) (l : list nat) : id ∉ l -> occurrences id l = 0%nat.
Proof.
  unfold occurrences. induction l as [| j l IH]; [reflexivity |].
  rewrite not_elem_of_cons. intros [Hne Hl]. simpl.
  destruct (Nat.eqb_spec j id); [congruence | auto].
Qed.

Lemma occurrences_NoDup (id : nat) (l : list nat) :
  NoDup l -> id ∈ l -> occurrences id l = 1%nat.
Proof.
  induction 1 as [| j l Hj Hl IH]; [now rewrite elem_of_nil |].
  rewrite elem_of_cons. unfold occurrences in *. simpl.
  destruct (Nat.eqb_spec j id) as [-> | Hne].
  - intros _. simpl. f_equal. now apply occurrences_notin.
  - intros [-> | Hin]; [congruence | auto].
Qed.

Section Dispatch.

Variable net : Backend.
Variable ev : CustomEvent.

Lemma callAll_frame l : forall w,
  localStorage (Window.callAll net ev l w) = localStorage w
  /\ listeners (Window.callAll net ev l w) = listeners w
  /\ nextId (Window.callAll net ev l w) = nextId w.
Proof.
  induction l as [| id l IH]; intros w; [now simpl |].
  simpl. destruct (IH (Window.callListener net ev w id)) as (-> & -> & ->).
  apply callListener_frame.
Qed.

Lemma callAll_trace l : forall w,
  exists fx,
    trace (Window.callAll net ev l w) = (trace w ++ fx)%list
    /\ calls fx = []
    /\ forall j, Window.deliveries j fx = replicate (occurrences j l) ev.
Proof.
  induction l as [| id l IH]; intros w.
  - exists []. simpl. now rewrite app_nil_r.
  - simpl. destruct (callListener_trace net ev w id) as (fx1 & T1 & C1 & D1).
    destruct (IH (Window.callListener net ev w id)) as (fx2 & T2 & C2 & D2).
    exists (Invoke id ev :: fx1 ++ fx2)%list. repeat split.
    + rewrite T2, T1, <- app_assoc. reflexivity.
    + change (calls (Invoke id ev :: fx1 ++ fx2)) with (calls (fx1 ++ fx2)).
      now rewrite calls_app, C1, C2.
    + intros j. unfold occurrences. simpl.
      unfold Window.deliveries at 1. simpl.
      fold (Window.deliveries j (fx1 ++ fx2)).
      rewrite deliveries_app, D1, D2. unfold occurrences.
      destruct (Nat.eqb id j); reflexivity.
Qed.

Lemma callAll_other l j : forall w, j ∉ l -> panels (Window.callAll net ev l w) !! j = panels w !! j.
Proof.
  induction l as [| id l IH]; intros w; [reflexivity |].
  rewrite not_elem_of_cons. intros [Hne Hl]. simpl.
  rewrite IH by assumption. now apply callListener_other.
Qed.

Lemma callAll_period l id : forall w p,
  NoDup l -> id ∈ l -> panels w !! id = Some p ->
  exists p', panels (Window.callAll net ev l w) !! id = Some p'
             /\ Window.panelPeriod p' = AlertsPanel.handler ev (Window.panelPeriod p).
Proof.
  induction l as [| j l IH]; intros w p Hnd; [now rewrite elem_of_nil |].
  apply NoDup_cons in Hnd as [Hj Hl].
  rewrite elem_of_cons. intros [-> | Hin] E; simpl.
  - destruct (callListener_period net ev w j p E) as (p' & E' & P').
    exists p'. split; [| exact P'].
    now rewrite callAll_other.
  - assert (id <> j) as Hne by (intros ->; contradiction).
    apply (IH _ p Hl Hin). now rewrite callListener_other.
Qed.

(** ** [dispatchEvent] *)

Lemma dispatchEvent_frame w :
  localStorage (Window.dispatchEvent net ev w) = localStorage w
  /\ listeners (Window.dispatchEvent net ev w) = listeners w
  /\ nextId (Window.dispatchEvent net ev w) = nextId w.
Proof. apply (callAll_frame (listeners w) (Window.log [Dispatch ev] w)). Qed.

Lemma dispatchEvent_trace w :
  exists fx,
    trace (Window.dispatchEvent net ev w) = (trace w ++ Dispatch ev :: fx)%list
    /\ calls fx = []
    /\ forall j, Window.deliveries j fx = replicate (occurrences j (listeners w)) ev.
Proof.
  destruct (callAll_trace (listeners w) (Window.log [Dispatch ev] w)) as (fx & T & C & D).
  exists fx. split; [| now split].
  unfold Window.dispatchEvent. fold (Window.callAll net ev (listeners w) (Window.log [Dispatch ev] w)).
  rewrite T. simpl. now rewrite <- app_assoc.
Qed.

Lemma dispatchEvent_period w id p :
  NoDup (listeners w) -> id ∈ listeners w -> panels w !! id = Some p ->
  exists p', panels (Window.dispatchEvent net ev w) !! id = Some p'
             /\ Window.panelPeriod p' = AlertsPanel.handler ev (Window.panelPeriod p).
Proof. intros. now apply (callAll_period (listeners w) id (Window.log [Dispatch ev] w)). Qed.

Lemma dispatchEvent_other w id :
  id ∉ listeners w -> panels (Window.dispatchEvent net ev w) !! id = panels w !! id.
Proof. intros. now apply (callAll_other (listeners w) id (Window.log [Dispatch ev] w)). Qed.

End Dispatch.

(** Registration keeps the list of callbacks free of duplicates. *)
Lemma addEventListener_NoDup (id : nat) (w : World) :
  NoDup (listeners w) -> NoDup (listeners (Window.addEventListener id w)).
Proof.
  intros H. simpl. case_bool_decide; [assumption |].
  apply NoDup_app. split; [assumption |]. split.
  - intros j Hj. rewrite list_elem_of_singleton. now intros ->.
  - apply NoDup_singleton.
Qed.

Lemma addEventListener_elem (id : nat) (w : World) :
  id ∈ listeners (Window.addEventListener id w).
Proof.
  simpl. case_bool_decide; [assumption |].
  apply elem_of_app. right. now apply list_elem_of_singleton.
Qed.

Lemma removeEventListener_NoDup (id : nat) (w : World) :
  NoDup (listeners w) -> NoDup (listeners (Window.removeEventListener id w)).
Proof.
  rewrite !NoDup_ListNoDup. intros H. simpl. now apply List.NoDup_filter.
Qed.

Lemma removeEventListener_elem (id : nat) (w : World) :
  id ∉ listeners (Window.removeEventListener id w).
Proof.
  simpl. rewrite list_elem_of_In, List.filter_In.
  intros [_ H]. now rewrite Nat.eqb_refl in H.
Qed.

(** * The upload / analysis cycle *)




Section Cycle.

Import UploadSection.

Variable net : Backend.


Lemma performUploadAndAnalyze_cases (st : State) (w : World) :
  let token := Window.getItem "token" w in
  let up := uploadRequest token st in
  let an := analysisRequest token st in
  let w1 := Window.log [Http up] w in
  let w2 := Window.log [Http an] w1 in
  performUploadAndAnalyze net st w
  = match net up with
    | Rejected err => (afterFailure err st, w1)
    | Resolved _ =>
        match net an with
        | Rejected err => (afterFailure err st, w2)
        | Resolved data =>
            (afterSuccess data st,
             Window.dispatchEvent net (periodChanged st)
               (Window.setItem analysisYear (String_of_Num (annee st))
                  (Window.setItem analysisMonth (mois st) w2)))
        end
    end.
Proof.
  intros token up an w1 w2.
  unfold performUploadAndAnalyze, Async.tryCatchFinally, Async.bind, Async.gets,
    axios, ui, win, Async.modify. simpl.
  fold token. fold up. fold an.
  destruct (net up) as [d1 | e1]; simpl; [| reflexivity].
  destruct (net an) as [d2 | e2]; simpl; reflexivity.
Qed.


Lemma performUploadAndAnalyze_calls (st : State) (w : World) :
  calls (since w (performUploadAndAnalyze net st w).2) = cycleCalls net st w.
Proof.
  rewrite performUploadAndAnalyze_cases. unfold cycleCalls, succeeded.
  set (token := Window.getItem "token" w).
  set (up := uploadRequest token st). set (an := analysisRequest token st).
  destruct (net up) as [d1 | e1].
  - destruct (net an) as [d2 | e2].
    + destruct (dispatchEvent_trace net (periodChanged st)
        (Window.setItem analysisYear (String_of_Num (annee st))
           (Window.setItem analysisMonth (mois st)
              (Window.log [Http an] (Window.log [Http up] w)))))
        as (fx & T & C & _).
      rewrite (since_app w _
        ([Http up; Http an; SetItem analysisMonth (mois st);
          SetItem analysisYear (String_of_Num (annee st));
          Dispatch (periodChanged st)] ++ fx)).
      * rewrite calls_app, C, app_nil_r. reflexivity.
      * cbn [snd]. rewrite T. simpl. now rewrite <- !app_assoc.
    + rewrite (since_app w _ [Http up; Http an]); [reflexivity |].
      simpl. now rewrite <- app_assoc.
  - rewrite (since_app w _ [Http up]); reflexivity.
Qed.

End Cycle.

(** * Validation on submit *)

Section Validation.

Import UploadSection.

Lemma find_none_Forall {A} (f : A -> bool) (l : list A) :
  Forall (fun x => f x = false) l -> List.find f l = None.
Proof. induction 1 as [| x l Hx _ IH]; simpl; [| rewrite Hx]; auto. Qed.

Lemma handleUploadClick_accepts (st : State) :
  accepts st = true -> handleUploadClick st = opened st.
Proof.
  unfold accepts, handleUploadClick.
  rewrite !andb_true_iff, negb_true_iff, forallb_forall.
  intros [[[[-> ->] ->] ->] Hall]. simpl.
  rewrite find_none_Forall; [reflexivity |].
  apply List.Forall_forall. intros f Hf. specialize (Hall f Hf).
  now apply negb_true_iff in Hall.
Qed.

Lemma handleUploadClick_rejects (st : State) :
  accepts st = false ->
  confirmOpen (handleUploadClick st) = confirmOpen st
  /\ loading (handleUploadClick st) = loading st
  /\ truthyStr (error (handleUploadClick st)) = true
  /\ selection (handleUploadClick st) = selection st.
Proof.
  unfold accepts, handleUploadClick. intros H.
  destruct (truthyStr (typeFichier st)); [| now simpl].
  destruct (truthyStr (mois st)); [| now simpl].
  destruct (truthyNum (annee st)); [| now simpl].
  destruct (length (files st) =? 0)%nat; [now simpl |]. simpl in H |- *.
  destruct (List.find notXlsx (files st)) as [bad |] eqn:E; [now simpl |].
  exfalso. rewrite <- not_true_iff_false, forallb_forall in H. apply H.
  intros f Hf. apply negb_true_iff. exact (List.find_none _ _ E f Hf).
Qed.

(** A selection that is valid in the specification's sense passes. *)
Lemma validSelection_accepts (st : State) : validSelection st -> accepts st = true.
Proof.
  intros (Hf & Hx & Ht & Hm & Hy). unfold accepts.
  apply truthyStr_spec in Ht, Hm. apply truthyNum_set in Hy.
  rewrite Ht, Hm, Hy. simpl. apply andb_true_iff. split.
  - destruct (files st); [congruence | reflexivity].
  - apply forallb_forall. intros f Hin. unfold notXlsx. rewrite negb_involutive.
    rewrite List.Forall_forall in Hx. now apply Hx.
Qed.

Lemma accepts_period (st : State) : accepts st = true -> periodSet (submitted st).
Proof.
  unfold accepts. rewrite !andb_true_iff. intros [[[[_ Hm] Hy] _] _].
  split; [now apply truthyStr_spec | now apply truthyNum_set].
Qed.

Lemma opened_awaiting (st : State) : idle st -> awaitingConfirmation (opened st).
Proof. intros [_ Hl]. split; [reflexivity | exact Hl]. Qed.

End Validation.

(** * Reading the stored period *)

Section Store.

Variable ls : gmap string string.
Variable now : Date.

Lemma Number_String_set (y : Num) :
  y <> NaN -> y <> Int 0 ->
  truthyStr (String_of_Num y) = true
  /\ Number_of_string (String_of_Num y) = y
  /\ truthyNum y = true.
Proof.
  intros Hn Hz. split; [apply String_of_Num_truthy |].
  split; [| now apply truthyNum_set].
  destruct y as [z |]; [apply Number_String_Int | congruence].
Qed.

(** The three readers agree on a period written by a cycle. *)
Lemma readers_persisted (m : string) (y : Num) :
  ls !! analysisMonth = Some m -> ls !! analysisYear = Some (String_of_Num y) ->
  periodSet (Build_Period m y) ->
  AlertsPanel.readStoredPeriod ls now = Build_Period m y
  /\ Dashboard.initialPeriod ls now = Build_Period m y
  /\ AnalyticsSummary.period (AnalyticsSummary.initial ls now) = Build_Period m y.
Proof.
  intros Em Ey (Hm & Hn & Hz). simpl in Hm, Hn, Hz.
  apply truthyStr_spec in Hm.
  destruct (Number_String_set y Hn Hz) as (Hs & Hr & Ht).
  unfold AlertsPanel.readStoredPeriod, Dashboard.initialPeriod,
    AnalyticsSummary.initial, AnalyticsSummary.period. simpl.
  rewrite Em, Ey. unfold orStr, orNum, Number_of_item.
  now rewrite Hm, Hs, Hr, Ht.
Qed.

(** ... and on an empty store. *)
Lemma readers_default :
  ls !! analysisMonth = None -> ls !! analysisYear = None ->
  let current := Build_Period (monthNameFR now) (Int (getFullYear now)) in
  AlertsPanel.readStoredPeriod ls now = current
  /\ Dashboard.initialPeriod ls now = current
  /\ AnalyticsSummary.period (AnalyticsSummary.initial ls now) = current.
Proof.
  intros Em Ey.
  unfold AlertsPanel.readStoredPeriod, Dashboard.initialPeriod,
    AnalyticsSummary.initial, AnalyticsSummary.period. simpl.
  rewrite Em, Ey. simpl. repeat split.
Qed.

End Store.

(** * The orchestrated cycle: order of the calls *)

Lemma selection_valid : validSelection Scenario.selection.
Proof.
  repeat split; try discriminate. repeat constructor.
Qed.

Lemma selection_idle : idle Scenario.selection.
Proof. split; reflexivity. Qed.

Lemma tally_cycleCalls (net : Backend) (st : UploadSection.State) (w : World) :
  let up := UploadSection.uploadRequest (Window.getItem "token" w) st in
  let an := UploadSection.analysisRequest (Window.getItem "token" w) st in
  tally isUpload (cycleCalls net st w) = 1%nat
  /\ tally isTriggerAnalysis (cycleCalls net st w)
     = (if succeeded net up then 1%nat else 0%nat)
  /\ tally isStoreWrite (cycleCalls net st w)
     = (if succeeded net up && succeeded net an then 2%nat else 0%nat)
  /\ tally isPublish (cycleCalls net st w)
     = (if succeeded net up && succeeded net an then 1%nat else 0%nat).
Proof.
  unfold cycleCalls. simpl.
  destruct (succeeded net _); [| now simpl].
  destruct (succeeded net _); now simpl.
Qed.

(** C1, as stated, fails when the backend refuses the upload: the cycle
    of a valid selection then issues the upload request and no
    triggerAnalysis request at all. *)
Lemma C1_counterexample :
  validSelection Scenario.selection
  /\ idle Scenario.selection
  /\ let w' := (Orchestrator.run Scenario.uploadDown
                  [Orchestrator.Submit; Orchestrator.Confirm]
                  (Scenario.selection, Scenario.dashboard)).2 in
     calls (since Scenario.dashboard w')
     = [Upload (UploadSection.uploadRequest (Some "jeton") Scenario.selection)]
     /\ tally isTriggerAnalysis (calls (since Scenario.dashboard w')) = 0%nat.
Proof.
  split; [exact selection_valid |]. split; [exact selection_idle |].
  split; vm_compute; reflexivity.
Qed.

(** C1 (amended). For every valid UploadSelection, submitting opens the
    confirmation without touching the window, and confirming issues
    exactly one upload request, first; exactly one triggerAnalysis request
    follows it when the upload succeeds, and none when it fails; the two
    Period Store writes and the publish come after the analysis request,
    and only when that request succeeded. *)
Theorem C1_upload_then_analysis (net : Backend) (st : UploadSection.State) (w : World) :
  validSelection st -> idle st ->
  let s1 := Orchestrator.step net Orchestrator.Submit (st, w) in
  let s2 := Orchestrator.step net Orchestrator.Confirm s1 in
  let token := Window.getItem "token" w in
  let up := UploadSection.uploadRequest token st in
  let an := UploadSection.analysisRequest token st in
  let done := calls (since w s2.2) in
  awaitingConfirmation s1.1
  /\ s1.2 = w
  /\ done
     = Upload up ::
         (if succeeded net up then
            TriggerAnalysis an ::
              (if succeeded net an then
                 [ StoreWrite analysisMonth (UploadSection.mois st);
                   StoreWrite analysisYear (String_of_Num (UploadSection.annee st));
                   Publish (UploadSection.periodChanged st) ]
               else [])
          else [])
  /\ tally isUpload done = 1%nat
  /\ tally isTriggerAnalysis done = (if succeeded net up then 1%nat else 0%nat).
Proof.
  intros Hv Hi. simpl.
  rewrite (handleUploadClick_accepts st (validSelection_accepts st Hv)).
  split; [now apply opened_awaiting |]. split; [reflexivity |].
  rewrite performUploadAndAnalyze_calls.
  destruct (tally_cycleCalls net (opened st) w) as (Hu & Ha & _).
  split; [reflexivity |]. split; [exact Hu | exact Ha].
Qed.

Lemma C1_witness :
  validSelection Scenario.selection
  /\ idle Scenario.selection
  /\ calls (since Scenario.dashboard
       (Orchestrator.run Scenario.up [Orchestrator.Submit; Orchestrator.Confirm]
          (Scenario.selection, Scenario.dashboard)).2)
     = [ Upload (UploadSection.uploadRequest (Some "jeton") Scenario.selection);
         TriggerAnalysis (UploadSection.analysisRequest (Some "jeton") Scenario.selection);
         StoreWrite "analysisMonth" "mars";
         StoreWrite "analysisYear" "2024";
         Publish {| detail := Some {| d_mois := Some "mars";
                                      d_annee := Some (ofNum (Int 2024)) |} |} ].
Proof.
  split; [exact selection_valid |]. split; [exact selection_idle |].
  exact (proj1 (proj2 (proj2
    (C1_upload_then_analysis Scenario.up Scenario.selection Scenario.dashboard
       selection_valid selection_idle)))).
Defined.

(** C2. Whatever the selection and the window: when the upload request
    fails no triggerAnalysis request is issued, and when the upload or the
    analysis request fails the two period entries of the store are what
    they were, nothing is written to them, no event is published, no
    listener runs and no mounted panel changes. *)
Theorem C2_failure_leaves_period (net : Backend) (st : UploadSection.State) (w : World) :
  let token := Window.getItem "token" w in
  let up := UploadSection.uploadRequest token st in
  let an := UploadSection.analysisRequest token st in
  let w' := (UploadSection.performUploadAndAnalyze net st w).2 in
  succeeded net up = false \/ succeeded net an = false ->
  (succeeded net up = false -> tally isTriggerAnalysis (calls (since w w')) = 0%nat)
  /\ storedPeriod w' = storedPeriod w
  /\ localStorage w' = localStorage w
  /\ tally isStoreWrite (calls (since w w')) = 0%nat
  /\ tally isPublish (calls (since w w')) = 0%nat
  /\ (forall id, Window.deliveries id (since w w') = [])
  /\ panels w' = panels w.
Proof.
  intros token up an w' Hfail.
  assert (Hand : succeeded net up && succeeded net an = false).
  { apply andb_false_iff. exact Hfail. }
  destruct (tally_cycleCalls net st w) as (_ & Ha & Hs & Hp).
  fold token up an in Ha, Hs, Hp. rewrite Hand in Hs, Hp.
  unfold w'. rewrite !performUploadAndAnalyze_calls.
  split; [intros Hup; now rewrite Ha, Hup |].
  assert (E : localStorage (UploadSection.performUploadAndAnalyze net st w).2 = localStorage w
              /\ panels (UploadSection.performUploadAndAnalyze net st w).2 = panels w
              /\ forall id, Window.deliveries id
                   (since w (UploadSection.performUploadAndAnalyze net st w).2) = []).
  { rewrite performUploadAndAnalyze_cases. fold token up an.
    unfold succeeded in Hand.
    destruct (net up) as [d1 | e1].
    - destruct (net an) as [d2 | e2]; [discriminate |].
      repeat split. intros id.
      rewrite (since_app w _ [Http up; Http an]); [reflexivity |].
      simpl. now rewrite <- app_assoc.
    - repeat split. intros id.
      rewrite (since_app w _ [Http up]); reflexivity. }
  destruct E as (El & Ep & Ed).
  unfold storedPeriod. rewrite El. repeat split; assumption.
Qed.

Lemma C2_witness :
  succeeded Scenario.analysisDown
    (UploadSection.analysisRequest (Some "jeton") Scenario.selection) = false
  /\ storedPeriod
       (UploadSection.performUploadAndAnalyze Scenario.analysisDown
          Scenario.selection Scenario.dashboard).2
     = storedPeriod Scenario.dashboard
  /\ tally isPublish
       (calls (since Scenario.dashboard
          (UploadSection.performUploadAndAnalyze Scenario.analysisDown
             Scenario.selection Scenario.dashboard).2)) = 0%nat.
Proof.
  assert (H : succeeded Scenario.analysisDown
                (UploadSection.analysisRequest (Some "jeton") Scenario.selection) = false)
    by reflexivity.
  pose proof (C2_failure_leaves_period Scenario.analysisDown Scenario.selection
                Scenario.dashboard (or_intror H)) as (_ & Hs & _ & _ & Hp & _).
  split; [exact H |]. split; [exact Hs | exact Hp].
Defined.

Lemma errorText_truthy (err : Error) (fb : string) :
  truthyStr fb = true -> truthyStr (errorText err fb) = true.
Proof.
  intros Hfb. unfold errorText, orStr.
  destruct (response err ≫= Net.detail) as [d |].
  - destruct (truthyStr d) eqn:Ed; [exact Ed |].
    destruct (truthyStr (message err)) eqn:Em; [exact Em | exact Hfb].
  - destruct (truthyStr (message err)) eqn:Em; [exact Em | exact Hfb].
Qed.

Lemma performUploadAndAnalyze_storage
    (net : Backend) (st : UploadSection.State) (w : World) :
  let token := Window.getItem "token" w in
  succeeded net (UploadSection.uploadRequest token st) = true ->
  succeeded net (UploadSection.analysisRequest token st) = true ->
  localStorage (UploadSection.performUploadAndAnalyze net st w).2
  = <[analysisYear := String_of_Num (UploadSection.annee st)]>
      (<[analysisMonth := UploadSection.mois st]> (localStorage w)).
Proof.
  intros token Hup Han. rewrite performUploadAndAnalyze_cases. fold token.
  unfold succeeded in Hup, Han.
  destruct (net (UploadSection.uploadRequest token st)); [| discriminate].
  destruct (net (UploadSection.analysisRequest token st)); [| discriminate].
  cbn [snd].
  now destruct (dispatchEvent_frame net (UploadSection.periodChanged st)
    (Window.setItem analysisYear (String_of_Num (UploadSection.annee st))
       (Window.setItem analysisMonth (UploadSection.mois st)
          (Window.log [Http (UploadSection.analysisRequest token st)]
             (Window.log [Http (UploadSection.uploadRequest token st)] w)))))
    as (-> & _).
Qed.

Lemma awaiting_accepts (st : UploadSection.State) :
  idle st -> awaitingConfirmation (UploadSection.handleUploadClick st) ->
  accepts st = true.
Proof.
  intros [Hc _] [Ho _]. destruct (accepts st) eqn:E; [reflexivity |].
  destruct (handleUploadClick_rejects st E) as (Hc' & _). congruence.
Qed.

(** C3. In a cycle that went through (the submission opened the dialog,
    the user confirmed, both requests succeeded) the event is published
    exactly once, carrying the submitted period, and afterwards each of
    the three readers of the store returns exactly that period. *)
Theorem C3_success_publishes_once
    (net : Backend) (st : UploadSection.State) (w : World) (now : Date) :
  idle st ->
  let s1 := Orchestrator.step net Orchestrator.Submit (st, w) in
  awaitingConfirmation s1.1 ->
  let token := Window.getItem "token" w in
  succeeded net (UploadSection.uploadRequest token st) = true ->
  succeeded net (UploadSection.analysisRequest token st) = true ->
  let w' := (Orchestrator.step net Orchestrator.Confirm s1).2 in
  tally isPublish (calls (since w w')) = 1%nat
  /\ Publish {| detail := Some {| d_mois := Some (mois (submitted st));
                                  d_annee := Some (ofNum (annee (submitted st))) |} |}
     ∈ calls (since w w')
  /\ AlertsPanel.readStoredPeriod (localStorage w') now = submitted st
  /\ Dashboard.initialPeriod (localStorage w') now = submitted st
  /\ AnalyticsSummary.period (AnalyticsSummary.initial (localStorage w') now)
     = submitted st.
Proof.
  intros Hi s1 Ha token Hup Han w'.
  pose proof (awaiting_accepts st Hi Ha) as Hacc.
  unfold w', s1. simpl.
  rewrite (handleUploadClick_accepts st Hacc).
  rewrite performUploadAndAnalyze_calls.
  destruct (tally_cycleCalls net (opened st) w) as (_ & _ & _ & Hp).
  assert (Hup' : succeeded net
            (UploadSection.uploadRequest (Window.getItem "token" w) (opened st)) = true)
    by exact Hup.
  assert (Han' : succeeded net
            (UploadSection.analysisRequest (Window.getItem "token" w) (opened st)) = true)
    by exact Han.
  rewrite Hup', Han' in Hp. split; [exact Hp |]. split.
  - unfold cycleCalls. rewrite Hup', Han'.
    do 4 (apply elem_of_cons; right). apply elem_of_cons. now left.
  - rewrite (performUploadAndAnalyze_storage net (opened st) w Hup' Han').
    apply readers_persisted; [| | exact (accepts_period st Hacc)]; simpl.
    + rewrite lookup_insert_ne by discriminate. apply lookup_insert_eq.
    + apply lookup_insert_eq.
Qed.

Lemma C3_witness :
  idle Scenario.selection
  /\ AlertsPanel.readStoredPeriod
       (localStorage
          (Orchestrator.run Scenario.up [Orchestrator.Submit; Orchestrator.Confirm]
             (Scenario.selection, Scenario.dashboard)).2) Scenario.now
     = {| mois := "mars"; annee := Int 2024 |}
  /\ tally isPublish
       (calls (since Scenario.dashboard
          (Orchestrator.run Scenario.up [Orchestrator.Submit; Orchestrator.Confirm]
             (Scenario.selection, Scenario.dashboard)).2)) = 1%nat.
Proof.
  assert (Ha : awaitingConfirmation
                 (Orchestrator.step Scenario.up Orchestrator.Submit
                    (Scenario.selection, Scenario.dashboard)).1)
    by (split; reflexivity).
  pose proof (C3_success_publishes_once Scenario.up Scenario.selection
                Scenario.dashboard Scenario.now selection_idle Ha
                eq_refl eq_refl) as (Hp & _ & Hr & _).
  split; [exact selection_idle |]. split; [exact Hr | exact Hp].
Defined.

(** * Failure, rejection and cancellation *)

(** C5, as stated, fails: after a cycle whose analysis request is
    answered with a 500 the component is in the failed state, but the
    selected file is still selected. *)
Lemma C5_counterexample :
  let st' := (Orchestrator.run Scenario.analysisDown
                [Orchestrator.Submit; Orchestrator.Confirm]
                (Scenario.selection, Scenario.dashboard)).1 in
  succeeded Scenario.analysisDown
    (UploadSection.analysisRequest (Some "jeton") Scenario.selection) = false
  /\ UploadSection.error st' = "ETL en erreur"
  /\ UploadSection.confirmOpen st' = false
  /\ UploadSection.loading st' = false
  /\ UploadSection.files st' = [ {| name := "ventes.xlsx" |} ]
  /\ selection st' = selection Scenario.selection.
Proof. repeat split. Qed.

(** C5 (amended). When the upload request or the analysis request fails,
    the cycle ends in the failed state: dialog closed, not loading, and
    the message of the request that failed (the first of the two) on
    display. The UploadSelection is kept as it was: files, type, month and
    year are unchanged. *)
Theorem C5_failure_keeps_selection (net : Backend) (st : UploadSection.State) (w : World) :
  let token := Window.getItem "token" w in
  let up := UploadSection.uploadRequest token st in
  let an := UploadSection.analysisRequest token st in
  let st' := (UploadSection.performUploadAndAnalyze net st w).1 in
  succeeded net up = false \/ succeeded net an = false ->
  failed st'
  /\ selection st' = selection st
  /\ exists err,
       (net up = Rejected err
        \/ succeeded net up = true /\ net an = Rejected err)
       /\ UploadSection.error st' = errorText err fallback.
Proof.
  intros token up an st' Hfail. unfold st'.
  rewrite performUploadAndAnalyze_cases. fold token up an.
  unfold succeeded in *.
  destruct (net up) as [d1 | e1].
  - destruct (net an) as [d2 | e2]; [destruct Hfail; discriminate |].
    cbn [fst]. split; [| split; [reflexivity | exists e2; auto]].
    split; [split; reflexivity |]. simpl.
    apply truthyStr_spec, errorText_truthy. reflexivity.
  - cbn [fst]. split; [| split; [reflexivity | exists e1; auto]].
    split; [split; reflexivity |]. simpl.
    apply truthyStr_spec, errorText_truthy. reflexivity.
Qed.

Lemma C5_witness :
  succeeded Scenario.uploadDown
    (UploadSection.uploadRequest (Some "jeton") Scenario.selection) = false
  /\ failed (UploadSection.performUploadAndAnalyze Scenario.uploadDown
               Scenario.selection Scenario.dashboard).1
  /\ selection (UploadSection.performUploadAndAnalyze Scenario.uploadDown
                  Scenario.selection Scenario.dashboard).1
     = selection Scenario.selection.
Proof.
  assert (H : succeeded Scenario.uploadDown
                (UploadSection.uploadRequest (Some "jeton") Scenario.selection) = false)
    by reflexivity.
  pose proof (C5_failure_keeps_selection Scenario.uploadDown Scenario.selection
                Scenario.dashboard (or_introl H)) as (Hf & Hs & _).
  split; [exact H |]. split; [exact Hf | exact Hs].
Defined.

Lemma violates_rejected (st : UploadSection.State) :
  violatesInvariant st -> accepts st = false.
Proof.
  unfold accepts.
  intros [Hf | [Hx | [Ht | [Hm | Hy]]]].
  - rewrite Hf. simpl. now rewrite !andb_false_r.
  - apply andb_false_iff. right.
    apply not_true_iff_false. rewrite forallb_forall. intros Hall.
    apply List.Exists_exists in Hx as (f & Hin & Hbad).
    specialize (Hall f Hin). unfold UploadSection.notXlsx in Hall.
    rewrite negb_involutive in Hall. unfold hasExtension in Hbad. congruence.
  - now rewrite Ht.
  - rewrite Hm. simpl. now rewrite andb_false_r.
  - assert (truthyNum (UploadSection.annee st) = false) as ->
      by (destruct Hy as [-> | ->]; reflexivity).
    now rewrite !andb_false_r.
Qed.

(** A selection violates the invariant exactly when it is not valid. *)
Lemma violatesInvariant_iff (st : UploadSection.State) :
  violatesInvariant st <-> ~ validSelection st.
Proof.
  split.
  - intros Hbad Hv. pose proof (violates_rejected st Hbad) as H.
    rewrite (validSelection_accepts st Hv) in H. discriminate.
  - intros Hn. unfold violatesInvariant.
    destruct (UploadSection.files st) as [| f0 fs] eqn:Ef; [now left |].
    destruct (forallb (hasExtension ".xlsx") (f0 :: fs)) eqn:Ex.
    + destruct (UploadSection.typeFichier st) as [| c t] eqn:Et;
        [right; right; left; reflexivity |].
      destruct (UploadSection.mois st) as [| c' t'] eqn:Em;
        [right; right; right; left; reflexivity |].
      destruct (decide (UploadSection.annee st = NaN)) as [Hy1 | Hy1];
        [right; right; right; right; left; exact Hy1 |].
      destruct (decide (UploadSection.annee st = Int 0)) as [Hy2 | Hy2];
        [right; right; right; right; right; exact Hy2 |].
      exfalso. apply Hn. unfold validSelection. rewrite Ef, Et, Em.
      split; [discriminate |]. split.
      * apply List.Forall_forall. intros f Hin.
        rewrite forallb_forall in Ex. now apply Ex.
      * split; [discriminate |]. split; [discriminate |]. split; assumption.
    + right. left. apply List.Exists_exists.
      apply not_true_iff_false in Ex. rewrite forallb_forall in Ex.
      destruct (List.existsb (fun f => negb (hasExtension ".xlsx" f)) (f0 :: fs)) eqn:Eb.
      * apply List.existsb_exists in Eb as (f & Hin & Hf).
        exists f. split; [exact Hin | now apply negb_true_iff].
      * exfalso. apply Ex. intros f Hin.
        destruct (hasExtension ".xlsx" f) eqn:Ef'; [reflexivity |].
        assert (List.existsb (fun f => negb (hasExtension ".xlsx" f)) (f0 :: fs) = true)
          by (apply List.existsb_exists; exists f; split; [exact Hin | now rewrite Ef']).
        congruence.
Qed.

(** The filter does not look at letter case: a selection whose file is
    named [RAPPORT.XLSX] is valid, and submitting it opens the
    confirmation. *)
Example capitals_valid :
  validSelection Scenario.capitals
  /\ awaitingConfirmation (UploadSection.handleUploadClick Scenario.capitals).
Proof.
  split; [| split; reflexivity].
  split; [discriminate |]. split.
  - constructor; [reflexivity | constructor].
  - split; [discriminate |]. split; [discriminate |]. split; discriminate.
Qed.

(** C6. For every UploadSelection that violates the invariant (no file,
    or a file that is not of the extension [.xlsx], or no file type, month
    or year), a submit request made while idle is rejected with a
    validation message: the window and its trace are untouched, no
    request is issued, the dialog stays closed and the component is idle
    again, the selection unchanged. *)
Theorem C6_invalid_selection_rejected
    (net : Backend) (st : UploadSection.State) (w : World) :
  idle st -> violatesInvariant st ->
  let s1 := Orchestrator.step net Orchestrator.Submit (st, w) in
  idle s1.1
  /\ UploadSection.error s1.1 <> ""
  /\ s1.2 = w
  /\ requests (since w s1.2) = []
  /\ selection s1.1 = selection st.
Proof.
  intros [Hc Hl] Hbad. simpl.
  destruct (handleUploadClick_rejects st (violates_rejected st Hbad))
    as (Hc' & Hl' & He & Hs).
  split; [split; congruence |]. split; [now apply truthyStr_spec |].
  split; [reflexivity |]. split; [now rewrite since_refl | exact Hs].
Qed.

Lemma C6_witness :
  (idle (UploadSection.setFiles [] Scenario.selection)
   /\ violatesInvariant (UploadSection.setFiles [] Scenario.selection)
   /\ UploadSection.error
        (Orchestrator.step Scenario.up Orchestrator.Submit
           (UploadSection.setFiles [] Scenario.selection, Scenario.dashboard)).1
      = "Veuillez sélectionner au moins un fichier .xlsx."
   /\ (Orchestrator.step Scenario.up Orchestrator.Submit
         (UploadSection.setFiles [] Scenario.selection, Scenario.dashboard)).2
      = Scenario.dashboard)
  /\ (idle Scenario.withNotes
      /\ violatesInvariant Scenario.withNotes
      /\ UploadSection.error
           (Orchestrator.step Scenario.up Orchestrator.Submit
              (Scenario.withNotes, Scenario.dashboard)).1
         = "Seuls les fichiers .xlsx sont autorisés (fichier invalide : notes.txt)"
      /\ requests (since Scenario.dashboard
           (Orchestrator.step Scenario.up Orchestrator.Submit
              (Scenario.withNotes, Scenario.dashboard)).2) = []).
Proof.
  assert (Hi : idle (UploadSection.setFiles [] Scenario.selection))
    by (split; reflexivity).
  assert (Hv : violatesInvariant (UploadSection.setFiles [] Scenario.selection))
    by (left; reflexivity).
  assert (Hi' : idle Scenario.withNotes) by (split; reflexivity).
  assert (Hv' : violatesInvariant Scenario.withNotes)
    by (right; left; apply Exists_cons_tl, Exists_cons_hd; reflexivity).
  pose proof (C6_invalid_selection_rejected Scenario.up _ Scenario.dashboard Hi Hv)
    as (_ & _ & Hw & _).
  pose proof (C6_invalid_selection_rejected Scenario.up _ Scenario.dashboard Hi' Hv')
    as (_ & _ & _ & Hr & _).
  split.
  - split; [exact Hi |]. split; [exact Hv |]. split; [reflexivity | exact Hw].
  - split; [exact Hi' |]. split; [exact Hv' |]. split; [reflexivity | exact Hr].
Defined.

(** C7. When the user declines at the confirmation, by the "Annuler"
    button or by closing the dialog, the window and its trace are
    untouched, so no request is issued, and the component is idle
    again with the selection as it was. *)
Theorem C7_cancel_issues_nothing
    (net : Backend) (a : Orchestrator.Action) (st : UploadSection.State) (w : World) :
  awaitingConfirmation st ->
  a = Orchestrator.Cancel \/ a = Orchestrator.Close ->
  let s' := Orchestrator.step net a (st, w) in
  idle s'.1
  /\ s'.2 = w
  /\ requests (since w s'.2) = []
  /\ selection s'.1 = selection st.
Proof.
  intros [Hc Hl] [-> | ->]; simpl.
  - rewrite since_refl. repeat split. exact Hl.
  - unfold UploadSection.onClose. rewrite Hl. simpl.
    rewrite since_refl. repeat split. exact Hl.
Qed.

Lemma C7_witness :
  awaitingConfirmation (UploadSection.handleUploadClick Scenario.selection)
  /\ idle (Orchestrator.run Scenario.up [Orchestrator.Submit; Orchestrator.Cancel]
             (Scenario.selection, Scenario.dashboard)).1
  /\ requests (since Scenario.dashboard
       (Orchestrator.run Scenario.up [Orchestrator.Submit; Orchestrator.Cancel]
          (Scenario.selection, Scenario.dashboard)).2) = [].
Proof.
  assert (Ha : awaitingConfirmation (UploadSection.handleUploadClick Scenario.selection))
    by (split; reflexivity).
  pose proof (C7_cancel_issues_nothing Scenario.up Orchestrator.Cancel _
                Scenario.dashboard Ha (or_introl eq_refl)) as (Hi & _ & Hr & _).
  split; [exact Ha |]. split; [exact Hi | exact Hr].
Defined.

(** * The bearer credential *)

Lemma bearer_present (w : World) (t : string) :
  tokenPresent w t -> bearer (Window.getItem "token" w) = "Bearer " +:+ t.
Proof.
  intros [-> Ht]. apply truthyStr_spec in Ht. unfold bearer. simpl. now rewrite Ht.
Qed.

Lemma bearer_missing (w : World) :
  tokenMissing w -> bearer (Window.getItem "token" w) = "".
Proof. intros [-> | ->]; reflexivity. Qed.

Lemma performUploadAndAnalyze_requests
    (net : Backend) (st : UploadSection.State) (w : World) :
  let up := UploadSection.uploadRequest (Window.getItem "token" w) st in
  let an := UploadSection.analysisRequest (Window.getItem "token" w) st in
  exists rest,
    requests (since w (UploadSection.performUploadAndAnalyze net st w).2)
    = up :: (if succeeded net up then an :: rest else []).
Proof.
  intros up an. rewrite performUploadAndAnalyze_cases. fold up an.
  unfold succeeded.
  destruct (net up) as [d1 | e1].
  - destruct (net an) as [d2 | e2].
    + destruct (dispatchEvent_trace net (UploadSection.periodChanged st)
        (Window.setItem analysisYear (String_of_Num (UploadSection.annee st))
           (Window.setItem analysisMonth (UploadSection.mois st)
              (Window.log [Http an] (Window.log [Http up] w)))))
        as (fx & T & _).
      exists (requests fx). rewrite (since_app w _
        ([Http up; Http an; SetItem analysisMonth (UploadSection.mois st);
          SetItem analysisYear (String_of_Num (UploadSection.annee st));
          Dispatch (UploadSection.periodChanged st)] ++ fx)).
      * now rewrite requests_app.
      * cbn [snd]. rewrite T. simpl. now rewrite <- !app_assoc.
    + exists []. rewrite (since_app w _ [Http up; Http an]); [reflexivity |].
      simpl. now rewrite <- app_assoc.
  - exists []. rewrite (since_app w _ [Http up]); reflexivity.
Qed.

Lemma performUploadAndAnalyze_error
    (net : Backend) (st : UploadSection.State) (w : World) (err : Error) :
  let up := UploadSection.uploadRequest (Window.getItem "token" w) st in
  let an := UploadSection.analysisRequest (Window.getItem "token" w) st in
  net up = Rejected err \/ succeeded net up = true /\ net an = Rejected err ->
  UploadSection.error (UploadSection.performUploadAndAnalyze net st w).1
  = errorText err fallback.
Proof.
  intros up an H. rewrite performUploadAndAnalyze_cases. fold up an.
  unfold succeeded in H.
  destruct H as [-> | [Hup ->]]; [reflexivity |].
  destruct (net up); [reflexivity | discriminate].
Qed.

Lemma uploadExcels_valid (net : Backend) (a : uploadService.Args) (w : World) :
  validArgs a ->
  uploadService.uploadExcels net a w
  = match Window.getItem "token" w with
    | Some (String c t) =>
        let req := uploadService.uploadRequest (String c t) a in
        (match net req with Resolved d => inr d | Rejected e => inl e end,
         Window.log [Http req] w)
    | _ => (inl (newError "Token invalide ou expiré"), w)
    end.
Proof.
  intros (Ht & Hm & Hn & Hz & f & fs & Hf).
  apply truthyStr_spec in Ht, Hm.
  assert (Hy : truthyNum (uploadService.annee a) = true) by now apply truthyNum_set.
  unfold uploadService.uploadExcels. rewrite Ht, Hm, Hy, Hf. simpl.
  unfold Async.bind, Async.gets.
  destruct (Window.getItem "token" w) as [[| c t] |]; simpl; try reflexivity.
  now destruct (net _).
Qed.

(** C4, as stated, fails for [uploadExcels]: called with valid arguments
    while no token is stored, it throws "Token invalide ou expiré" on the
    spot; no request is issued, so the backend, which would have answered
    401, is never asked. *)
Lemma C4_counterexample :
  validArgs Scenario.args
  /\ Window.getItem "token" Scenario.anonymous = None
  /\ uploadService.uploadExcels Scenario.guarded Scenario.args Scenario.anonymous
     = (inl (newError "Token invalide ou expiré"), Scenario.anonymous)
  /\ requests (trace Scenario.anonymous) = [].
Proof.
  split.
  - repeat split; try discriminate. eauto.
  - repeat split.
Qed.

(** C4 (amended). The two requests of the cycle and the summary request
    carry [Authorization: Bearer <token>] when a token is present and an
    empty [Authorization] value otherwise. None of the three is held back
    for want of a token: the request is issued either way, and a refusal
    by the backend is what comes back, as the message the component shows
    or as the rejection of [getMonthSummary]. [uploadExcels], called with
    valid arguments, attaches [Bearer <token>] when a token is present and,
    when none is, throws "Token invalide ou expiré" without issuing any
    request. *)
Theorem C4_bearer_credential
    (net : Backend) (w : World) (st : UploadSection.State)
    (m : string) (y : Num) (a : uploadService.Args) :
  let token := Window.getItem "token" w in
  let up := UploadSection.uploadRequest token st in
  let an := UploadSection.analysisRequest token st in
  let sm := aiService.summaryRequest token m y in
  let cycle := UploadSection.performUploadAndAnalyze net st w in
  (forall t, tokenPresent w t ->
     header "Authorization" up = Some ("Bearer " +:+ t)
     /\ header "Authorization" an = Some ("Bearer " +:+ t)
     /\ header "Authorization" sm = Some ("Bearer " +:+ t))
  /\ (tokenMissing w ->
      header "Authorization" up = Some ""
      /\ header "Authorization" an = Some ""
      /\ header "Authorization" sm = Some "")
  /\ (exists rest,
        requests (since w cycle.2) = up :: (if succeeded net up then an :: rest else []))
  /\ (forall err,
        net up = Rejected err \/ succeeded net up = true /\ net an = Rejected err ->
        UploadSection.error cycle.1 = errorText err fallback)
  /\ aiService.getMonthSummary net (localStorage w) m y = ([Http sm], net sm)
  /\ (validArgs a -> forall t, tokenPresent w t ->
      let req := uploadService.uploadRequest t a in
      header "Authorization" req = Some ("Bearer " +:+ t)
      /\ uploadService.uploadExcels net a w
         = (match net req with Resolved d => inr d | Rejected e => inl e end,
            Window.log [Http req] w))
  /\ (validArgs a -> tokenMissing w ->
      uploadService.uploadExcels net a w
      = (inl (newError "Token invalide ou expiré"), w)).
Proof.
  intros token up an sm cycle.
  split; [| split; [| split; [| split; [| split; [| split]]]]].
  - intros t Ht. unfold up, an, sm, header. simpl.
    unfold token. now rewrite (bearer_present w t Ht).
  - intros Hm. unfold up, an, sm, header. simpl.
    unfold token. now rewrite (bearer_missing w Hm).
  - apply performUploadAndAnalyze_requests.
  - intros err. apply performUploadAndAnalyze_error.
  - reflexivity.
  - intros Ha t [Ht Hne]. split; [reflexivity |].
    rewrite (uploadExcels_valid net a w Ha), Ht.
    destruct t; [congruence | reflexivity].
  - intros Ha Hm. rewrite (uploadExcels_valid net a w Ha).
    destruct Hm as [-> | ->]; reflexivity.
Qed.

(** With nobody signed in and a backend that refuses anonymous requests,
    the cycle still sends the upload, with an empty credential, and shows
    the backend's refusal. *)
Example anonymous_cycle_reaches_backend :
  let cycle := UploadSection.performUploadAndAnalyze Scenario.guarded
                 (UploadSection.handleUploadClick Scenario.selection)
                 Scenario.anonymous in
  requests (trace cycle.2)
  = [UploadSection.uploadRequest None Scenario.selection]
  /\ header "Authorization" (UploadSection.uploadRequest None Scenario.selection)
     = Some ""
  /\ Scenario.guarded (UploadSection.uploadRequest None Scenario.selection)
     = Rejected (Scenario.httpError 401 "Not authenticated")
  /\ UploadSection.error cycle.1 = "Not authenticated".
Proof. repeat split. Qed.

(** * The Period Store *)

(** The lookup in the table of month names gives the name of the
    calendar month. *)
Lemma monthNameFR_calendar (d : Date) : monthNameFR d = calendarMonth (getMonth d).
Proof.
  destruct d as [m y Hm]. unfold monthNameFR. simpl.
  do 12 (destruct m as [| m]; [reflexivity |]). lia.
Qed.

(** C8. Reading the store, by any of the three readers, returns the
    period that was last persisted (the two entries as a cycle writes them,
    for a period with both fields set, whatever the store held before);
    and when neither entry is there it returns the name of the current
    calendar month ([janvier] in January, ..., [decembre] in December) and
    the current calendar year. *)
Theorem C8_store_get (w : World) (now : Date) (p : Period) :
  let persisted :=
    Window.setItem analysisYear (String_of_Num (annee p))
      (Window.setItem analysisMonth (mois p) w) in
  let current :=
    {| mois := calendarMonth (getMonth now); annee := Int (getFullYear now) |} in
  (periodSet p ->
     AlertsPanel.readStoredPeriod (localStorage persisted) now = p
     /\ Dashboard.initialPeriod (localStorage persisted) now = p
     /\ AnalyticsSummary.period (AnalyticsSummary.initial (localStorage persisted) now) = p)
  /\ (storedPeriod w = (None, None) ->
     AlertsPanel.readStoredPeriod (localStorage w) now = current
     /\ Dashboard.initialPeriod (localStorage w) now = current
     /\ AnalyticsSummary.period (AnalyticsSummary.initial (localStorage w) now) = current).
Proof.
  intros persisted current. split.
  - intros Hp. destruct p as [m y].
    apply readers_persisted; [| | exact Hp]; simpl.
    + rewrite lookup_insert_ne by discriminate. apply lookup_insert_eq.
    + apply lookup_insert_eq.
  - intros [= Em Ey]. unfold current. rewrite <- monthNameFR_calendar.
    now apply readers_default.
Qed.

(** * Publish and subscribe *)

Lemma mountWith_subscribed (p : Panel) (fx : list Effect) (w : World) :
  NoDup (listeners w) ->
  NoDup (listeners (Window.mountWith p fx w).2)
  /\ (Window.mountWith p fx w).1 ∈ listeners (Window.mountWith p fx w).2.
Proof.
  intros H. unfold Window.mountWith. cbn [fst snd]. split.
  - now apply addEventListener_NoDup.
  - apply addEventListener_elem.
Qed.

Lemma unmount_unsubscribed (id : nat) (w : World) :
  NoDup (listeners w) ->
  NoDup (listeners (Window.unmount id w)) /\ id ∉ listeners (Window.unmount id w).
Proof.
  intros H. unfold Window.unmount. cbn [listeners]. split.
  - now apply removeEventListener_NoDup.
  - apply removeEventListener_elem.
Qed.

(** A cycle registers and removes no callback. *)
Lemma performUploadAndAnalyze_listeners
    (net : Backend) (st : UploadSection.State) (w : World) :
  listeners (UploadSection.performUploadAndAnalyze net st w).2 = listeners w.
Proof.
  rewrite performUploadAndAnalyze_cases.
  destruct (net _); [| reflexivity].
  destruct (net _); [| reflexivity].
  cbn [snd]. now destruct (dispatchEvent_frame net (UploadSection.periodChanged st)
    (Window.setItem analysisYear (String_of_Num (UploadSection.annee st))
       (Window.setItem analysisMonth (UploadSection.mois st)
          (Window.log [Http (UploadSection.analysisRequest (Window.getItem "token" w) st)]
             (Window.log [Http (UploadSection.uploadRequest (Window.getItem "token" w) st)] w)))))
    as (_ & -> & _).
Qed.

Lemma dispatchEvent_deliveries (net : Backend) (ev : CustomEvent) (w : World) (id : nat) :
  NoDup (listeners w) ->
  Window.deliveries id (since w (Window.dispatchEvent net ev w))
  = if bool_decide (id ∈ listeners w) then [ev] else [].
Proof.
  intros Hnd. destruct (dispatchEvent_trace net ev w) as (fx & T & _ & D).
  rewrite (since_app _ _ _ T).
  change (Window.deliveries id (Dispatch ev :: fx)) with (Window.deliveries id fx).
  rewrite D. case_bool_decide as Hin.
  - now rewrite occurrences_NoDup.
  - now rewrite occurrences_notin.
Qed.

(** C9. A callback registered when the event is dispatched is run on it
    exactly once, and the panel it belongs to moves to the period its
    listener computes from the payload; a callback that is not registered,
    in particular one removed by its panel's unmount, is not run. This
    holds for each kind of panel from the moment its mount effect has
    registered the callback until its cleanup removes it. (The list of
    callbacks of a window never holds one twice: registration ignores a
    duplicate, and removal, dispatch and the upload cycle add none.) *)
Theorem C9_delivered_once_while_subscribed
    (net : Backend) (ev : CustomEvent) (w : World) (id : nat) (now : Date) :
  NoDup (listeners w) ->
  let published v := Window.dispatchEvent net ev v in
  (id ∈ listeners w ->
     Window.deliveries id (since w (published w)) = [ev]
     /\ forall p, panels w !! id = Some p ->
          exists p', panels (published w) !! id = Some p'
                     /\ Window.panelPeriod p'
                        = AlertsPanel.handler ev (Window.panelPeriod p))
  /\ (id ∉ listeners w ->
      Window.deliveries id (since w (published w)) = []
      /\ panels (published w) !! id = panels w !! id)
  /\ (forall mounted,
        mounted = Window.mountAlertsPanel now w
        \/ mounted = Window.mountDashboard now w
        \/ mounted = Window.mountAnalyticsSummary net now w ->
        let panel := mounted.1 in
        let gone := Window.unmount panel mounted.2 in
        Window.deliveries panel (since mounted.2 (published mounted.2)) = [ev]
        /\ Window.deliveries panel (since gone (published gone)) = []).
Proof.
  intros Hnd published. split; [| split].
  - intros Hin. split.
    + unfold published. rewrite dispatchEvent_deliveries by assumption.
      now rewrite bool_decide_eq_true_2.
    + intros p Hp. now apply dispatchEvent_period.
  - intros Hout. split.
    + unfold published. rewrite dispatchEvent_deliveries by assumption.
      now rewrite bool_decide_eq_false_2.
    + now apply dispatchEvent_other.
  - intros mounted Hm panel gone. unfold published.
    assert (Hs : NoDup (listeners mounted.2) /\ mounted.1 ∈ listeners mounted.2).
    { destruct Hm as [-> | [-> | ->]].
      - now apply mountWith_subscribed.
      - now apply mountWith_subscribed.
      - unfold Window.mountAnalyticsSummary.
        destruct (AnalyticsSummary.fetchSummary _ _ _ _ _).
        now apply mountWith_subscribed. }
    destruct Hs as [Hnd' Hin].
    destruct (unmount_unsubscribed panel mounted.2 Hnd') as [Hnd'' Hout].
    rewrite !dispatchEvent_deliveries by assumption.
    rewrite bool_decide_eq_true_2 by assumption.
    now rewrite bool_decide_eq_false_2.
Qed.

Lemma dashboard_listeners :
  NoDup (listeners Scenario.dashboard) /\ 0%nat ∈ listeners Scenario.dashboard.
Proof.
  change (listeners Scenario.dashboard) with [0%nat; 1%nat; 2%nat]. split.
  - apply NoDup_ListNoDup. repeat constructor; simpl; intuition discriminate.
  - apply elem_of_cons. now left.
Qed.

Lemma C9_witness :
  NoDup (listeners Scenario.dashboard)
  /\ Window.deliveries 0
       (since Scenario.dashboard
          (Window.dispatchEvent Scenario.up
             (UploadSection.periodChanged Scenario.selection) Scenario.dashboard))
     = [UploadSection.periodChanged Scenario.selection]
  /\ Window.deliveries 0
       (since (Window.unmount 0 Scenario.dashboard)
          (Window.dispatchEvent Scenario.up
             (UploadSection.periodChanged Scenario.selection)
             (Window.unmount 0 Scenario.dashboard)))
     = [].
Proof.
  destruct dashboard_listeners as [Hnd Hin].
  assert (Hnd' : NoDup (listeners (Window.unmount 0 Scenario.dashboard))).
  { now apply unmount_unsubscribed. }
  assert (Hout : 0%nat ∉ listeners (Window.unmount 0 Scenario.dashboard)).
  { now apply unmount_unsubscribed. }
  split; [exact Hnd |]. split.
  - exact (proj1 (proj1 (C9_delivered_once_while_subscribed Scenario.up
      (UploadSection.periodChanged Scenario.selection) Scenario.dashboard 0
      Scenario.now Hnd) Hin)).
  - exact (proj1 (proj1 (proj2 (C9_delivered_once_while_subscribed Scenario.up
      (UploadSection.periodChanged Scenario.selection)
      (Window.unmount 0 Scenario.dashboard) 0 Scenario.now Hnd')) Hout)).
Defined.

(** * Partial payloads *)

Lemma handler_missing (ev : CustomEvent) (p : Period) :
  missingField ev -> AlertsPanel.handler ev p = p.
Proof.
  unfold missingField, AlertsPanel.handler.
  destruct (detail ev) as [[[m |] [y |]] |]; simpl; try reflexivity.
  intros [-> | ->]; [reflexivity | now rewrite andb_false_r].
Qed.

Lemma onChange_missing (net : Backend) (ls : gmap string string)
    (ev : CustomEvent) (st : AnalyticsSummary.State) :
  missingField ev -> AnalyticsSummary.onChange net ls ev st = (st, []).
Proof.
  unfold missingField, AnalyticsSummary.onChange.
  destruct (detail ev) as [[[m |] [y |]] |]; simpl; try reflexivity.
  intros [-> | ->]; [reflexivity | now rewrite andb_false_r].
Qed.

Lemma handler_monthSet (ev : CustomEvent) (p : Period) :
  monthSet p -> monthSet (AlertsPanel.handler ev p).
Proof.
  intros Hp. unfold AlertsPanel.handler.
  destruct (detail ev) as [[[m |] [y |]] |]; simpl; try exact Hp.
  destruct (truthyStr m) eqn:Em; [| exact Hp].
  destruct (isTruthy y); [| exact Hp].
  now apply truthyStr_spec.
Qed.

Lemma handler_set (ev : CustomEvent) (p : Period) :
  yearConverts ev -> periodSet p -> periodSet (AlertsPanel.handler ev p).
Proof.
  intros Hc Hp. unfold AlertsPanel.handler.
  destruct (detail ev) as [[[m |] [y |]] |] eqn:Ed; simpl; try exact Hp.
  destruct (truthyStr m) eqn:Em; [| exact Hp].
  destruct (isTruthy y) eqn:Ey; [| exact Hp].
  split; [now apply truthyStr_spec |].
  apply truthyNum_set. exact (Hc _ y Ed eq_refl Ey).
Qed.

(** A payload whose year is a number converts; so does every event the
    upload section publishes. *)
Lemma ofNum_converts (m : option string) (n : Num) :
  yearConverts {| detail := Some {| d_mois := m; d_annee := Some (ofNum n) |} |}.
Proof. intros d y [= <-] [= <-] H. exact H. Qed.

Lemma periodChanged_converts (st : UploadSection.State) :
  yearConverts (UploadSection.periodChanged st).
Proof. apply ofNum_converts. Qed.

(** What every listener preserves, every dispatch preserves for all the
    mounted panels. *)
Section Preserved.

Variable P : Period -> Prop.
Variable net : Backend.
Variable ev : CustomEvent.
Hypothesis handler_P : forall p, P p -> P (AlertsPanel.handler ev p).

Lemma callListener_preserves (w : World) (id : nat) :
  (forall j q, panels w !! j = Some q -> P (Window.panelPeriod q)) ->
  forall j q, panels (Window.callListener net ev w id) !! j = Some q ->
              P (Window.panelPeriod q).
Proof.
  intros Hw j q. destruct (decide (j = id)) as [-> | Hne].
  - destruct (panels w !! id) as [p |] eqn:E.
    + destruct (callListener_period net ev w id p E) as (p' & E' & P').
      rewrite E'. intros [= <-]. rewrite P'. apply handler_P. now apply (Hw id).
    + rewrite callListener_own, E. discriminate.
  - rewrite callListener_other by assumption. apply Hw.
Qed.

Lemma dispatchEvent_preserves (w : World) :
  (forall j q, panels w !! j = Some q -> P (Window.panelPeriod q)) ->
  forall j q, panels (Window.dispatchEvent net ev w) !! j = Some q ->
              P (Window.panelPeriod q).
Proof.
  intros Hw. unfold Window.dispatchEvent, Window.callAll.
  assert (H0 : forall j q, panels (Window.log [Dispatch ev] w) !! j = Some q ->
                           P (Window.panelPeriod q)) by exact Hw.
  revert H0. generalize (Window.log [Dispatch ev] w). generalize (listeners w).
  intros l. induction l as [| id l IH]; intros v Hv; [exact Hv |].
  simpl. apply IH. now apply callListener_preserves.
Qed.

End Preserved.

Lemma dispatchEvent_panelsSet (net : Backend) (ev : CustomEvent) (w : World) :
  yearConverts ev -> panelsSet w -> panelsSet (Window.dispatchEvent net ev w).
Proof.
  intros Hc Hw.
  exact (dispatchEvent_preserves periodSet net ev (fun p => handler_set ev p Hc) w Hw).
Qed.

Lemma dispatchEvent_panelsMonthSet (net : Backend) (ev : CustomEvent) (w : World) :
  panelsMonthSet w -> panelsMonthSet (Window.dispatchEvent net ev w).
Proof.
  intros Hw.
  exact (dispatchEvent_preserves monthSet net ev (handler_monthSet ev) w Hw).
Qed.

Lemma mountWith_panelsSet (p : Panel) (fx : list Effect) (w : World) :
  panelsSet w -> periodSet (Window.panelPeriod p) ->
  panelsSet (Window.mountWith p fx w).2.
Proof.
  intros Hw Hp id q. unfold Window.mountWith. cbn [snd Window.addEventListener panels].
  destruct (decide (id = nextId w)) as [-> | Hne].
  - rewrite lookup_insert_eq. now intros [= <-].
  - rewrite lookup_insert_ne by congruence. apply Hw.
Qed.

Lemma initial_periods_set (w : World) (now : Date) :
  storeWritten w -> getFullYear now <> 0 ->
  periodSet (AlertsPanel.readStoredPeriod (localStorage w) now)
  /\ periodSet (Dashboard.initialPeriod (localStorage w) now)
  /\ periodSet (AnalyticsSummary.period (AnalyticsSummary.initial (localStorage w) now)).
Proof.
  intros [[= Em Ey] | (p & Hp & [= Em Ey])] Hy.
  - destruct (readers_default (localStorage w) now Em Ey) as (-> & -> & ->).
    assert (periodSet (Build_Period (monthNameFR now) (Int (getFullYear now)))).
    { split; [apply truthyStr_spec, monthNameFR_truthy |].
      split; simpl; congruence. }
    auto.
  - destruct p as [m y].
    destruct (readers_persisted (localStorage w) now m y Em Ey Hp) as (-> & -> & ->).
    auto.
Qed.

Lemma mount_panelsSet (net : Backend) (w : World) (now : Date) :
  panelsSet w -> storeWritten w -> getFullYear now <> 0 ->
  panelsSet (Window.mountAlertsPanel now w).2
  /\ panelsSet (Window.mountDashboard now w).2
  /\ panelsSet (Window.mountAnalyticsSummary net now w).2.
Proof.
  intros Hw Hs Hy.
  destruct (initial_periods_set w now Hs Hy) as (Ha & Hd & Hsum).
  split; [| split].
  - now apply mountWith_panelsSet.
  - now apply mountWith_panelsSet.
  - unfold Window.mountAnalyticsSummary.
    pose proof (fetchSummary_period net (localStorage w)
      (AnalyticsSummary.mois (AnalyticsSummary.initial (localStorage w) now))
      (AnalyticsSummary.annee (AnalyticsSummary.initial (localStorage w) now))
      (AnalyticsSummary.initial (localStorage w) now)) as E.
    destruct (AnalyticsSummary.fetchSummary _ _ _ _ _) as [st' fx].
    apply mountWith_panelsSet; [exact Hw |]. simpl in E |- *. now rewrite E.
Qed.


(** * The statements at the scenario *)

Lemma dashboard_panelsSet : panelsSet Scenario.dashboard /\ storeWritten Scenario.dashboard.
Proof.
  assert (H0 : panelsSet Scenario.signedIn)
    by (intros id p; unfold Scenario.signedIn; simpl; now rewrite lookup_empty).
  assert (Hy : getFullYear Scenario.now <> 0) by discriminate.
  pose proof (mount_panelsSet Scenario.up Scenario.signedIn Scenario.now H0
                (or_introl eq_refl) Hy) as (H1 & _).
  pose proof (mount_panelsSet Scenario.up _ Scenario.now H1
                (or_introl eq_refl) Hy) as (_ & H2 & _).
  pose proof (mount_panelsSet Scenario.up _ Scenario.now H2
                (or_introl eq_refl) Hy) as (_ & _ & H3).
  split; [exact H3 | now left].
Qed.

Lemma C4_witness :
  tokenPresent Scenario.dashboard "jeton"
  /\ header "Authorization"
       (UploadSection.uploadRequest (Some "jeton") Scenario.selection)
     = Some "Bearer jeton"
  /\ tokenMissing Scenario.anonymous
  /\ header "Authorization"
       (aiService.summaryRequest None "mars" (Int 2024))
     = Some "".
Proof.
  assert (Hp : tokenPresent Scenario.dashboard "jeton") by (split; [reflexivity | discriminate]).
  assert (Hm : tokenMissing Scenario.anonymous) by (left; reflexivity).
  split; [exact Hp |]. split; [| split; [exact Hm |]].
  - exact (proj1 (proj1 (C4_bearer_credential Scenario.up Scenario.dashboard
      Scenario.selection "mars" (Int 2024) Scenario.args) "jeton" Hp)).
  - exact (proj2 (proj2 (proj1 (proj2 (C4_bearer_credential Scenario.up
      Scenario.anonymous Scenario.selection "mars" (Int 2024) Scenario.args)) Hm))).
Defined.

Lemma C8_witness :
  periodSet {| mois := "mars"; annee := Int 2024 |}
  /\ AlertsPanel.readStoredPeriod
       (localStorage
          (Window.setItem analysisYear "2024"
             (Window.setItem analysisMonth "mars" Scenario.dashboard)))
       Scenario.now
     = {| mois := "mars"; annee := Int 2024 |}
  /\ storedPeriod Scenario.dashboard = (None, None)
  /\ AlertsPanel.readStoredPeriod (localStorage Scenario.dashboard) Scenario.now
     = {| mois := "novembre"; annee := Int 2026 |}
  /\ Dashboard.initialPeriod (localStorage Scenario.dashboard) Scenario.january
     = {| mois := "janvier"; annee := Int 2025 |}
  /\ AnalyticsSummary.period
       (AnalyticsSummary.initial (localStorage Scenario.dashboard) Scenario.august)
     = {| mois := "aout"; annee := Int 2025 |}.
Proof.
  assert (Hp : periodSet {| mois := "mars"; annee := Int 2024 |})
    by (repeat split; discriminate).
  pose proof (C8_store_get Scenario.dashboard Scenario.now
                {| mois := "mars"; annee := Int 2024 |}) as [Hset Hnone].
  pose proof (C8_store_get Scenario.dashboard Scenario.january
                {| mois := "mars"; annee := Int 2024 |}) as [_ Hjan].
  pose proof (C8_store_get Scenario.dashboard Scenario.august
                {| mois := "mars"; annee := Int 2024 |}) as [_ Haug].
  split; [exact Hp |]. split; [exact (proj1 (Hset Hp)) |].
  split; [reflexivity |]. split; [exact (proj1 (Hnone eq_refl)) |].
  split; [exact (proj1 (proj2 (Hjan eq_refl))) |].
  exact (proj2 (proj2 (Haug eq_refl))).
Defined.



(** The scenario of the specification, run: after the cycle the three
    panels of the dashboard show mars 2024. *)
Example scenario_panels_follow :
  let w' := (Orchestrator.run Scenario.up [Orchestrator.Submit; Orchestrator.Confirm]
               (Scenario.selection, Scenario.dashboard)).2 in
  (Window.panelPeriod <$> panels w' !! 0%nat) = Some {| mois := "mars"; annee := Int 2024 |}
  /\ (Window.panelPeriod <$> panels w' !! 1%nat) = Some {| mois := "mars"; annee := Int 2024 |}
  /\ (Window.panelPeriod <$> panels w' !! 2%nat) = Some {| mois := "mars"; annee := Int 2024 |}
  /\ (Window.panelPeriod <$> panels Scenario.dashboard !! 0%nat)
     = Some {| mois := "novembre"; annee := Int 2026 |}.
Proof. repeat split; vm_compute; reflexivity. Qed.


(** * More about the upload form and its cycle *)

(** X1. A cycle, whatever its outcome, leaves every entry of the store
    other than the two period entries as it was (the token among them),
    and registers or removes no listener. *)
Theorem cycle_touches_only_period_entries
    (net : Backend) (st : UploadSection.State) (w : World) (k : string) :
  k <> analysisMonth -> k <> analysisYear ->
  let w' := (UploadSection.performUploadAndAnalyze net st w).2 in
  localStorage w' !! k = localStorage w !! k
  /\ listeners w' = listeners w
  /\ nextId w' = nextId w.
Proof.
  intros Hm Hy w'. unfold w'. split; [| split].
  - rewrite performUploadAndAnalyze_cases.
    destruct (net _); [| reflexivity].
    destruct (net _); [| reflexivity].
    cbn [snd].
    destruct (dispatchEvent_frame net (UploadSection.periodChanged st)
      (Window.setItem analysisYear (String_of_Num (UploadSection.annee st))
         (Window.setItem analysisMonth (UploadSection.mois st)
            (Window.log [Http (UploadSection.analysisRequest (Window.getItem "token" w) st)]
               (Window.log [Http (UploadSection.uploadRequest (Window.getItem "token" w) st)] w)))))
      as (-> & _).
    simpl. now rewrite !lookup_insert_ne by congruence.
  - apply performUploadAndAnalyze_listeners.
  - rewrite performUploadAndAnalyze_cases.
    destruct (net _); [| reflexivity].
    destruct (net _); [| reflexivity].
    cbn [snd].
    now destruct (dispatchEvent_frame net (UploadSection.periodChanged st)
      (Window.setItem analysisYear (String_of_Num (UploadSection.annee st))
         (Window.setItem analysisMonth (UploadSection.mois st)
            (Window.log [Http (UploadSection.analysisRequest (Window.getItem "token" w) st)]
               (Window.log [Http (UploadSection.uploadRequest (Window.getItem "token" w) st)] w)))))
      as (_ & _ & ->).
Qed.

Lemma cycle_touches_only_period_entries_witness :
  "token" <> analysisMonth
  /\ localStorage
       (UploadSection.performUploadAndAnalyze Scenario.up
          Scenario.selection Scenario.dashboard).2 !! "token"
     = Some "jeton".
Proof.
  assert (Hm : "token" <> analysisMonth) by discriminate.
  assert (Hy : "token" <> analysisYear) by discriminate.
  split; [exact Hm |].
  exact (proj1 (cycle_touches_only_period_entries Scenario.up Scenario.selection
                  Scenario.dashboard "token" Hm Hy)).
Defined.

(** X2. After a cycle that failed, submitting again brings back exactly
    the confirmation the first submission opened: same selection, messages
    cleared, dialog open. A retry needs no new selection. *)
Theorem retry_after_failure
    (net : Backend) (st : UploadSection.State) (w : World) :
  idle st ->
  awaitingConfirmation (UploadSection.handleUploadClick st) ->
  let token := Window.getItem "token" w in
  succeeded net (UploadSection.uploadRequest token st) = false
  \/ succeeded net (UploadSection.analysisRequest token st) = false ->
  let st' := (UploadSection.performUploadAndAnalyze net
                (UploadSection.handleUploadClick st) w).1 in
  UploadSection.handleUploadClick st' = UploadSection.handleUploadClick st
  /\ awaitingConfirmation (UploadSection.handleUploadClick st').
Proof.
  intros Hi Ha token Hfail st'.
  assert (E : UploadSection.handleUploadClick st' = UploadSection.handleUploadClick st).
  { pose proof (awaiting_accepts st Hi Ha) as Hacc.
    unfold st'. rewrite (handleUploadClick_accepts st Hacc).
    rewrite performUploadAndAnalyze_cases.
    change (UploadSection.uploadRequest (Window.getItem "token" w) (opened st))
      with (UploadSection.uploadRequest token st).
    change (UploadSection.analysisRequest (Window.getItem "token" w) (opened st))
      with (UploadSection.analysisRequest token st).
    destruct Hi as [_ Hl]. unfold succeeded in Hfail.
    assert (Hre : forall err, UploadSection.handleUploadClick (afterFailure err (opened st))
                              = opened st).
    { intros err. rewrite handleUploadClick_accepts by exact Hacc.
      clear -Hl. destruct st. cbn [UploadSection.loading] in Hl. subst.
      reflexivity. }
    destruct (net (UploadSection.uploadRequest token st)) as [d1 | e1].
    - destruct (net (UploadSection.analysisRequest token st)) as [d2 | e2];
        [destruct Hfail; discriminate |]. apply Hre.
    - apply Hre. }
  split; [exact E | now rewrite E].
Qed.

Lemma retry_after_failure_witness :
  idle Scenario.selection
  /\ UploadSection.handleUploadClick
       (Orchestrator.run Scenario.uploadDown
          [Orchestrator.Submit; Orchestrator.Confirm]
          (Scenario.selection, Scenario.dashboard)).1
     = UploadSection.handleUploadClick Scenario.selection.
Proof.
  assert (Ha : awaitingConfirmation (UploadSection.handleUploadClick Scenario.selection))
    by (split; reflexivity).
  split; [exact selection_idle |].
  exact (proj1 (retry_after_failure Scenario.uploadDown Scenario.selection
                  Scenario.dashboard selection_idle Ha (or_introl eq_refl))).
Defined.

(** X3. After a cycle that went through, the file list is empty, the
    summary of the answer is on display, and an immediate new submission is
    refused for want of a file: the dialog stays closed. Type, month and
    year stay selected. *)
Theorem resubmit_after_success_needs_files
    (net : Backend) (st : UploadSection.State) (w : World) (d1 d2 : Data) :
  idle st ->
  awaitingConfirmation (UploadSection.handleUploadClick st) ->
  let token := Window.getItem "token" w in
  net (UploadSection.uploadRequest token st) = Resolved d1 ->
  net (UploadSection.analysisRequest token st) = Resolved d2 ->
  let st' := (UploadSection.performUploadAndAnalyze net
                (UploadSection.handleUploadClick st) w).1 in
  UploadSection.files st' = []
  /\ UploadSection.successMessage st' = UploadSection.summaryText d2
  /\ UploadSection.error st' = ""
  /\ (UploadSection.typeFichier st', UploadSection.mois st', UploadSection.annee st')
     = (UploadSection.typeFichier st, UploadSection.mois st, UploadSection.annee st)
  /\ idle (UploadSection.handleUploadClick st')
  /\ UploadSection.error (UploadSection.handleUploadClick st')
     = "Veuillez sélectionner au moins un fichier .xlsx."
  /\ UploadSection.successMessage (UploadSection.handleUploadClick st') = "".
Proof.
  intros Hi Ha token Hup Han st'.
  pose proof (awaiting_accepts st Hi Ha) as Hacc.
  assert (E : st' = afterSuccess d2 (opened st)).
  { unfold st'. rewrite (handleUploadClick_accepts st Hacc).
    rewrite performUploadAndAnalyze_cases.
    change (UploadSection.uploadRequest (Window.getItem "token" w) (opened st))
      with (UploadSection.uploadRequest token st).
    change (UploadSection.analysisRequest (Window.getItem "token" w) (opened st))
      with (UploadSection.analysisRequest token st).
    now rewrite Hup, Han. }
  rewrite E. unfold accepts in Hacc. rewrite !andb_true_iff in Hacc.
  destruct Hacc as [[[[Ht Hm] Hy] _] _]. destruct Hi as [_ Hl].
  unfold UploadSection.handleUploadClick. simpl. rewrite Ht, Hm, Hy. simpl.
  repeat split; assumption || reflexivity.
Qed.

Lemma resubmit_after_success_needs_files_witness :
  idle Scenario.selection
  /\ UploadSection.error
       (UploadSection.handleUploadClick
          (Orchestrator.run Scenario.up [Orchestrator.Submit; Orchestrator.Confirm]
             (Scenario.selection, Scenario.dashboard)).1)
     = "Veuillez sélectionner au moins un fichier .xlsx."
  /\ UploadSection.successMessage
       (Orchestrator.run Scenario.up [Orchestrator.Submit; Orchestrator.Confirm]
          (Scenario.selection, Scenario.dashboard)).1
     = "✅ Chargement terminé. Ventes:10 Achats:0 Stock:0 Dépenses:0 Marge:0 Banque:0 Caisse:0 Clients:0. Analyse IA: 2 anomalie(s), dont 0 critique(s).".
Proof.
  assert (Ha : awaitingConfirmation (UploadSection.handleUploadClick Scenario.selection))
    by (split; reflexivity).
  pose proof (resubmit_after_success_needs_files Scenario.up Scenario.selection
    Scenario.dashboard Scenario.answer Scenario.answer selection_idle Ha
    eq_refl eq_refl) as T.
  split; [exact selection_idle |]. split.
  - exact (proj1 (proj2 (proj2 (proj2 (proj2 (proj2 T)))))).
  - exact (proj1 (proj2 T)).
Defined.


Lemma find_first {A} (f : A -> bool) (good rest : list A) (bad : A) :
  Forall (fun x => f x = false) good -> f bad = true ->
  List.find f (good ++ bad :: rest) = Some bad.
Proof.
  induction 1 as [| x l Hx _ IH]; intros Hb; simpl.
  - now rewrite Hb.
  - rewrite Hx. now apply IH.
Qed.

(** X4. When type, month and year are set and some file is not an
    [.xlsx] file (letter case ignored), the message names the first such
    file in the order of the selection, and the dialog does not open. *)
Theorem first_invalid_file_is_named
    (st : UploadSection.State) (good rest : list File) (bad : File) :
  UploadSection.typeFichier st <> "" -> UploadSection.mois st <> "" ->
  UploadSection.annee st <> NaN -> UploadSection.annee st <> Int 0 ->
  UploadSection.files st = (good ++ bad :: rest)%list ->
  Forall (fun f => endsWith (toLowerCase (name f)) ".xlsx" = true) good ->
  endsWith (toLowerCase (name bad)) ".xlsx" = false ->
  UploadSection.error (UploadSection.handleUploadClick st)
  = "Seuls les fichiers .xlsx sont autorisés (fichier invalide : "
    +:+ name bad +:+ ")"
  /\ UploadSection.confirmOpen (UploadSection.handleUploadClick st)
     = UploadSection.confirmOpen st.
Proof.
  intros Ht Hm Hn Hz Hf Hgood Hbad.
  apply truthyStr_spec in Ht, Hm.
  assert (Hy : truthyNum (UploadSection.annee st) = true) by now apply truthyNum_set.
  unfold UploadSection.handleUploadClick. rewrite Ht, Hm, Hy, Hf. simpl.
  replace (length (good ++ bad :: rest) =? 0)%nat with false
    by (symmetry; apply Nat.eqb_neq; rewrite length_app; simpl; lia).
  rewrite (find_first UploadSection.notXlsx good rest bad).
  - split; reflexivity.
  - eapply Forall_impl; [exact Hgood |]. intros f Hx. cbv beta in Hx.
    unfold UploadSection.notXlsx. now rewrite Hx.
  - unfold UploadSection.notXlsx. now rewrite Hbad.
Qed.

Lemma first_invalid_file_is_named_witness :
  endsWith (toLowerCase "notes.txt") ".xlsx" = false
  /\ UploadSection.error
       (UploadSection.handleUploadClick
          (UploadSection.setFiles
             [ {| name := "ventes.xlsx" |}; {| name := "notes.txt" |};
               {| name := "photo.png" |} ] Scenario.selection))
     = "Seuls les fichiers .xlsx sont autorisés (fichier invalide : notes.txt)".
Proof.
  split; [reflexivity |].
  refine (proj1 (first_invalid_file_is_named
    (UploadSection.setFiles
       [ {| name := "ventes.xlsx" |}; {| name := "notes.txt" |};
         {| name := "photo.png" |} ] Scenario.selection)
    [ {| name := "ventes.xlsx" |} ] [ {| name := "photo.png" |} ]
    {| name := "notes.txt" |} _ _ _ _ eq_refl _ eq_refl));
    try discriminate.
  repeat constructor.
Defined.

(** * More about the stored period *)

(** X5. Whatever the store holds, the alerts panel and the summary start
    on the same period and the dashboard on the same month; the dashboard
    shows their year too, except that a year which is [0] or not a number
    is replaced by the current year. The month is never empty. *)
Theorem readers_agree (ls : gmap string string) (now : Date) :
  let r := AlertsPanel.readStoredPeriod ls now in
  AnalyticsSummary.period (AnalyticsSummary.initial ls now) = r
  /\ Dashboard.initialPeriod ls now
     = {| mois := mois r; annee := orNum (annee r) (Int (getFullYear now)) |}
  /\ mois r <> "".
Proof.
  unfold AlertsPanel.readStoredPeriod, Dashboard.initialPeriod,
    AnalyticsSummary.initial, AnalyticsSummary.period. simpl.
  split; [reflexivity |]. split.
  - f_equal. unfold Number_of_item.
    destruct (ls !! analysisYear) as [[| c s] |]; try reflexivity.
    all: unfold orNum; simpl; now destruct (negb (getFullYear now =? 0)).
  - apply truthyStr_spec. unfold orStr.
    destruct (ls !! analysisMonth) as [m |]; [| apply monthNameFR_truthy].
    destruct (truthyStr m) eqn:E; [exact E | apply monthNameFR_truthy].
Qed.

(** * More about the channel *)

Lemma log_log (a b : list Effect) (w : World) :
  Window.log b (Window.log a w) = Window.log (a ++ b) w.
Proof. unfold Window.log. simpl. now rewrite app_assoc. Qed.

Lemma callListener_missing (net : Backend) (ev : CustomEvent) (w : World) (id : nat) :
  missingField ev -> Window.callListener net ev w id = Window.log [Invoke id ev] w.
Proof.
  intros Hm. unfold Window.callListener.
  destruct (panels w !! id) as [[p | p | st] |] eqn:E; [| | | reflexivity].
  - rewrite (handler_missing ev p Hm). unfold Window.setPanel, Window.log.
    now rewrite (insert_id _ _ _ E).
  - rewrite onPeriod_handler, (handler_missing ev p Hm).
    unfold Window.setPanel, Window.log. now rewrite (insert_id _ _ _ E).
  - rewrite (onChange_missing net (localStorage w) ev st Hm).
    unfold Window.setPanel, Window.log.
    now rewrite (insert_id _ _ _ E).
Qed.

Lemma callAll_missing (net : Backend) (ev : CustomEvent) (l : list nat) :
  missingField ev -> forall w,
  Window.callAll net ev l w = Window.log ((fun id => Invoke id ev) <$> l) w.
Proof.
  intros Hm. induction l as [| id l IH]; intros w.
  - unfold Window.log. simpl. rewrite app_nil_r. now destruct w.
  - unfold Window.callAll in *. simpl. rewrite IH.
    rewrite (callListener_missing net ev w id Hm). apply log_log.
Qed.

Lemma requests_invoked (ev : CustomEvent) (l : list nat) :
  requests (Dispatch ev :: ((fun id => Invoke id ev) <$> l)) = [].
Proof. induction l as [| id l IH]; [reflexivity | exact IH]. Qed.

(** X6. Publishing an event whose payload lacks the month or the year,
    the field being absent or holding an empty value (the empty string,
    [0], [NaN], [null]), only calls the listeners: every panel keeps its
    whole state, the store is untouched and no request goes out. *)
Theorem partial_payload_is_silent (net : Backend) (ev : CustomEvent) (w : World) :
  missingField ev ->
  let w' := Window.dispatchEvent net ev w in
  w' = Window.log (Dispatch ev :: ((fun id => Invoke id ev) <$> listeners w)) w
  /\ panels w' = panels w
  /\ localStorage w' = localStorage w
  /\ requests (since w w') = [].
Proof.
  intros Hm w'.
  assert (E : w' = Window.log (Dispatch ev :: ((fun id => Invoke id ev) <$> listeners w)) w).
  { unfold w', Window.dispatchEvent.
    rewrite (callAll_missing net ev _ Hm). apply log_log. }
  split; [exact E |]. rewrite E. repeat split.
  rewrite (since_app w _ (Dispatch ev :: ((fun id => Invoke id ev) <$> listeners w)))
    by reflexivity.
  apply requests_invoked.
Qed.

Lemma partial_payload_is_silent_witness :
  let noMonth := {| detail := Some {| d_mois := None;
                                      d_annee := Some (ofNum (Int 2024)) |} |} in
  let emptyMonth := {| detail := Some {| d_mois := Some "";
                                         d_annee := Some (ofNum (Int 2025)) |} |} in
  let zeroYear := {| detail := Some {| d_mois := Some "mai";
                                       d_annee := Some (ofNum (Int 0)) |} |} in
  let nanYear := {| detail := Some {| d_mois := Some "mai";
                                      d_annee := Some (ofNum NaN) |} |} in
  let emptyYear := {| detail := Some {| d_mois := Some "mai";
                                        d_annee := Some (ofStr "") |} |} in
  (missingField noMonth
   /\ panels (Window.dispatchEvent Scenario.up noMonth Scenario.dashboard)
      = panels Scenario.dashboard)
  /\ (missingField emptyMonth
      /\ panels (Window.dispatchEvent Scenario.up emptyMonth Scenario.dashboard)
         = panels Scenario.dashboard)
  /\ (missingField zeroYear
      /\ panels (Window.dispatchEvent Scenario.up zeroYear Scenario.dashboard)
         = panels Scenario.dashboard)
  /\ (missingField nanYear
      /\ panels (Window.dispatchEvent Scenario.up nanYear Scenario.dashboard)
         = panels Scenario.dashboard)
  /\ (missingField emptyYear
      /\ requests (since Scenario.dashboard
                     (Window.dispatchEvent Scenario.up emptyYear Scenario.dashboard))
         = []).
Proof.
  intros noMonth emptyMonth zeroYear nanYear emptyYear.
  assert (H1 : missingField noMonth) by (left; reflexivity).
  assert (H2 : missingField emptyMonth) by (left; reflexivity).
  assert (H3 : missingField zeroYear) by (right; reflexivity).
  assert (H4 : missingField nanYear) by (right; reflexivity).
  assert (H5 : missingField emptyYear) by (right; reflexivity).
  split; [split; [exact H1 |] |].
  { exact (proj1 (proj2 (partial_payload_is_silent Scenario.up _ Scenario.dashboard H1))). }
  split; [split; [exact H2 |] |].
  { exact (proj1 (proj2 (partial_payload_is_silent Scenario.up _ Scenario.dashboard H2))). }
  split; [split; [exact H3 |] |].
  { exact (proj1 (proj2 (partial_payload_is_silent Scenario.up _ Scenario.dashboard H3))). }
  split; [split; [exact H4 |] |].
  { exact (proj1 (proj2 (partial_payload_is_silent Scenario.up _ Scenario.dashboard H4))). }
  split; [exact H5 |].
  exact (proj2 (proj2 (proj2
    (partial_payload_is_silent Scenario.up _ Scenario.dashboard H5)))).
Defined.

Lemma filter_others (id : nat) (l : list nat) :
  Forall (fun j => j <> id) l ->
  List.filter (fun j => negb (Nat.eqb j id)) (l ++ [id]) = l.
Proof.
  induction 1 as [| j l Hj _ IH]; simpl.
  - now rewrite Nat.eqb_refl.
  - destruct (Nat.eqb_spec j id); [contradiction |]. simpl. now rewrite IH.
Qed.

Lemma mountWith_unmount (p : Panel) (fx : list Effect) (w : World) :
  wellNumbered w ->
  let id := (Window.mountWith p fx w).1 in
  let w' := Window.unmount id (Window.mountWith p fx w).2 in
  id = nextId w
  /\ listeners w' = listeners w
  /\ panels w' = panels w
  /\ localStorage w' = localStorage w.
Proof.
  intros [Hl Hp]. unfold Window.mountWith, Window.unmount. simpl.
  assert (Hnot : nextId w ∉ listeners w).
  { intros Hin. rewrite List.Forall_forall in Hl.
    apply list_elem_of_In in Hin. specialize (Hl _ Hin). lia. }
  rewrite bool_decide_eq_false_2 by exact Hnot.
  split; [reflexivity |]. split; [| split; [| reflexivity]].
  - apply filter_others. eapply Forall_impl; [exact Hl |].
    intros j Hj. cbv beta in Hj. lia.
  - apply delete_insert_id. apply Hp. lia.
Qed.

(** X7. Each panel's cleanup undoes its mount: mounting an alerts panel,
    the dashboard or the summary and unmounting it again leaves the
    listeners of [window], the mounted panels and the store exactly as
    they were. *)
Theorem mount_then_unmount_leaves_no_listener
    (net : Backend) (now : Date) (w : World) :
  wellNumbered w ->
  forall mounted,
    mounted = Window.mountAlertsPanel now w
    \/ mounted = Window.mountDashboard now w
    \/ mounted = Window.mountAnalyticsSummary net now w ->
    let w' := Window.unmount mounted.1 mounted.2 in
    mounted.1 ∈ listeners mounted.2
    /\ listeners w' = listeners w
    /\ panels w' = panels w
    /\ localStorage w' = localStorage w.
Proof.
  intros Hw mounted Hm.
  assert (H : exists p fx, mounted = Window.mountWith p fx w).
  { destruct Hm as [-> | [-> | ->]]; [eexists _, _; reflexivity .. |].
    unfold Window.mountAnalyticsSummary.
    destruct (AnalyticsSummary.fetchSummary _ _ _ _ _). eexists _, _; reflexivity. }
  destruct H as (p & fx & ->).
  destruct (mountWith_unmount p fx w Hw) as (_ & Hl & Hp & Hs).
  split; [| now repeat split].
  unfold Window.mountWith. cbn [fst snd]. apply addEventListener_elem.
Qed.

Lemma dashboard_wellNumbered : wellNumbered Scenario.dashboard.
Proof.
  split.
  - change (listeners Scenario.dashboard) with [0%nat; 1%nat; 2%nat].
    change (nextId Scenario.dashboard) with 3%nat. repeat constructor.
  - change (nextId Scenario.dashboard) with 3%nat. intros j Hj.
    unfold Scenario.dashboard, Window.mountAnalyticsSummary.
    destruct (AnalyticsSummary.fetchSummary _ _ _ _ _). simpl.
    rewrite !lookup_insert_ne by lia. apply lookup_empty.
Qed.

Lemma mount_then_unmount_leaves_no_listener_witness :
  wellNumbered Scenario.dashboard
  /\ listeners
       (Window.unmount (Window.mountAlertsPanel Scenario.now Scenario.dashboard).1
          (Window.mountAlertsPanel Scenario.now Scenario.dashboard).2)
     = listeners Scenario.dashboard.
Proof.
  split; [exact dashboard_wellNumbered |].
  exact (proj1 (proj2 (mount_then_unmount_leaves_no_listener Scenario.up
    Scenario.now Scenario.dashboard dashboard_wellNumbered _ (or_introl eq_refl)))).
Defined.

(** * Sessions *)

Lemma readStoredPeriod_ext (s ls : gmap string string) (now : Date) :
  s !! analysisMonth = ls !! analysisMonth ->
  s !! analysisYear = ls !! analysisYear ->
  AlertsPanel.readStoredPeriod s now = AlertsPanel.readStoredPeriod ls now.
Proof. intros Em Ey. unfold AlertsPanel.readStoredPeriod. now rewrite Em, Ey. Qed.

(** X8. [logout] of the auth service closes the protected route, forgets
    the signed-in user and the credential, and touches nothing but the
    [token], [user] and [role] entries: the analysis period stays. *)
Theorem logout_closes_route_keeps_period
    (JSON_parse : string -> option authService.User)
    (ls : gmap string string) (now : Date) :
  let s := authService.logout ls in
  ProtectedRoute.ProtectedRoute s = ProtectedRoute.NavigateTo "/"
  /\ authService.getCurrentUser JSON_parse s = None
  /\ bearer (authService.getToken s) = ""
  /\ (forall k, k <> "token" -> k <> "user" -> k <> "role" -> s !! k = ls !! k)
  /\ AlertsPanel.readStoredPeriod s now = AlertsPanel.readStoredPeriod ls now.
Proof.
  intros s.
  assert (Ht : s !! "token" = None).
  { unfold s, authService.logout.
    rewrite !lookup_delete_ne by discriminate. apply lookup_delete_eq. }
  assert (Hu : s !! "user" = None).
  { unfold s, authService.logout.
    rewrite lookup_delete_ne by discriminate. apply lookup_delete_eq. }
  assert (Hk : forall k, k <> "token" -> k <> "user" -> k <> "role" -> s !! k = ls !! k).
  { intros k H1 H2 H3. unfold s, authService.logout.
    now rewrite !lookup_delete_ne by congruence. }
  split; [| split; [| split; [| split; [exact Hk |]]]].
  - unfold ProtectedRoute.ProtectedRoute, ProtectedRoute.isAuthenticated. now rewrite Ht.
  - unfold authService.getCurrentUser. now rewrite Hu.
  - unfold authService.getToken. now rewrite Ht.
  - apply readStoredPeriod_ext; apply Hk; discriminate.
Qed.

(** X9. The two logout buttons differ. The dashboard's removes [token],
    [role], [userRole] and [email], so the route closes and no role or
    email is found any more, but it leaves the [user] entry, and the
    analysis period, in place: [getCurrentUser] still answers as before.
    The navigation bar's clears the store: no user, and the panels fall
    back to the current month and year. *)
Theorem the_two_logouts
    (JSON_parse : string -> option authService.User)
    (decode : string -> option Access.Payload)
    (ls : gmap string string) (now : Date) :
  let d := (Access.handleLogout ls).1 in
  let n := (Navbar.handleLogout ls).1 in
  (ProtectedRoute.ProtectedRoute d = ProtectedRoute.NavigateTo "/"
   /\ Access.getRole decode d = ""
   /\ Access.getEmail decode d = ""
   /\ authService.getCurrentUser JSON_parse d = authService.getCurrentUser JSON_parse ls
   /\ AlertsPanel.readStoredPeriod d now = AlertsPanel.readStoredPeriod ls now)
  /\ (ProtectedRoute.ProtectedRoute n = ProtectedRoute.NavigateTo "/"
      /\ authService.getCurrentUser JSON_parse n = None
      /\ AlertsPanel.readStoredPeriod n now
         = {| mois := monthNameFR now; annee := Int (getFullYear now) |}).
Proof.
  intros d n.
  assert (Ht : d !! "token" = None).
  { unfold d, Access.handleLogout. cbn [fst].
    rewrite !lookup_delete_ne by discriminate. apply lookup_delete_eq. }
  assert (Hr : d !! "role" = None).
  { unfold d, Access.handleLogout. cbn [fst].
    rewrite !lookup_delete_ne by discriminate. apply lookup_delete_eq. }
  assert (Hu : d !! "userRole" = None).
  { unfold d, Access.handleLogout. cbn [fst].
    rewrite lookup_delete_ne by discriminate. apply lookup_delete_eq. }
  assert (He : d !! "email" = None).
  { unfold d, Access.handleLogout. cbn [fst]. apply lookup_delete_eq. }
  assert (Hk : forall k, k <> "token" -> k <> "role" -> k <> "userRole" -> k <> "email" ->
                         d !! k = ls !! k).
  { intros k H1 H2 H3 H4. unfold d, Access.handleLogout. cbn [fst].
    now rewrite !lookup_delete_ne by congruence. }
  split.
  - split; [| split; [| split; [| split]]].
    + unfold ProtectedRoute.ProtectedRoute, ProtectedRoute.isAuthenticated. now rewrite Ht.
    + unfold Access.getRole. now rewrite Hr, Hu, Ht.
    + unfold Access.getEmail. now rewrite He, Ht.
    + unfold authService.getCurrentUser. rewrite Hk by discriminate. reflexivity.
    + apply readStoredPeriod_ext; apply Hk; discriminate.
  - unfold n, Navbar.handleLogout. cbn [fst]. repeat split.
Qed.

(** X10. A login that the backend accepts with a non-empty token opens
    the protected route and makes both requests of the upload cycle carry
    that token as bearer credential; it leaves the analysis period alone
    and removes the [role] entry. A login that fails changes nothing in
    the store and throws an error whose message is not empty. *)
Theorem login_sets_the_credential
    (JSON_stringify : authService.User -> string) (net : authService.AuthBackend)
    (identifier password : string) (ls : gmap string string)
    (st : UploadSection.State) (now : Date) :
  let r := authService.loginUser JSON_stringify net identifier password ls in
  (forall data t,
     net (authService.loginRequest identifier password) = authService.LoggedIn data ->
     authService.access_token data = Some t -> t <> "" ->
     r.1 = inr (authService.user data)
     /\ ProtectedRoute.ProtectedRoute r.2 = ProtectedRoute.Children
     /\ header "Authorization" (UploadSection.uploadRequest (authService.getToken r.2) st)
        = Some ("Bearer " +:+ t)
     /\ header "Authorization" (UploadSection.analysisRequest (authService.getToken r.2) st)
        = Some ("Bearer " +:+ t)
     /\ r.2 !! "role" = None
     /\ AlertsPanel.readStoredPeriod r.2 now = AlertsPanel.readStoredPeriod ls now)
  /\ (forall err,
        net (authService.loginRequest identifier password) = authService.LoginRejected err ->
        r.2 = ls
        /\ exists e, r.1 = inl e /\ message e <> "" /\ response e = None).
Proof.
  intros r. split.
  - intros data t Hn Ht Hne. unfold r, authService.loginUser. rewrite Hn, Ht. cbn [fst snd].
    apply truthyStr_spec in Hne.
    assert (Htok : (delete "role"
              (<["user" := authService.stored (JSON_stringify <$> authService.user data)]>
                 (<["token" := authService.stored (Some t)]> ls))) !! "token" = Some t).
    { rewrite lookup_delete_ne by discriminate.
      rewrite lookup_insert_ne by discriminate. apply lookup_insert_eq. }
    split; [reflexivity |]. split; [| split; [| split; [| split]]].
    + unfold ProtectedRoute.ProtectedRoute, ProtectedRoute.isAuthenticated.
      rewrite Htok. now destruct t.
    + unfold authService.getToken. rewrite Htok. now destruct t.
    + unfold authService.getToken. rewrite Htok. now destruct t.
    + apply lookup_delete_eq.
    + apply readStoredPeriod_ext.
      * rewrite lookup_delete_ne by discriminate.
        now rewrite !lookup_insert_ne by discriminate.
      * rewrite lookup_delete_ne by discriminate.
        now rewrite !lookup_insert_ne by discriminate.
  - intros err Hn. unfold r, authService.loginUser. rewrite Hn. cbn [fst snd].
    split; [reflexivity |]. eexists. split; [reflexivity |]. split; [| reflexivity].
    apply truthyStr_spec, errorText_truthy. reflexivity.
Qed.

(** X11. Round trip of the signed-in user: when the backend's answer
    carries a user whose JSON form is not empty and parses back to it,
    [getCurrentUser] after the login returns that user, and after [logout]
    returns nothing. *)
Theorem login_then_getCurrentUser
    (JSON_stringify : authService.User -> string)
    (JSON_parse : string -> option authService.User)
    (net : authService.AuthBackend) (identifier password : string)
    (ls : gmap string string) (data : authService.LoginData) (u : authService.User) :
  net (authService.loginRequest identifier password) = authService.LoggedIn data ->
  authService.user data = Some u ->
  JSON_stringify u <> "" ->
  JSON_parse (JSON_stringify u) = Some u ->
  let s := (authService.loginUser JSON_stringify net identifier password ls).2 in
  authService.getCurrentUser JSON_parse s = Some u
  /\ authService.getCurrentUser JSON_parse (authService.logout s) = None.
Proof.
  intros Hn Hu Hne Hp s. split.
  - unfold s, authService.loginUser. rewrite Hn, Hu. cbn [snd].
    unfold authService.getCurrentUser.
    rewrite lookup_delete_ne by discriminate. rewrite lookup_insert_eq.
    simpl. apply truthyStr_spec in Hne. now rewrite Hne.
  - unfold authService.getCurrentUser, authService.logout.
    rewrite lookup_delete_ne by discriminate. now rewrite lookup_delete_eq.
Qed.

Lemma login_then_getCurrentUser_witness :
  Scenario2.stringify Scenario2.comptable <> ""
  /\ authService.getCurrentUser Scenario2.parse
       (authService.loginUser Scenario2.stringify Scenario2.loginOk "awa" "secret"
          Scenario2.used).2
     = Some Scenario2.comptable.
Proof.
  assert (Hne : Scenario2.stringify Scenario2.comptable <> "") by discriminate.
  split; [exact Hne |].
  exact (proj1 (login_then_getCurrentUser Scenario2.stringify Scenario2.parse
    Scenario2.loginOk "awa" "secret" Scenario2.used _ Scenario2.comptable
    eq_refl eq_refl Hne eq_refl)).
Defined.


(** X12. The login page goes to the dashboard exactly when the backend
    accepts the login and the user it returns has a role. Whenever the
    backend accepts the login the token is stored, so the protected route
    is open afterwards even when the page stays put and reports a missing
    role (unless the token is the empty string). A refused login leaves
    the store alone and shows one error, never an empty one. *)
Theorem handleLogin_outcomes
    (JSON_stringify : authService.User -> string) (net : authService.AuthBackend)
    (identifier password : string) (ls : gmap string string) :
  let r := Login.handleLogin JSON_stringify net identifier password ls in
  (Navigate "/dashboard" ∈ r.1 <->
   exists data u ro,
     net (authService.loginRequest identifier password) = authService.LoggedIn data
     /\ authService.user data = Some u
     /\ authService.role u = Some ro /\ ro <> "")
  /\ (forall data,
        net (authService.loginRequest identifier password) = authService.LoggedIn data ->
        authService.access_token data <> Some "" ->
        ProtectedRoute.ProtectedRoute r.2 = ProtectedRoute.Children)
  /\ (forall err,
        net (authService.loginRequest identifier password) = authService.LoginRejected err ->
        r.2 = ls /\ exists text, r.1 = [ToastError text] /\ text <> "").
Proof.
  intros r. unfold r, Login.handleLogin, authService.loginUser.
  destruct (net (authService.loginRequest identifier password)) as [data | err].
  - split; [| split; [| intros err [=]]].
    + destruct (authService.user data) as [[i n e [ro |]] |] eqn:Eu; simpl.
      * destruct ro as [| c ro']; simpl.
        -- split.
           ++ rewrite list_elem_of_singleton. discriminate.
           ++ intros (d & u & ro & [= <-] & Hu & Hr & Hne).
              rewrite Eu in Hu. injection Hu as <-. simpl in Hr. congruence.
        -- split.
           ++ intros _. exists data. eexists. eexists.
              split; [reflexivity |]. split; [exact Eu |]. split; [reflexivity |].
              discriminate.
           ++ intros _. apply elem_of_cons. right. apply elem_of_cons. now left.
      * split.
        -- rewrite list_elem_of_singleton. discriminate.
        -- intros (d & u & ro & [= <-] & Hu & Hr & _).
           rewrite Eu in Hu. injection Hu as <-. discriminate.
      * split.
        -- rewrite list_elem_of_singleton. discriminate.
        -- intros (d & u & ro & [= <-] & Hu & _). congruence.
    + intros d [= <-] Htok.
      assert (Hs : forall l : list Ui,
                (if truthyOpt truthyStr (authService.user data ≫= authService.role)
                 then ([ToastSuccess "Connexion réussie !"; Navigate "/dashboard"],
                       delete "role"
                         (<["user" := authService.stored
                                        (JSON_stringify <$> authService.user data)]>
                            (<["token" := authService.stored
                                            (authService.access_token data)]> ls)))
                 else (l,
                       delete "role"
                         (<["user" := authService.stored
                                        (JSON_stringify <$> authService.user data)]>
                            (<["token" := authService.stored
                                            (authService.access_token data)]> ls)))).2
                = delete "role"
                    (<["user" := authService.stored
                                   (JSON_stringify <$> authService.user data)]>
                       (<["token" := authService.stored
                                       (authService.access_token data)]> ls)))
        by (intros l; now destruct (truthyOpt _ _)).
      cbn beta iota. rewrite Hs.
      unfold ProtectedRoute.ProtectedRoute, ProtectedRoute.isAuthenticated.
      rewrite lookup_delete_ne by discriminate.
      rewrite lookup_insert_ne by discriminate. rewrite lookup_insert_eq.
      destruct (authService.access_token data) as [[| c t] |]; try reflexivity.
      congruence.
  - split; [| split; [intros d [=] |]].
    + simpl. split.
      * rewrite list_elem_of_singleton. discriminate.
      * intros (d & _ & _ & [=] & _).
    + intros e [= <-]. cbn [fst snd]. split; [reflexivity |].
      eexists. split; [reflexivity |].
      apply truthyStr_spec. unfold thrownText, orStr. simpl.
      pose proof (errorText_truthy err "Erreur de connexion" eq_refl) as Ht.
      now rewrite Ht.
Qed.

(** * Roles *)

Lemma getRole_ext (decode : string -> option Access.Payload) (s1 s2 : gmap string string) :
  s1 !! "role" = s2 !! "role" -> s1 !! "userRole" = s2 !! "userRole" ->
  s1 !! "token" = s2 !! "token" ->
  Access.getRole decode s1 = Access.getRole decode s2.
Proof. intros E1 E2 E3. unfold Access.getRole. now rewrite E1, E2, E3. Qed.

(** X13. The role the dashboard finds after a login never depends on the
    user object the login returned, only on the token (and on a
    [userRole] entry already in the store). In particular, without such an
    entry and with a token that does not have three segments, the
    dashboard finds no role and shows neither section, whatever role the
    returned user has. *)
Theorem role_ignores_the_login_user
    (stringify1 stringify2 : authService.User -> string)
    (net1 net2 : authService.AuthBackend)
    (decode : string -> option Access.Payload)
    (identifier password : string) (ls : gmap string string)
    (d1 d2 : authService.LoginData) :
  net1 (authService.loginRequest identifier password) = authService.LoggedIn d1 ->
  net2 (authService.loginRequest identifier password) = authService.LoggedIn d2 ->
  authService.access_token d1 = authService.access_token d2 ->
  let s1 := (authService.loginUser stringify1 net1 identifier password ls).2 in
  let s2 := (authService.loginUser stringify2 net2 identifier password ls).2 in
  Access.getRole decode s1 = Access.getRole decode s2
  /\ (truthyOpt truthyStr (ls !! "userRole") = false ->
      length (Access.splitDots (authService.stored (authService.access_token d1))) <> 3%nat ->
      Access.getRole decode s1 = ""
      /\ Access.sections (Access.getRole decode s1)
         = {| Access.uploadSection := false; Access.analysisSection := false |}).
Proof.
  intros H1 H2 Ht s1 s2.
  assert (L : forall st net d,
            net (authService.loginRequest identifier password) = authService.LoggedIn d ->
            (authService.loginUser st net identifier password ls).2 !! "role" = None
            /\ (authService.loginUser st net identifier password ls).2 !! "userRole"
               = ls !! "userRole"
            /\ (authService.loginUser st net identifier password ls).2 !! "token"
               = Some (authService.stored (authService.access_token d))).
  { intros st net d Hn. unfold authService.loginUser. rewrite Hn. cbn [snd].
    split; [apply lookup_delete_eq |]. split.
    - rewrite lookup_delete_ne by discriminate.
      now rewrite !lookup_insert_ne by discriminate.
    - rewrite lookup_delete_ne by discriminate.
      rewrite lookup_insert_ne by discriminate. apply lookup_insert_eq. }
  destruct (L stringify1 net1 d1 H1) as (R1 & U1 & T1).
  destruct (L stringify2 net2 d2 H2) as (R2 & U2 & T2).
  split.
  - unfold s1, s2. apply getRole_ext.
    + now rewrite R1, R2.
    + now rewrite U1, U2.
    + now rewrite T1, T2, Ht.
  - intros Hu Hseg.
    assert (E : Access.getRole decode s1 = "").
    { unfold Access.getRole, s1. rewrite R1, U1, T1.
      assert (Hp : Access.payloadOf decode
                     (Some (authService.stored (authService.access_token d1))) = None).
      { unfold Access.payloadOf. apply Nat.eqb_neq in Hseg.
        now rewrite Hseg, andb_false_r. }
      rewrite Hp.
      destruct (ls !! "userRole") as [[| c x] |];
        [reflexivity | discriminate Hu | reflexivity]. }
    split; [exact E | now rewrite E].
Qed.

Lemma role_ignores_the_login_user_witness :
  length (Access.splitDots "undefined") <> 3%nat
  /\ Access.sections
       (Access.getRole Scenario2.decode
          (authService.loginUser Scenario2.stringify Scenario2.loginEmpty "awa" "secret"
             Scenario.signedIn.(localStorage)).2)
     = {| Access.uploadSection := false; Access.analysisSection := false |}.
Proof.
  assert (Hseg : length (Access.splitDots "undefined") <> 3%nat) by discriminate.
  split; [exact Hseg |].
  exact (proj2 (proj2 (role_ignores_the_login_user Scenario2.stringify
    Scenario2.stringify Scenario2.loginEmpty Scenario2.loginEmpty Scenario2.decode
    "awa" "secret" (localStorage Scenario.signedIn) _ _ eq_refl eq_refl eq_refl)
    eq_refl Hseg)).
Defined.

(** X14. Whoever is shown the upload section is shown the analysis
    section too. A non-empty [role] entry decides the role, whatever the
    [userRole] entry and the token say; so a stored role that spells
    "comptable" in any letter case opens both sections. *)
Theorem upload_section_implies_analysis
    (decode : string -> option Access.Payload) (ls : gmap string string) :
  (forall role,
     Access.uploadSection (Access.sections role) = true ->
     Access.analysisSection (Access.sections role) = true)
  /\ (forall s decode' ls', ls !! "role" = Some s -> s <> "" ->
        ls' !! "role" = Some s ->
        Access.getRole decode' ls' = Access.getRole decode ls)
  /\ (forall s, ls !! "role" = Some s -> toLowerCase s = "comptable" ->
        Access.sections (Access.getRole decode ls)
        = {| Access.uploadSection := true; Access.analysisSection := true |}).
Proof.
  assert (P : forall s d (l : gmap string string), l !! "role" = Some s -> s <> "" ->
                        Access.getRole d l = toLowerCase s).
  { intros s d l Hs Hne. apply truthyStr_spec in Hne.
    unfold Access.getRole, orOpt. rewrite Hs, Hne. simpl. now rewrite Hne. }
  split; [| split].
  - intros role. unfold Access.sections, Access.isComptable. simpl.
    intros H. apply String.eqb_eq in H. now subst.
  - intros s decode' ls' Hs Hne Hs'.
    now rewrite (P s decode' ls' Hs' Hne), (P s decode ls Hs Hne).
  - intros s Hs Hl. rewrite (P s decode ls Hs); [now rewrite Hl |].
    intros ->. discriminate.
Qed.

(** * The password pages *)

Lemma thrownText_newError (name text : string) :
  truthyStr text = true -> thrownText name (newError text) = text.
Proof. intros H. unfold thrownText, newError, orStr. cbn [message]. now rewrite H. Qed.

Lemma submit_shape (net : ResetPassword.FetchBackend) (req : Request) (fb done : string) :
  fb <> "" ->
  let r := ResetPassword.submit net req fb done in
  r.1 = [req]
  /\ (Navigate "/" ∈ r.2 <-> exists d, net req = ResetPassword.Answered true d)
  /\ (forall d, net req = ResetPassword.Answered false d ->
        r.2 = [ToastError (orStr d fb)]).
Proof.
  intros Hfb r. unfold r, ResetPassword.submit.
  destruct (net req) as [n e | [|] d]; cbn [fst snd].
  - split; [reflexivity |]. split; [| intros d [=]]. split.
    + rewrite list_elem_of_singleton. discriminate.
    + intros [d [=]].
  - split; [reflexivity |]. split; [| intros d' [=]]. split; [eauto |].
    intros _. apply elem_of_cons. right. apply elem_of_cons. now left.
  - split; [reflexivity |]. split.
    + split; [rewrite list_elem_of_singleton; discriminate | intros [d' [=]]].
    + intros d' [= <-]. do 2 f_equal. apply thrownText_newError.
      apply truthyStr_spec in Hfb. unfold orStr. destruct d as [s |]; [| exact Hfb].
      destruct (truthyStr s) eqn:E; [exact E | exact Hfb].
Qed.




(** * The year menus *)

Lemma pushUpTo_seqZ (n : nat) : forall k hi out,
  Z.of_nat n = hi + 1 - k ->
  Menus.pushUpTo n k hi out = (out ++ seqZ k (Z.of_nat n))%list.
Proof.
  induction n as [| n IH]; intros k hi out Hn.
  - simpl. now rewrite app_nil_r.
  - cbn [Menus.pushUpTo].
    replace (k <=? hi) with true by (symmetry; apply Z.leb_le; lia).
    rewrite IH by lia. rewrite <- app_assoc. f_equal.
    rewrite (seqZ_cons k (Z.of_nat (S n))) by lia.
    simpl. do 2 f_equal; lia.
Qed.

Lemma range_seqZ (lo hi : Z) :
  lo <= hi + 1 -> Menus.range lo hi = seqZ lo (hi + 1 - lo).
Proof.
  intros H. unfold Menus.range.
  rewrite (pushUpTo_seqZ _ lo hi []) by (rewrite Z2Nat.id; lia).
  simpl. now rewrite Z2Nat.id by lia.
Qed.

Lemma range_spec (lo hi k : Z) : k ∈ Menus.range lo hi <-> lo <= k <= hi.
Proof.
  destruct (Z_le_gt_dec lo (hi + 1)) as [H | H].
  - rewrite range_seqZ by exact H. rewrite elem_of_seqZ. lia.
  - unfold Menus.range.
    replace (Z.to_nat (hi + 1 - lo)) with 0%nat by lia. simpl.
    rewrite elem_of_nil. lia.
Qed.

(** X17. The upload form offers the eight years from five before the
    current one to two after it, each once and in ascending order, and the
    summary filter the three years from one before to one after, likewise.
    So every year of the filter can be uploaded for, the current year is
    in both menus, and the form can publish years, such as the one two
    years ahead, that the filter cannot show. *)
Theorem year_menus (now : Date) (k : Z) :
  let y := getFullYear now in
  Menus.anneesAutour now = [y - 5; y - 4; y - 3; y - 2; y - 1; y; y + 1; y + 2]
  /\ Menus.yearsAround now = [y - 1; y; y + 1]
  /\ (k ∈ Menus.anneesAutour now <-> y - 5 <= k <= y + 2)
  /\ (k ∈ Menus.yearsAround now <-> y - 1 <= k <= y + 1)
  /\ (k ∈ Menus.yearsAround now -> k ∈ Menus.anneesAutour now)
  /\ y ∈ Menus.yearsAround now
  /\ UploadSection.annee (UploadSection.initial now) = Int y
  /\ (y + 2) ∈ Menus.anneesAutour now
  /\ (y + 2) ∉ Menus.yearsAround now.
Proof.
  intros y. split; [| split].
  - unfold Menus.anneesAutour. fold y. rewrite range_seqZ by lia.
    replace (y + 2 + 1 - (y - 5)) with 8 by lia.
    unfold seqZ. simpl. repeat (f_equal; try lia).
  - unfold Menus.yearsAround. fold y. rewrite range_seqZ by lia.
    replace (y + 1 + 1 - (y - 1)) with 3 by lia.
    unfold seqZ. simpl. repeat (f_equal; try lia).
  - unfold Menus.anneesAutour, Menus.yearsAround. fold y.
    rewrite !range_spec. repeat split; lia || reflexivity.
Qed.

(** * The anomaly list *)

Lemma keyOf_spec (name : string) (it : AnomaliesPanel.Anomaly) :
  name <> "" -> String.eqb (AnomaliesPanel.keyOf it) name = severityIs name it.
Proof.
  intros Hn. unfold AnomaliesPanel.keyOf, severityIs, orStr.
  destruct (AnomaliesPanel.severity it) as [[| c s] |]; simpl; try reflexivity.
  all: now destruct name.
Qed.

(** The slot the code finds for an anomaly, by what its severity spells. *)
Lemma slot_keyOf (it : AnomaliesPanel.Anomaly) :
  match AnomaliesPanel.slot (AnomaliesPanel.keyOf it) with
  | AnomaliesPanel.Critical =>
      severityIs "critical" it = true /\ severityIs "warning" it = false
      /\ severityIs "info" it = false /\ inheritedName it = false
  | AnomaliesPanel.Warning =>
      severityIs "critical" it = false /\ severityIs "warning" it = true
      /\ severityIs "info" it = false /\ inheritedName it = false
  | AnomaliesPanel.Info =>
      severityIs "critical" it = false /\ severityIs "warning" it = false
      /\ severityIs "info" it = true /\ inheritedName it = false
  | AnomaliesPanel.Inherited => inheritedName it = true
  | AnomaliesPanel.Absent =>
      severityIs "critical" it = false /\ severityIs "warning" it = false
      /\ severityIs "info" it = false /\ inheritedName it = false
  end.
Proof.
  unfold inheritedName.
  rewrite <- !(keyOf_spec _ it) by discriminate.
  generalize (AnomaliesPanel.keyOf it). intros k. unfold AnomaliesPanel.slot.
  destruct (String.eqb k "critical") eqn:E1.
  { apply String.eqb_eq in E1. subst k. repeat split. }
  destruct (String.eqb k "warning") eqn:E2.
  { apply String.eqb_eq in E2. subst k. repeat split. }
  destruct (String.eqb k "info") eqn:E3.
  { apply String.eqb_eq in E3. subst k. repeat split. }
  destruct (String.eqb k "constructor" || String.eqb k "__proto__") eqn:E4.
  - reflexivity.
  - repeat split.
Qed.

Lemma placeAll_filter (l : list AnomaliesPanel.Anomaly) : forall g,
  Forall (fun it => inheritedName it = false) l ->
  AnomaliesPanel.placeAll g l
  = Some {| AnomaliesPanel.critical :=
              AnomaliesPanel.critical g ++ List.filter (severityIs "critical") l;
            AnomaliesPanel.warning :=
              AnomaliesPanel.warning g ++ List.filter (severityIs "warning") l;
            AnomaliesPanel.info :=
              AnomaliesPanel.info g ++ List.filter (severityIs "info") l |}.
Proof.
  induction l as [| it l IH]; intros g Hl.
  - simpl. rewrite !app_nil_r. now destruct g.
  - apply Forall_cons in Hl as [Hit Hl]. cbn [AnomaliesPanel.placeAll List.filter].
    unfold AnomaliesPanel.place. pose proof (slot_keyOf it) as K.
    destruct (AnomaliesPanel.slot (AnomaliesPanel.keyOf it));
      try (destruct K as (-> & -> & -> & _); rewrite IH by assumption;
           cbn [AnomaliesPanel.critical AnomaliesPanel.warning AnomaliesPanel.info];
           rewrite <- ?app_assoc; reflexivity).
    congruence.
Qed.

Lemma placeAll_inherited (l : list AnomaliesPanel.Anomaly) : forall g,
  Exists (fun it => inheritedName it = true) l ->
  AnomaliesPanel.placeAll g l = None.
Proof.
  induction l as [| it l IH]; intros g Hl; [now apply Exists_nil in Hl |].
  apply Exists_cons in Hl. cbn [AnomaliesPanel.placeAll].
  unfold AnomaliesPanel.place. pose proof (slot_keyOf it) as K.
  destruct (AnomaliesPanel.slot (AnomaliesPanel.keyOf it)) eqn:E;
    try (destruct K as (_ & _ & _ & K);
         destruct Hl as [Hl | Hl]; [congruence | now apply IH]).
  reflexivity.
Qed.

(** X18. Grouping the anomalies by severity, letter case ignored, puts
    each item whose severity is critical, warning or info into that group
    and no other, in the order received, and drops every other item; this
    is so unless some severity spells [constructor] or [__proto__], in
    which case grouping throws and the panel cannot render, loading or
    not. *)
Theorem groups_partition_by_severity
    (l : list AnomaliesPanel.Anomaly) (m : string) (y : Num) (st : AnomaliesPanel.State) :
  (Forall (fun it => inheritedName it = false) l ->
     AnomaliesPanel.groups l
     = Some {| AnomaliesPanel.critical := List.filter (severityIs "critical") l;
               AnomaliesPanel.warning := List.filter (severityIs "warning") l;
               AnomaliesPanel.info := List.filter (severityIs "info") l |})
  /\ (Exists (fun it => inheritedName it = true) l ->
      AnomaliesPanel.groups l = None)
  /\ (Exists (fun it => inheritedName it = true) (AnomaliesPanel.items st) ->
      AnomaliesPanel.render m y st = AnomaliesPanel.Crash)
  /\ (forall it, severityIs "critical" it = true ->
      severityIs "warning" it = false /\ severityIs "info" it = false)
  /\ (forall it, severityIs "warning" it = true -> severityIs "info" it = false).
Proof.
  split; [| split; [| split; [| split]]].
  - intros H. unfold AnomaliesPanel.groups. now rewrite placeAll_filter.
  - intros H. now apply placeAll_inherited.
  - intros H. unfold AnomaliesPanel.render, AnomaliesPanel.groups.
    now rewrite placeAll_inherited.
  - intros it. unfold severityIs.
    destruct (AnomaliesPanel.severity it) as [s |]; [| discriminate].
    intros H. apply String.eqb_eq in H. now rewrite H.
  - intros it. unfold severityIs.
    destruct (AnomaliesPanel.severity it) as [s |]; [| discriminate].
    intros H. apply String.eqb_eq in H. now rewrite H.
Qed.

Lemma groups_partition_by_severity_witness :
  (Forall (fun it => inheritedName it = false) Scenario2.mixed
   /\ AnomaliesPanel.groups Scenario2.mixed
      = Some {| AnomaliesPanel.critical :=
                  [ Scenario2.anomaly 2 (Some "CRITICAL");
                    Scenario2.anomaly 6 (Some "critical") ];
                AnomaliesPanel.warning := [ Scenario2.anomaly 1 (Some "warning") ];
                AnomaliesPanel.info := [ Scenario2.anomaly 4 (Some "Info") ] |})
  /\ (Exists (fun it => inheritedName it = true) Scenario2.poisoned
      /\ AnomaliesPanel.groups Scenario2.poisoned = None
      /\ AnomaliesPanel.render "mars" (Int 2024)
           {| AnomaliesPanel.loading := true;
              AnomaliesPanel.items := Scenario2.poisoned;
              AnomaliesPanel.error := "" |}
         = AnomaliesPanel.Crash).
Proof.
  assert (H : Forall (fun it => inheritedName it = false) Scenario2.mixed)
    by (repeat constructor).
  assert (P : Exists (fun it => inheritedName it = true) Scenario2.poisoned)
    by (apply Exists_cons_tl, Exists_cons_hd; reflexivity).
  split; [split; [exact H |] | split; [exact P | split]].
  - exact (proj1 (groups_partition_by_severity Scenario2.mixed "mars" (Int 2024)
                    AnomaliesPanel.initial) H).
  - exact (proj1 (proj2 (groups_partition_by_severity Scenario2.poisoned "mars" (Int 2024)
                    AnomaliesPanel.initial)) P).
  - exact (proj1 (proj2 (proj2 (groups_partition_by_severity Scenario2.poisoned "mars"
             (Int 2024)
             {| AnomaliesPanel.loading := true;
                AnomaliesPanel.items := Scenario2.poisoned;
                AnomaliesPanel.error := "" |}))) P).
Defined.

Lemma filter_unknown (name : string) (l : list AnomaliesPanel.Anomaly) :
  name = "critical" \/ name = "warning" \/ name = "info" ->
  Forall (fun it => knownSeverity it = false) l ->
  List.filter (severityIs name) l = [].
Proof.
  intros Hn Hl. induction Hl as [| it l Hit _ IH]; [reflexivity |].
  simpl. unfold knownSeverity in Hit.
  apply orb_false_iff in Hit as [Hit Hi]. apply orb_false_iff in Hit as [Hc Hw].
  destruct Hn as [-> | [-> | ->]]; [rewrite Hc | rewrite Hw | rewrite Hi]; exact IH.
Qed.

(** X19. Once loaded without error, a non-empty list of anomalies is
    shown as at most three blocks: the critical anomalies under
    "Anomalies critiques", then the warnings under "Anomalies
    importantes", then the informations under "Informations", each in
    the order received, and a block only when it has an item. So when
    no item has a known severity nothing at all is shown, not even the
    "no anomaly" notice, which is kept for the empty list. *)
Theorem anomalies_shown (m : string) (y : Num) (st : AnomaliesPanel.State) :
  AnomaliesPanel.loading st = false -> AnomaliesPanel.error st = "" ->
  Forall (fun it => inheritedName it = false) (AnomaliesPanel.items st) ->
  (AnomaliesPanel.items st = [] ->
     AnomaliesPanel.render m y st = AnomaliesPanel.NoAnomaly m y)
  /\ (AnomaliesPanel.items st <> [] ->
      AnomaliesPanel.render m y st
      = AnomaliesPanel.Blocks (List.filter nonEmpty (titled (AnomaliesPanel.items st))))
  /\ (AnomaliesPanel.items st <> [] ->
      Forall (fun it => knownSeverity it = false) (AnomaliesPanel.items st) ->
      AnomaliesPanel.render m y st = AnomaliesPanel.Blocks []).
Proof.
  intros Hl He Hok.
  assert (G : AnomaliesPanel.groups (AnomaliesPanel.items st)
              = Some {| AnomaliesPanel.critical :=
                          List.filter (severityIs "critical") (AnomaliesPanel.items st);
                        AnomaliesPanel.warning :=
                          List.filter (severityIs "warning") (AnomaliesPanel.items st);
                        AnomaliesPanel.info :=
                          List.filter (severityIs "info") (AnomaliesPanel.items st) |}).
  { unfold AnomaliesPanel.groups. now rewrite placeAll_filter. }
  assert (B : forall title l,
            AnomaliesPanel.Block title l = List.filter nonEmpty [(title, l)]).
  { intros title [| x l]; reflexivity. }
  assert (R : AnomaliesPanel.items st <> [] ->
              AnomaliesPanel.render m y st
              = AnomaliesPanel.Blocks
                  (List.filter nonEmpty (titled (AnomaliesPanel.items st)))).
  { intros Hne. unfold AnomaliesPanel.render. rewrite G, Hl, He. cbn [truthyStr].
    cbn [AnomaliesPanel.critical AnomaliesPanel.warning AnomaliesPanel.info].
    replace (length (AnomaliesPanel.items st) =? 0)%nat with false
      by (destruct (AnomaliesPanel.items st); [congruence | reflexivity]).
    rewrite !B. unfold titled. f_equal.
    change [("Anomalies critiques",
             List.filter (severityIs "critical") (AnomaliesPanel.items st));
            ("Anomalies importantes",
             List.filter (severityIs "warning") (AnomaliesPanel.items st));
            ("Informations",
             List.filter (severityIs "info") (AnomaliesPanel.items st))]
      with ([("Anomalies critiques",
              List.filter (severityIs "critical") (AnomaliesPanel.items st))]
            ++ [("Anomalies importantes",
                 List.filter (severityIs "warning") (AnomaliesPanel.items st))]
            ++ [("Informations",
                 List.filter (severityIs "info") (AnomaliesPanel.items st))])%list.
    now rewrite !List.filter_app. }
  split; [| split; [exact R |]].
  - intros E. unfold AnomaliesPanel.render. rewrite G, Hl, He, E. reflexivity.
  - intros Hne Hu. rewrite (R Hne). unfold titled.
    rewrite (filter_unknown "critical" _ (or_introl eq_refl) Hu).
    rewrite (filter_unknown "warning" _ (or_intror (or_introl eq_refl)) Hu).
    now rewrite (filter_unknown "info" _ (or_intror (or_intror eq_refl)) Hu).
Qed.

Lemma anomalies_shown_witness :
  AnomaliesPanel.render "mars" (Int 2024) (Scenario2.loaded Scenario2.mixed)
  = AnomaliesPanel.Blocks
      [ ("Anomalies critiques",
         [ Scenario2.anomaly 2 (Some "CRITICAL"); Scenario2.anomaly 6 (Some "critical") ]);
        ("Anomalies importantes", [ Scenario2.anomaly 1 (Some "warning") ]);
        ("Informations", [ Scenario2.anomaly 4 (Some "Info") ]) ]
  /\ AnomaliesPanel.render "mars" (Int 2024) (Scenario2.loaded Scenario2.warnings)
     = AnomaliesPanel.Blocks
         [ ("Anomalies importantes",
            [ Scenario2.anomaly 7 (Some "Warning"); Scenario2.anomaly 8 (Some "warning") ]) ]
  /\ AnomaliesPanel.render "mars" (Int 2024) (Scenario2.loaded Scenario2.unknown)
     = AnomaliesPanel.Blocks [].
Proof.
  assert (H1 : Forall (fun it => inheritedName it = false) Scenario2.mixed)
    by (repeat constructor).
  assert (H2 : Forall (fun it => inheritedName it = false) Scenario2.warnings)
    by (repeat constructor).
  assert (H3 : Forall (fun it => inheritedName it = false) Scenario2.unknown)
    by (repeat constructor).
  assert (N1 : Scenario2.mixed <> []) by discriminate.
  assert (N2 : Scenario2.warnings <> []) by discriminate.
  assert (N3 : Scenario2.unknown <> []) by discriminate.
  split; [| split].
  - exact (proj1 (proj2 (anomalies_shown "mars" (Int 2024)
             (Scenario2.loaded Scenario2.mixed) eq_refl eq_refl H1)) N1).
  - exact (proj1 (proj2 (anomalies_shown "mars" (Int 2024)
             (Scenario2.loaded Scenario2.warnings) eq_refl eq_refl H2)) N2).
  - exact (proj2 (proj2 (anomalies_shown "mars" (Int 2024)
             (Scenario2.loaded Scenario2.unknown) eq_refl eq_refl H3)) N3
             ltac:(repeat constructor)).
Defined.

(** * The other reads and the alert list *)

(** X20. With a token in the store the anomalies, summary, alerts and
    file-list requests all carry [Bearer <token>]. Without one they
    differ: anomalies and summary send an empty [Authorization] value, the
    alerts request has no [Authorization] header at all, and the file list
    sends the literal [Bearer null]. *)
Theorem read_requests_and_the_credential
    (ls : gmap string string) (m : string) (y : Num) (p : Period)
    (params : list (string * Value)) :
  let token := ls !! "token" in
  let anomalies := AnomaliesPanel.anomaliesRequest token m y in
  let summary := aiService.summaryRequest token m y in
  let alerts := AlertsList.alertsRequest ls p in
  let files := filesService.listRequest token params in
  (forall t, token = Some t -> t <> "" ->
     header "Authorization" anomalies = Some ("Bearer " +:+ t)
     /\ header "Authorization" summary = Some ("Bearer " +:+ t)
     /\ header "Authorization" alerts = Some ("Bearer " +:+ t)
     /\ header "Authorization" files = Some ("Bearer " +:+ t))
  /\ (token = None ->
      header "Authorization" anomalies = Some ""
      /\ header "Authorization" summary = Some ""
      /\ header "Authorization" alerts = None
      /\ header "Authorization" files = Some "Bearer null")
  /\ (token = Some "" ->
      header "Authorization" anomalies = Some ""
      /\ header "Authorization" summary = Some ""
      /\ header "Authorization" alerts = None
      /\ header "Authorization" files = Some "Bearer ").
Proof.
  intros token anomalies summary alerts files.
  unfold anomalies, summary, alerts, files, AlertsList.alertsRequest,
    AlertsList.headers, header.
  split; [| split].
  - intros t Ht Hne. fold token. rewrite Ht.
    destruct t as [| c t]; [congruence |]. repeat split.
  - intros Ht. fold token. rewrite Ht. repeat split.
  - intros Ht. fold token. rewrite Ht. repeat split.
Qed.

Lemma refresh_shape (net : Request -> Listing AlertsList.Alert)
    (ls : gmap string string) (st : AlertsList.State) :
  (AlertsList.refresh net ls st).2 = [Http (AlertsList.alertsRequest ls (AlertsList.periode st))]
  /\ AlertsList.periode (AlertsList.refresh net ls st).1 = AlertsList.periode st
  /\ AlertsList.loading (AlertsList.refresh net ls st).1 = false.
Proof. unfold AlertsList.refresh. now destruct (net _). Qed.





(** * Panels and a finished cycle *)

Lemma handler_periodChanged (st : UploadSection.State) (p : Period) :
  periodSet (submitted st) ->
  AlertsPanel.handler (UploadSection.periodChanged st) p = submitted st.
Proof.
  intros (Hm & Hn & Hz). simpl in Hm, Hn, Hz.
  apply truthyStr_spec in Hm.
  assert (Hy : truthyNum (UploadSection.annee st) = true) by now apply truthyNum_set.
  unfold AlertsPanel.handler, UploadSection.periodChanged. simpl.
  now rewrite Hm, Hy.
Qed.

(** X23. After a cycle that went through, every panel that was mounted
    and listening shows the submitted period, and a panel that was not
    listening is left as it was. *)
Theorem panels_follow_a_successful_cycle
    (net : Backend) (st : UploadSection.State) (w : World) (id : nat) (p : Panel) :
  idle st ->
  awaitingConfirmation (UploadSection.handleUploadClick st) ->
  let token := Window.getItem "token" w in
  succeeded net (UploadSection.uploadRequest token st) = true ->
  succeeded net (UploadSection.analysisRequest token st) = true ->
  NoDup (listeners w) ->
  panels w !! id = Some p ->
  let w' := (UploadSection.performUploadAndAnalyze net
               (UploadSection.handleUploadClick st) w).2 in
  (id ∈ listeners w ->
     exists p', panels w' !! id = Some p' /\ Window.panelPeriod p' = submitted st)
  /\ (id ∉ listeners w -> panels w' !! id = Some p).
Proof.
  intros Hi Ha token Hup Han Hnd Hp w'.
  pose proof (awaiting_accepts st Hi Ha) as Hacc.
  pose proof (accepts_period st Hacc) as Hset.
  unfold w'. rewrite (handleUploadClick_accepts st Hacc).
  rewrite performUploadAndAnalyze_cases.
  change (UploadSection.uploadRequest (Window.getItem "token" w) (opened st))
    with (UploadSection.uploadRequest token st).
  change (UploadSection.analysisRequest (Window.getItem "token" w) (opened st))
    with (UploadSection.analysisRequest token st).
  unfold succeeded in Hup, Han.
  destruct (net (UploadSection.uploadRequest token st)); [| discriminate].
  destruct (net (UploadSection.analysisRequest token st)); [| discriminate].
  cbn [snd].
  set (v := Window.setItem analysisYear _ _).
  assert (Hv : listeners v = listeners w /\ panels v = panels w) by (split; reflexivity).
  destruct Hv as [Hvl Hvp]. split.
  - intros Hin.
    destruct (dispatchEvent_period net (UploadSection.periodChanged (opened st)) v id p)
      as (p' & E & P); [now rewrite Hvl | now rewrite Hvl | now rewrite Hvp |].
    exists p'. split; [exact E |]. rewrite P.
    now apply (handler_periodChanged st).
  - intros Hout. rewrite dispatchEvent_other by now rewrite Hvl.
    now rewrite Hvp.
Qed.

Lemma panels_follow_a_successful_cycle_witness :
  idle Scenario.selection
  /\ exists p',
       panels (UploadSection.performUploadAndAnalyze Scenario.up
                 (UploadSection.handleUploadClick Scenario.selection)
                 Scenario.dashboard).2 !! 1%nat = Some p'
       /\ Window.panelPeriod p' = {| mois := "mars"; annee := Int 2024 |}.
Proof.
  assert (Ha : awaitingConfirmation (UploadSection.handleUploadClick Scenario.selection))
    by (split; reflexivity).
  destruct dashboard_listeners as [Hnd _].
  assert (Hin : 1%nat ∈ listeners Scenario.dashboard).
  { change (listeners Scenario.dashboard) with [0%nat; 1%nat; 2%nat].
    apply elem_of_cons. right. apply elem_of_cons. now left. }
  split; [exact selection_idle |].
  refine (proj1 (panels_follow_a_successful_cycle Scenario.up Scenario.selection
    Scenario.dashboard 1%nat
    (PDashboard (Dashboard.initialPeriod (localStorage Scenario.signedIn) Scenario.now))
    selection_idle Ha eq_refl eq_refl Hnd _) Hin).
  reflexivity.
Defined.



